(** * Hospital bed and medicine availability tracker: the client views

    A shallow embedding of the three React views of the dashboard
    ([Dashboard], [MedicineStock], [Alerts]) and of the JavaScript
    primitives they call, followed by the properties of the specification
    that are settled on it.

    Conventions.
    - A JavaScript number that the code divides and compares
      ([getAvailabilityStatus]) is an IEEE 754 binary64 value: Rocq's
      primitive [float], whose operations are the ones of the hardware.
      What a float denotes, and the ratio of two counts, are real numbers.
    - Array lengths, page numbers and time values are integers below
      [2 ^ 53] in magnitude, where binary64 holds them exactly and
      [Math.floor] and [Math.ceil] of their quotients by 6, 60000, 3600000
      and 86400000 are the integer floor and ceiling; they are modelled
      in [Z].
    - A JavaScript string is a [string] holding its UTF-8 form;
      [toLowerCase] and [toUpperCase] convert its code points by the
      Unicode character database, with the special casing that holds in
      every language.
    - An array that the code mutates or whose identity the code observes
      lives in a store and is named by a location ([Heap]). *)

From Stdlib Require Import ZArith List String Ascii Bool Lia Floats.
From Stdlib Require Import Sorted Permutation DecimalString.
From Stdlib Require Import Reals Lra.
From stdpp Require Import gmap.
Import ListNotations.

Local Open Scope string_scope.
Local Open Scope Z_scope.

(** ** JavaScript primitives *)

Module JS.

(** *** Strings

    A [string] holds the UTF-8 form of a JavaScript string, byte by
    byte; the strings of the views are well formed (no lone surrogate),
    and a sequence of bytes that is not UTF-8 stands for no string of
    the program. The case conversions work on the code points of the
    string, by the Unicode character database (version 14.0). *)

Definition code (b : ascii) : Z := Z.of_N (N_of_ascii b).
Definition byte (n : Z) : ascii := ascii_of_N (Z.to_N n).

Definition utf8_encode_point (c : Z) : string :=
  if c <? 0x80 then String (byte c) ""
  else if c <? 0x800 then
    String (byte (0xC0 + c / 64)) (String (byte (0x80 + c mod 64)) "")
  else if c <? 0x10000 then
    String (byte (0xE0 + c / 4096))
      (String (byte (0x80 + c / 64 mod 64)) (String (byte (0x80 + c mod 64)) ""))
  else
    String (byte (0xF0 + c / 262144))
      (String (byte (0x80 + c / 4096 mod 64))
         (String (byte (0x80 + c / 64 mod 64))
            (String (byte (0x80 + c mod 64)) ""))).

Fixpoint utf8_encode (points : list Z) : string :=
  match points with
  | [] => ""
  | c :: points' => utf8_encode_point c ++ utf8_encode points'
  end.

(** The code points of a string: [pending] bytes of the current
    sequence are still to come and [acc] holds the bits read so far. *)
Fixpoint utf8_decode_from (pending : nat) (acc : Z) (s : string) : list Z :=
  match s with
  | "" => []
  | String b s' =>
      let n := code b in
      match pending with
      | O =>
          if n <? 0x80 then n :: utf8_decode_from 0 0 s'
          else if n <? 0xE0 then utf8_decode_from 1 (n mod 32) s'
          else if n <? 0xF0 then utf8_decode_from 2 (n mod 16) s'
          else utf8_decode_from 3 (n mod 8) s'
      | S O => (acc * 64 + n mod 64) :: utf8_decode_from 0 0 s'
      | S k => utf8_decode_from k (acc * 64 + n mod 64) s'
      end
  end.

Definition utf8_decode (s : string) : list Z := utf8_decode_from 0 0 s.

(** **** The character data

    A run [(first, last, step, delta)] maps the code points [first],
    [first + step], ... up to [last] to themselves plus [delta]. *)

(** The code points with a lowercase mapping (UnicodeData.txt). *)
Definition lower_runs : list (Z * Z * Z * Z) :=
  [(0x41, 0x5A, 1, 32); (0xC0, 0xD6, 1, 32); (0xD8, 0xDE, 1, 32);
   (0x100, 0x12E, 2, 1); (0x132, 0x136, 2, 1); (0x139, 0x147, 2, 1);
   (0x14A, 0x176, 2, 1); (0x178, 0x178, 1, -121); (0x179, 0x17D, 2, 1);
   (0x181, 0x181, 1, 210); (0x182, 0x184, 2, 1); (0x186, 0x186, 1, 206);
   (0x187, 0x187, 1, 1); (0x189, 0x18A, 1, 205); (0x18B, 0x18B, 1, 1);
   (0x18E, 0x18E, 1, 79); (0x18F, 0x18F, 1, 202); (0x190, 0x190, 1, 203);
   (0x191, 0x191, 1, 1); (0x193, 0x193, 1, 205); (0x194, 0x194, 1, 207);
   (0x196, 0x196, 1, 211); (0x197, 0x197, 1, 209); (0x198, 0x198, 1, 1);
   (0x19C, 0x19C, 1, 211); (0x19D, 0x19D, 1, 213); (0x19F, 0x19F, 1, 214);
   (0x1A0, 0x1A4, 2, 1); (0x1A6, 0x1A6, 1, 218); (0x1A7, 0x1A7, 1, 1);
   (0x1A9, 0x1A9, 1, 218); (0x1AC, 0x1AC, 1, 1); (0x1AE, 0x1AE, 1, 218);
   (0x1AF, 0x1AF, 1, 1); (0x1B1, 0x1B2, 1, 217); (0x1B3, 0x1B5, 2, 1);
   (0x1B7, 0x1B7, 1, 219); (0x1B8, 0x1B8, 1, 1); (0x1BC, 0x1BC, 1, 1);
   (0x1C4, 0x1C4, 1, 2); (0x1C5, 0x1C5, 1, 1); (0x1C7, 0x1C7, 1, 2);
   (0x1C8, 0x1C8, 1, 1); (0x1CA, 0x1CA, 1, 2); (0x1CB, 0x1DB, 2, 1);
   (0x1DE, 0x1EE, 2, 1); (0x1F1, 0x1F1, 1, 2); (0x1F2, 0x1F4, 2, 1);
   (0x1F6, 0x1F6, 1, -97); (0x1F7, 0x1F7, 1, -56); (0x1F8, 0x21E, 2, 1);
   (0x220, 0x220, 1, -130); (0x222, 0x232, 2, 1); (0x23A, 0x23A, 1, 10795);
   (0x23B, 0x23B, 1, 1); (0x23D, 0x23D, 1, -163); (0x23E, 0x23E, 1, 10792);
   (0x241, 0x241, 1, 1); (0x243, 0x243, 1, -195); (0x244, 0x244, 1, 69);
   (0x245, 0x245, 1, 71); (0x246, 0x24E, 2, 1); (0x370, 0x372, 2, 1);
   (0x376, 0x376, 1, 1); (0x37F, 0x37F, 1, 116); (0x386, 0x386, 1, 38);
   (0x388, 0x38A, 1, 37); (0x38C, 0x38C, 1, 64); (0x38E, 0x38F, 1, 63);
   (0x391, 0x3A1, 1, 32); (0x3A3, 0x3AB, 1, 32); (0x3CF, 0x3CF, 1, 8);
   (0x3D8, 0x3EE, 2, 1); (0x3F4, 0x3F4, 1, -60); (0x3F7, 0x3F7, 1, 1);
   (0x3F9, 0x3F9, 1, -7); (0x3FA, 0x3FA, 1, 1); (0x3FD, 0x3FF, 1, -130);
   (0x400, 0x40F, 1, 80); (0x410, 0x42F, 1, 32); (0x460, 0x480, 2, 1);
   (0x48A, 0x4BE, 2, 1); (0x4C0, 0x4C0, 1, 15); (0x4C1, 0x4CD, 2, 1);
   (0x4D0, 0x52E, 2, 1); (0x531, 0x556, 1, 48); (0x10A0, 0x10C5, 1, 7264);
   (0x10C7, 0x10C7, 1, 7264); (0x10CD, 0x10CD, 1, 7264);
   (0x13A0, 0x13EF, 1, 38864); (0x13F0, 0x13F5, 1, 8);
   (0x1C90, 0x1CBA, 1, -3008); (0x1CBD, 0x1CBF, 1, -3008);
   (0x1E00, 0x1E94, 2, 1); (0x1E9E, 0x1E9E, 1, -7615); (0x1EA0, 0x1EFE, 2, 1);
   (0x1F08, 0x1F0F, 1, -8); (0x1F18, 0x1F1D, 1, -8); (0x1F28, 0x1F2F, 1, -8);
   (0x1F38, 0x1F3F, 1, -8); (0x1F48, 0x1F4D, 1, -8); (0x1F59, 0x1F5F, 2, -8);
   (0x1F68, 0x1F6F, 1, -8); (0x1F88, 0x1F8F, 1, -8); (0x1F98, 0x1F9F, 1, -8);
   (0x1FA8, 0x1FAF, 1, -8); (0x1FB8, 0x1FB9, 1, -8); (0x1FBA, 0x1FBB, 1, -74);
   (0x1FBC, 0x1FBC, 1, -9); (0x1FC8, 0x1FCB, 1, -86); (0x1FCC, 0x1FCC, 1, -9);
   (0x1FD8, 0x1FD9, 1, -8); (0x1FDA, 0x1FDB, 1, -100);
   (0x1FE8, 0x1FE9, 1, -8); (0x1FEA, 0x1FEB, 1, -112);
   (0x1FEC, 0x1FEC, 1, -7); (0x1FF8, 0x1FF9, 1, -128);
   (0x1FFA, 0x1FFB, 1, -126); (0x1FFC, 0x1FFC, 1, -9);
   (0x2126, 0x2126, 1, -7517); (0x212A, 0x212A, 1, -8383);
   (0x212B, 0x212B, 1, -8262); (0x2132, 0x2132, 1, 28);
   (0x2160, 0x216F, 1, 16); (0x2183, 0x2183, 1, 1); (0x24B6, 0x24CF, 1, 26);
   (0x2C00, 0x2C2F, 1, 48); (0x2C60, 0x2C60, 1, 1);
   (0x2C62, 0x2C62, 1, -10743); (0x2C63, 0x2C63, 1, -3814);
   (0x2C64, 0x2C64, 1, -10727); (0x2C67, 0x2C6B, 2, 1);
   (0x2C6D, 0x2C6D, 1, -10780); (0x2C6E, 0x2C6E, 1, -10749);
   (0x2C6F, 0x2C6F, 1, -10783); (0x2C70, 0x2C70, 1, -10782);
   (0x2C72, 0x2C72, 1, 1); (0x2C75, 0x2C75, 1, 1);
   (0x2C7E, 0x2C7F, 1, -10815); (0x2C80, 0x2CE2, 2, 1);
   (0x2CEB, 0x2CED, 2, 1); (0x2CF2, 0x2CF2, 1, 1); (0xA640, 0xA66C, 2, 1);
   (0xA680, 0xA69A, 2, 1); (0xA722, 0xA72E, 2, 1); (0xA732, 0xA76E, 2, 1);
   (0xA779, 0xA77B, 2, 1); (0xA77D, 0xA77D, 1, -35332);
   (0xA77E, 0xA786, 2, 1); (0xA78B, 0xA78B, 1, 1);
   (0xA78D, 0xA78D, 1, -42280); (0xA790, 0xA792, 2, 1);
   (0xA796, 0xA7A8, 2, 1); (0xA7AA, 0xA7AA, 1, -42308);
   (0xA7AB, 0xA7AB, 1, -42319); (0xA7AC, 0xA7AC, 1, -42315);
   (0xA7AD, 0xA7AD, 1, -42305); (0xA7AE, 0xA7AE, 1, -42308);
   (0xA7B0, 0xA7B0, 1, -42258); (0xA7B1, 0xA7B1, 1, -42282);
   (0xA7B2, 0xA7B2, 1, -42261); (0xA7B3, 0xA7B3, 1, 928);
   (0xA7B4, 0xA7C2, 2, 1); (0xA7C4, 0xA7C4, 1, -48);
   (0xA7C5, 0xA7C5, 1, -42307); (0xA7C6, 0xA7C6, 1, -35384);
   (0xA7C7, 0xA7C9, 2, 1); (0xA7D0, 0xA7D0, 1, 1); (0xA7D6, 0xA7D8, 2, 1);
   (0xA7F5, 0xA7F5, 1, 1); (0xFF21, 0xFF3A, 1, 32); (0x10400, 0x10427, 1, 40);
   (0x104B0, 0x104D3, 1, 40); (0x10570, 0x1057A, 1, 39);
   (0x1057C, 0x1058A, 1, 39); (0x1058C, 0x10592, 1, 39);
   (0x10594, 0x10595, 1, 39); (0x10C80, 0x10CB2, 1, 64);
   (0x118A0, 0x118BF, 1, 32); (0x16E40, 0x16E5F, 1, 32);
   (0x1E900, 0x1E921, 1, 34)].

(** The code points with a single uppercase mapping (UnicodeData.txt). *)
Definition upper_runs : list (Z * Z * Z * Z) :=
  [(0x61, 0x7A, 1, -32); (0xB5, 0xB5, 1, 743); (0xE0, 0xF6, 1, -32);
   (0xF8, 0xFE, 1, -32); (0xFF, 0xFF, 1, 121); (0x101, 0x12F, 2, -1);
   (0x131, 0x131, 1, -232); (0x133, 0x137, 2, -1); (0x13A, 0x148, 2, -1);
   (0x14B, 0x177, 2, -1); (0x17A, 0x17E, 2, -1); (0x17F, 0x17F, 1, -300);
   (0x180, 0x180, 1, 195); (0x183, 0x185, 2, -1); (0x188, 0x188, 1, -1);
   (0x18C, 0x18C, 1, -1); (0x192, 0x192, 1, -1); (0x195, 0x195, 1, 97);
   (0x199, 0x199, 1, -1); (0x19A, 0x19A, 1, 163); (0x19E, 0x19E, 1, 130);
   (0x1A1, 0x1A5, 2, -1); (0x1A8, 0x1A8, 1, -1); (0x1AD, 0x1AD, 1, -1);
   (0x1B0, 0x1B0, 1, -1); (0x1B4, 0x1B6, 2, -1); (0x1B9, 0x1B9, 1, -1);
   (0x1BD, 0x1BD, 1, -1); (0x1BF, 0x1BF, 1, 56); (0x1C5, 0x1C5, 1, -1);
   (0x1C6, 0x1C6, 1, -2); (0x1C8, 0x1C8, 1, -1); (0x1C9, 0x1C9, 1, -2);
   (0x1CB, 0x1CB, 1, -1); (0x1CC, 0x1CC, 1, -2); (0x1CE, 0x1DC, 2, -1);
   (0x1DD, 0x1DD, 1, -79); (0x1DF, 0x1EF, 2, -1); (0x1F2, 0x1F2, 1, -1);
   (0x1F3, 0x1F3, 1, -2); (0x1F5, 0x1F5, 1, -1); (0x1F9, 0x21F, 2, -1);
   (0x223, 0x233, 2, -1); (0x23C, 0x23C, 1, -1); (0x23F, 0x240, 1, 10815);
   (0x242, 0x242, 1, -1); (0x247, 0x24F, 2, -1); (0x250, 0x250, 1, 10783);
   (0x251, 0x251, 1, 10780); (0x252, 0x252, 1, 10782);
   (0x253, 0x253, 1, -210); (0x254, 0x254, 1, -206); (0x256, 0x257, 1, -205);
   (0x259, 0x259, 1, -202); (0x25B, 0x25B, 1, -203); (0x25C, 0x25C, 1, 42319);
   (0x260, 0x260, 1, -205); (0x261, 0x261, 1, 42315); (0x263, 0x263, 1, -207);
   (0x265, 0x265, 1, 42280); (0x266, 0x266, 1, 42308);
   (0x268, 0x268, 1, -209); (0x269, 0x269, 1, -211); (0x26A, 0x26A, 1, 42308);
   (0x26B, 0x26B, 1, 10743); (0x26C, 0x26C, 1, 42305);
   (0x26F, 0x26F, 1, -211); (0x271, 0x271, 1, 10749); (0x272, 0x272, 1, -213);
   (0x275, 0x275, 1, -214); (0x27D, 0x27D, 1, 10727); (0x280, 0x280, 1, -218);
   (0x282, 0x282, 1, 42307); (0x283, 0x283, 1, -218);
   (0x287, 0x287, 1, 42282); (0x288, 0x288, 1, -218); (0x289, 0x289, 1, -69);
   (0x28A, 0x28B, 1, -217); (0x28C, 0x28C, 1, -71); (0x292, 0x292, 1, -219);
   (0x29D, 0x29D, 1, 42261); (0x29E, 0x29E, 1, 42258); (0x345, 0x345, 1, 84);
   (0x371, 0x373, 2, -1); (0x377, 0x377, 1, -1); (0x37B, 0x37D, 1, 130);
   (0x3AC, 0x3AC, 1, -38); (0x3AD, 0x3AF, 1, -37); (0x3B1, 0x3C1, 1, -32);
   (0x3C2, 0x3C2, 1, -31); (0x3C3, 0x3CB, 1, -32); (0x3CC, 0x3CC, 1, -64);
   (0x3CD, 0x3CE, 1, -63); (0x3D0, 0x3D0, 1, -62); (0x3D1, 0x3D1, 1, -57);
   (0x3D5, 0x3D5, 1, -47); (0x3D6, 0x3D6, 1, -54); (0x3D7, 0x3D7, 1, -8);
   (0x3D9, 0x3EF, 2, -1); (0x3F0, 0x3F0, 1, -86); (0x3F1, 0x3F1, 1, -80);
   (0x3F2, 0x3F2, 1, 7); (0x3F3, 0x3F3, 1, -116); (0x3F5, 0x3F5, 1, -96);
   (0x3F8, 0x3F8, 1, -1); (0x3FB, 0x3FB, 1, -1); (0x430, 0x44F, 1, -32);
   (0x450, 0x45F, 1, -80); (0x461, 0x481, 2, -1); (0x48B, 0x4BF, 2, -1);
   (0x4C2, 0x4CE, 2, -1); (0x4CF, 0x4CF, 1, -15); (0x4D1, 0x52F, 2, -1);
   (0x561, 0x586, 1, -48); (0x10D0, 0x10FA, 1, 3008);
   (0x10FD, 0x10FF, 1, 3008); (0x13F8, 0x13FD, 1, -8);
   (0x1C80, 0x1C80, 1, -6254); (0x1C81, 0x1C81, 1, -6253);
   (0x1C82, 0x1C82, 1, -6244); (0x1C83, 0x1C84, 1, -6242);
   (0x1C85, 0x1C85, 1, -6243); (0x1C86, 0x1C86, 1, -6236);
   (0x1C87, 0x1C87, 1, -6181); (0x1C88, 0x1C88, 1, 35266);
   (0x1D79, 0x1D79, 1, 35332); (0x1D7D, 0x1D7D, 1, 3814);
   (0x1D8E, 0x1D8E, 1, 35384); (0x1E01, 0x1E95, 2, -1);
   (0x1E9B, 0x1E9B, 1, -59); (0x1EA1, 0x1EFF, 2, -1); (0x1F00, 0x1F07, 1, 8);
   (0x1F10, 0x1F15, 1, 8); (0x1F20, 0x1F27, 1, 8); (0x1F30, 0x1F37, 1, 8);
   (0x1F40, 0x1F45, 1, 8); (0x1F51, 0x1F57, 2, 8); (0x1F60, 0x1F67, 1, 8);
   (0x1F70, 0x1F71, 1, 74); (0x1F72, 0x1F75, 1, 86); (0x1F76, 0x1F77, 1, 100);
   (0x1F78, 0x1F79, 1, 128); (0x1F7A, 0x1F7B, 1, 112);
   (0x1F7C, 0x1F7D, 1, 126); (0x1FB0, 0x1FB1, 1, 8);
   (0x1FBE, 0x1FBE, 1, -7205); (0x1FD0, 0x1FD1, 1, 8); (0x1FE0, 0x1FE1, 1, 8);
   (0x1FE5, 0x1FE5, 1, 7); (0x214E, 0x214E, 1, -28); (0x2170, 0x217F, 1, -16);
   (0x2184, 0x2184, 1, -1); (0x24D0, 0x24E9, 1, -26);
   (0x2C30, 0x2C5F, 1, -48); (0x2C61, 0x2C61, 1, -1);
   (0x2C65, 0x2C65, 1, -10795); (0x2C66, 0x2C66, 1, -10792);
   (0x2C68, 0x2C6C, 2, -1); (0x2C73, 0x2C73, 1, -1); (0x2C76, 0x2C76, 1, -1);
   (0x2C81, 0x2CE3, 2, -1); (0x2CEC, 0x2CEE, 2, -1); (0x2CF3, 0x2CF3, 1, -1);
   (0x2D00, 0x2D25, 1, -7264); (0x2D27, 0x2D27, 1, -7264);
   (0x2D2D, 0x2D2D, 1, -7264); (0xA641, 0xA66D, 2, -1);
   (0xA681, 0xA69B, 2, -1); (0xA723, 0xA72F, 2, -1); (0xA733, 0xA76F, 2, -1);
   (0xA77A, 0xA77C, 2, -1); (0xA77F, 0xA787, 2, -1); (0xA78C, 0xA78C, 1, -1);
   (0xA791, 0xA793, 2, -1); (0xA794, 0xA794, 1, 48); (0xA797, 0xA7A9, 2, -1);
   (0xA7B5, 0xA7C3, 2, -1); (0xA7C8, 0xA7CA, 2, -1); (0xA7D1, 0xA7D1, 1, -1);
   (0xA7D7, 0xA7D9, 2, -1); (0xA7F6, 0xA7F6, 1, -1);
   (0xAB53, 0xAB53, 1, -928); (0xAB70, 0xABBF, 1, -38864);
   (0xFF41, 0xFF5A, 1, -32); (0x10428, 0x1044F, 1, -40);
   (0x104D8, 0x104FB, 1, -40); (0x10597, 0x105A1, 1, -39);
   (0x105A3, 0x105B1, 1, -39); (0x105B3, 0x105B9, 1, -39);
   (0x105BB, 0x105BC, 1, -39); (0x10CC0, 0x10CF2, 1, -64);
   (0x118C0, 0x118DF, 1, -32); (0x16E60, 0x16E7F, 1, -32);
   (0x1E922, 0x1E943, 1, -34)].

(** The code points whose uppercase form has several code points
    (SpecialCasing.txt, the mappings without a condition). *)
Definition upper_special : list (Z * list Z) :=
  [(0xDF, [0x53; 0x53]); (0x149, [0x2BC; 0x4E]); (0x1F0, [0x4A; 0x30C]);
   (0x390, [0x399; 0x308; 0x301]); (0x3B0, [0x3A5; 0x308; 0x301]);
   (0x587, [0x535; 0x552]); (0x1E96, [0x48; 0x331]); (0x1E97, [0x54; 0x308]);
   (0x1E98, [0x57; 0x30A]); (0x1E99, [0x59; 0x30A]); (0x1E9A, [0x41; 0x2BE]);
   (0x1F50, [0x3A5; 0x313]); (0x1F52, [0x3A5; 0x313; 0x300]);
   (0x1F54, [0x3A5; 0x313; 0x301]); (0x1F56, [0x3A5; 0x313; 0x342]);
   (0x1F80, [0x1F08; 0x399]); (0x1F81, [0x1F09; 0x399]);
   (0x1F82, [0x1F0A; 0x399]); (0x1F83, [0x1F0B; 0x399]);
   (0x1F84, [0x1F0C; 0x399]); (0x1F85, [0x1F0D; 0x399]);
   (0x1F86, [0x1F0E; 0x399]); (0x1F87, [0x1F0F; 0x399]);
   (0x1F88, [0x1F08; 0x399]); (0x1F89, [0x1F09; 0x399]);
   (0x1F8A, [0x1F0A; 0x399]); (0x1F8B, [0x1F0B; 0x399]);
   (0x1F8C, [0x1F0C; 0x399]); (0x1F8D, [0x1F0D; 0x399]);
   (0x1F8E, [0x1F0E; 0x399]); (0x1F8F, [0x1F0F; 0x399]);
   (0x1F90, [0x1F28; 0x399]); (0x1F91, [0x1F29; 0x399]);
   (0x1F92, [0x1F2A; 0x399]); (0x1F93, [0x1F2B; 0x399]);
   (0x1F94, [0x1F2C; 0x399]); (0x1F95, [0x1F2D; 0x399]);
   (0x1F96, [0x1F2E; 0x399]); (0x1F97, [0x1F2F; 0x399]);
   (0x1F98, [0x1F28; 0x399]); (0x1F99, [0x1F29; 0x399]);
   (0x1F9A, [0x1F2A; 0x399]); (0x1F9B, [0x1F2B; 0x399]);
   (0x1F9C, [0x1F2C; 0x399]); (0x1F9D, [0x1F2D; 0x399]);
   (0x1F9E, [0x1F2E; 0x399]); (0x1F9F, [0x1F2F; 0x399]);
   (0x1FA0, [0x1F68; 0x399]); (0x1FA1, [0x1F69; 0x399]);
   (0x1FA2, [0x1F6A; 0x399]); (0x1FA3, [0x1F6B; 0x399]);
   (0x1FA4, [0x1F6C; 0x399]); (0x1FA5, [0x1F6D; 0x399]);
   (0x1FA6, [0x1F6E; 0x399]); (0x1FA7, [0x1F6F; 0x399]);
   (0x1FA8, [0x1F68; 0x399]); (0x1FA9, [0x1F69; 0x399]);
   (0x1FAA, [0x1F6A; 0x399]); (0x1FAB, [0x1F6B; 0x399]);
   (0x1FAC, [0x1F6C; 0x399]); (0x1FAD, [0x1F6D; 0x399]);
   (0x1FAE, [0x1F6E; 0x399]); (0x1FAF, [0x1F6F; 0x399]);
   (0x1FB2, [0x1FBA; 0x399]); (0x1FB3, [0x391; 0x399]);
   (0x1FB4, [0x386; 0x399]); (0x1FB6, [0x391; 0x342]);
   (0x1FB7, [0x391; 0x342; 0x399]); (0x1FBC, [0x391; 0x399]);
   (0x1FC2, [0x1FCA; 0x399]); (0x1FC3, [0x397; 0x399]);
   (0x1FC4, [0x389; 0x399]); (0x1FC6, [0x397; 0x342]);
   (0x1FC7, [0x397; 0x342; 0x399]); (0x1FCC, [0x397; 0x399]);
   (0x1FD2, [0x399; 0x308; 0x300]); (0x1FD3, [0x399; 0x308; 0x301]);
   (0x1FD6, [0x399; 0x342]); (0x1FD7, [0x399; 0x308; 0x342]);
   (0x1FE2, [0x3A5; 0x308; 0x300]); (0x1FE3, [0x3A5; 0x308; 0x301]);
   (0x1FE4, [0x3A1; 0x313]); (0x1FE6, [0x3A5; 0x342]);
   (0x1FE7, [0x3A5; 0x308; 0x342]); (0x1FF2, [0x1FFA; 0x399]);
   (0x1FF3, [0x3A9; 0x399]); (0x1FF4, [0x38F; 0x399]);
   (0x1FF6, [0x3A9; 0x342]); (0x1FF7, [0x3A9; 0x342; 0x399]);
   (0x1FFC, [0x3A9; 0x399]); (0xFB00, [0x46; 0x46]); (0xFB01, [0x46; 0x49]);
   (0xFB02, [0x46; 0x4C]); (0xFB03, [0x46; 0x46; 0x49]);
   (0xFB04, [0x46; 0x46; 0x4C]); (0xFB05, [0x53; 0x54]);
   (0xFB06, [0x53; 0x54]); (0xFB13, [0x544; 0x546]); (0xFB14, [0x544; 0x535]);
   (0xFB15, [0x544; 0x53B]); (0xFB16, [0x54E; 0x546]);
   (0xFB17, [0x544; 0x53D])].

(** The property Case_Ignorable (DerivedCoreProperties.txt). *)
Definition case_ignorable_ranges : list (Z * Z) :=
  [(0x27, 0x27); (0x2E, 0x2E); (0x3A, 0x3A); (0x5E, 0x5E); (0x60, 0x60);
   (0xA8, 0xA8); (0xAD, 0xAD); (0xAF, 0xAF); (0xB4, 0xB4); (0xB7, 0xB8);
   (0x2B0, 0x36F); (0x374, 0x375); (0x37A, 0x37A); (0x384, 0x385);
   (0x387, 0x387); (0x483, 0x489); (0x559, 0x559); (0x55F, 0x55F);
   (0x591, 0x5BD); (0x5BF, 0x5BF); (0x5C1, 0x5C2); (0x5C4, 0x5C5);
   (0x5C7, 0x5C7); (0x5F4, 0x5F4); (0x600, 0x605); (0x610, 0x61A);
   (0x61C, 0x61C); (0x640, 0x640); (0x64B, 0x65F); (0x670, 0x670);
   (0x6D6, 0x6DD); (0x6DF, 0x6E8); (0x6EA, 0x6ED); (0x70F, 0x70F);
   (0x711, 0x711); (0x730, 0x74A); (0x7A6, 0x7B0); (0x7EB, 0x7F5);
   (0x7FA, 0x7FA); (0x7FD, 0x7FD); (0x816, 0x82D); (0x859, 0x85B);
   (0x888, 0x888); (0x890, 0x891); (0x898, 0x89F); (0x8C9, 0x902);
   (0x93A, 0x93A); (0x93C, 0x93C); (0x941, 0x948); (0x94D, 0x94D);
   (0x951, 0x957); (0x962, 0x963); (0x971, 0x971); (0x981, 0x981);
   (0x9BC, 0x9BC); (0x9C1, 0x9C4); (0x9CD, 0x9CD); (0x9E2, 0x9E3);
   (0x9FE, 0x9FE); (0xA01, 0xA02); (0xA3C, 0xA3C); (0xA41, 0xA42);
   (0xA47, 0xA48); (0xA4B, 0xA4D); (0xA51, 0xA51); (0xA70, 0xA71);
   (0xA75, 0xA75); (0xA81, 0xA82); (0xABC, 0xABC); (0xAC1, 0xAC5);
   (0xAC7, 0xAC8); (0xACD, 0xACD); (0xAE2, 0xAE3); (0xAFA, 0xAFF);
   (0xB01, 0xB01); (0xB3C, 0xB3C); (0xB3F, 0xB3F); (0xB41, 0xB44);
   (0xB4D, 0xB4D); (0xB55, 0xB56); (0xB62, 0xB63); (0xB82, 0xB82);
   (0xBC0, 0xBC0); (0xBCD, 0xBCD); (0xC00, 0xC00); (0xC04, 0xC04);
   (0xC3C, 0xC3C); (0xC3E, 0xC40); (0xC46, 0xC48); (0xC4A, 0xC4D);
   (0xC55, 0xC56); (0xC62, 0xC63); (0xC81, 0xC81); (0xCBC, 0xCBC);
   (0xCBF, 0xCBF); (0xCC6, 0xCC6); (0xCCC, 0xCCD); (0xCE2, 0xCE3);
   (0xD00, 0xD01); (0xD3B, 0xD3C); (0xD41, 0xD44); (0xD4D, 0xD4D);
   (0xD62, 0xD63); (0xD81, 0xD81); (0xDCA, 0xDCA); (0xDD2, 0xDD4);
   (0xDD6, 0xDD6); (0xE31, 0xE31); (0xE34, 0xE3A); (0xE46, 0xE4E);
   (0xEB1, 0xEB1); (0xEB4, 0xEBC); (0xEC6, 0xEC6); (0xEC8, 0xECD);
   (0xF18, 0xF19); (0xF35, 0xF35); (0xF37, 0xF37); (0xF39, 0xF39);
   (0xF71, 0xF7E); (0xF80, 0xF84); (0xF86, 0xF87); (0xF8D, 0xF97);
   (0xF99, 0xFBC); (0xFC6, 0xFC6); (0x102D, 0x1030); (0x1032, 0x1037);
   (0x1039, 0x103A); (0x103D, 0x103E); (0x1058, 0x1059); (0x105E, 0x1060);
   (0x1071, 0x1074); (0x1082, 0x1082); (0x1085, 0x1086); (0x108D, 0x108D);
   (0x109D, 0x109D); (0x10FC, 0x10FC); (0x135D, 0x135F); (0x1712, 0x1714);
   (0x1732, 0x1733); (0x1752, 0x1753); (0x1772, 0x1773); (0x17B4, 0x17B5);
   (0x17B7, 0x17BD); (0x17C6, 0x17C6); (0x17C9, 0x17D3); (0x17D7, 0x17D7);
   (0x17DD, 0x17DD); (0x180B, 0x180F); (0x1843, 0x1843); (0x1885, 0x1886);
   (0x18A9, 0x18A9); (0x1920, 0x1922); (0x1927, 0x1928); (0x1932, 0x1932);
   (0x1939, 0x193B); (0x1A17, 0x1A18); (0x1A1B, 0x1A1B); (0x1A56, 0x1A56);
   (0x1A58, 0x1A5E); (0x1A60, 0x1A60); (0x1A62, 0x1A62); (0x1A65, 0x1A6C);
   (0x1A73, 0x1A7C); (0x1A7F, 0x1A7F); (0x1AA7, 0x1AA7); (0x1AB0, 0x1ACE);
   (0x1B00, 0x1B03); (0x1B34, 0x1B34); (0x1B36, 0x1B3A); (0x1B3C, 0x1B3C);
   (0x1B42, 0x1B42); (0x1B6B, 0x1B73); (0x1B80, 0x1B81); (0x1BA2, 0x1BA5);
   (0x1BA8, 0x1BA9); (0x1BAB, 0x1BAD); (0x1BE6, 0x1BE6); (0x1BE8, 0x1BE9);
   (0x1BED, 0x1BED); (0x1BEF, 0x1BF1); (0x1C2C, 0x1C33); (0x1C36, 0x1C37);
   (0x1C78, 0x1C7D); (0x1CD0, 0x1CD2); (0x1CD4, 0x1CE0); (0x1CE2, 0x1CE8);
   (0x1CED, 0x1CED); (0x1CF4, 0x1CF4); (0x1CF8, 0x1CF9); (0x1D2C, 0x1D6A);
   (0x1D78, 0x1D78); (0x1D9B, 0x1DFF); (0x1FBD, 0x1FBD); (0x1FBF, 0x1FC1);
   (0x1FCD, 0x1FCF); (0x1FDD, 0x1FDF); (0x1FED, 0x1FEF); (0x1FFD, 0x1FFE);
   (0x200B, 0x200F); (0x2018, 0x2019); (0x2024, 0x2024); (0x2027, 0x2027);
   (0x202A, 0x202E); (0x2060, 0x2064); (0x2066, 0x206F); (0x2071, 0x2071);
   (0x207F, 0x207F); (0x2090, 0x209C); (0x20D0, 0x20F0); (0x2C7C, 0x2C7D);
   (0x2CEF, 0x2CF1); (0x2D6F, 0x2D6F); (0x2D7F, 0x2D7F); (0x2DE0, 0x2DFF);
   (0x2E2F, 0x2E2F); (0x3005, 0x3005); (0x302A, 0x302D); (0x3031, 0x3035);
   (0x303B, 0x303B); (0x3099, 0x309E); (0x30FC, 0x30FE); (0xA015, 0xA015);
   (0xA4F8, 0xA4FD); (0xA60C, 0xA60C); (0xA66F, 0xA672); (0xA674, 0xA67D);
   (0xA67F, 0xA67F); (0xA69C, 0xA69F); (0xA6F0, 0xA6F1); (0xA700, 0xA721);
   (0xA770, 0xA770); (0xA788, 0xA78A); (0xA7F2, 0xA7F4); (0xA7F8, 0xA7F9);
   (0xA802, 0xA802); (0xA806, 0xA806); (0xA80B, 0xA80B); (0xA825, 0xA826);
   (0xA82C, 0xA82C); (0xA8C4, 0xA8C5); (0xA8E0, 0xA8F1); (0xA8FF, 0xA8FF);
   (0xA926, 0xA92D); (0xA947, 0xA951); (0xA980, 0xA982); (0xA9B3, 0xA9B3);
   (0xA9B6, 0xA9B9); (0xA9BC, 0xA9BD); (0xA9CF, 0xA9CF); (0xA9E5, 0xA9E6);
   (0xAA29, 0xAA2E); (0xAA31, 0xAA32); (0xAA35, 0xAA36); (0xAA43, 0xAA43);
   (0xAA4C, 0xAA4C); (0xAA70, 0xAA70); (0xAA7C, 0xAA7C); (0xAAB0, 0xAAB0);
   (0xAAB2, 0xAAB4); (0xAAB7, 0xAAB8); (0xAABE, 0xAABF); (0xAAC1, 0xAAC1);
   (0xAADD, 0xAADD); (0xAAEC, 0xAAED); (0xAAF3, 0xAAF4); (0xAAF6, 0xAAF6);
   (0xAB5B, 0xAB5F); (0xAB69, 0xAB6B); (0xABE5, 0xABE5); (0xABE8, 0xABE8);
   (0xABED, 0xABED); (0xFB1E, 0xFB1E); (0xFBB2, 0xFBC2); (0xFE00, 0xFE0F);
   (0xFE13, 0xFE13); (0xFE20, 0xFE2F); (0xFE52, 0xFE52); (0xFE55, 0xFE55);
   (0xFEFF, 0xFEFF); (0xFF07, 0xFF07); (0xFF0E, 0xFF0E); (0xFF1A, 0xFF1A);
   (0xFF3E, 0xFF3E); (0xFF40, 0xFF40); (0xFF70, 0xFF70); (0xFF9E, 0xFF9F);
   (0xFFE3, 0xFFE3); (0xFFF9, 0xFFFB); (0x101FD, 0x101FD); (0x102E0, 0x102E0);
   (0x10376, 0x1037A); (0x10780, 0x10785); (0x10787, 0x107B0);
   (0x107B2, 0x107BA); (0x10A01, 0x10A03); (0x10A05, 0x10A06);
   (0x10A0C, 0x10A0F); (0x10A38, 0x10A3A); (0x10A3F, 0x10A3F);
   (0x10AE5, 0x10AE6); (0x10D24, 0x10D27); (0x10EAB, 0x10EAC);
   (0x10F46, 0x10F50); (0x10F82, 0x10F85); (0x11001, 0x11001);
   (0x11038, 0x11046); (0x11070, 0x11070); (0x11073, 0x11074);
   (0x1107F, 0x11081); (0x110B3, 0x110B6); (0x110B9, 0x110BA);
   (0x110BD, 0x110BD); (0x110C2, 0x110C2); (0x110CD, 0x110CD);
   (0x11100, 0x11102); (0x11127, 0x1112B); (0x1112D, 0x11134);
   (0x11173, 0x11173); (0x11180, 0x11181); (0x111B6, 0x111BE);
   (0x111C9, 0x111CC); (0x111CF, 0x111CF); (0x1122F, 0x11231);
   (0x11234, 0x11234); (0x11236, 0x11237); (0x1123E, 0x1123E);
   (0x112DF, 0x112DF); (0x112E3, 0x112EA); (0x11300, 0x11301);
   (0x1133B, 0x1133C); (0x11340, 0x11340); (0x11366, 0x1136C);
   (0x11370, 0x11374); (0x11438, 0x1143F); (0x11442, 0x11444);
   (0x11446, 0x11446); (0x1145E, 0x1145E); (0x114B3, 0x114B8);
   (0x114BA, 0x114BA); (0x114BF, 0x114C0); (0x114C2, 0x114C3);
   (0x115B2, 0x115B5); (0x115BC, 0x115BD); (0x115BF, 0x115C0);
   (0x115DC, 0x115DD); (0x11633, 0x1163A); (0x1163D, 0x1163D);
   (0x1163F, 0x11640); (0x116AB, 0x116AB); (0x116AD, 0x116AD);
   (0x116B0, 0x116B5); (0x116B7, 0x116B7); (0x1171D, 0x1171F);
   (0x11722, 0x11725); (0x11727, 0x1172B); (0x1182F, 0x11837);
   (0x11839, 0x1183A); (0x1193B, 0x1193C); (0x1193E, 0x1193E);
   (0x11943, 0x11943); (0x119D4, 0x119D7); (0x119DA, 0x119DB);
   (0x119E0, 0x119E0); (0x11A01, 0x11A0A); (0x11A33, 0x11A38);
   (0x11A3B, 0x11A3E); (0x11A47, 0x11A47); (0x11A51, 0x11A56);
   (0x11A59, 0x11A5B); (0x11A8A, 0x11A96); (0x11A98, 0x11A99);
   (0x11C30, 0x11C36); (0x11C38, 0x11C3D); (0x11C3F, 0x11C3F);
   (0x11C92, 0x11CA7); (0x11CAA, 0x11CB0); (0x11CB2, 0x11CB3);
   (0x11CB5, 0x11CB6); (0x11D31, 0x11D36); (0x11D3A, 0x11D3A);
   (0x11D3C, 0x11D3D); (0x11D3F, 0x11D45); (0x11D47, 0x11D47);
   (0x11D90, 0x11D91); (0x11D95, 0x11D95); (0x11D97, 0x11D97);
   (0x11EF3, 0x11EF4); (0x13430, 0x13438); (0x16AF0, 0x16AF4);
   (0x16B30, 0x16B36); (0x16B40, 0x16B43); (0x16F4F, 0x16F4F);
   (0x16F8F, 0x16F9F); (0x16FE0, 0x16FE1); (0x16FE3, 0x16FE4);
   (0x1AFF0, 0x1AFF3); (0x1AFF5, 0x1AFFB); (0x1AFFD, 0x1AFFE);
   (0x1BC9D, 0x1BC9E); (0x1BCA0, 0x1BCA3); (0x1CF00, 0x1CF2D);
   (0x1CF30, 0x1CF46); (0x1D167, 0x1D169); (0x1D173, 0x1D182);
   (0x1D185, 0x1D18B); (0x1D1AA, 0x1D1AD); (0x1D242, 0x1D244);
   (0x1DA00, 0x1DA36); (0x1DA3B, 0x1DA6C); (0x1DA75, 0x1DA75);
   (0x1DA84, 0x1DA84); (0x1DA9B, 0x1DA9F); (0x1DAA1, 0x1DAAF);
   (0x1E000, 0x1E006); (0x1E008, 0x1E018); (0x1E01B, 0x1E021);
   (0x1E023, 0x1E024); (0x1E026, 0x1E02A); (0x1E130, 0x1E13D);
   (0x1E2AE, 0x1E2AE); (0x1E2EC, 0x1E2EF); (0x1E8D0, 0x1E8D6);
   (0x1E944, 0x1E94B); (0x1F3FB, 0x1F3FF); (0xE0001, 0xE0001);
   (0xE0020, 0xE007F); (0xE0100, 0xE01EF)].

(** The property Cased (DerivedCoreProperties.txt). *)
Definition cased_ranges : list (Z * Z) :=
  [(0x41, 0x5A); (0x61, 0x7A); (0xAA, 0xAA); (0xB5, 0xB5); (0xBA, 0xBA);
   (0xC0, 0xD6); (0xD8, 0xF6); (0xF8, 0x1BA); (0x1BC, 0x1BF); (0x1C4, 0x293);
   (0x295, 0x2B8); (0x2C0, 0x2C1); (0x2E0, 0x2E4); (0x345, 0x345);
   (0x370, 0x373); (0x376, 0x377); (0x37A, 0x37D); (0x37F, 0x37F);
   (0x386, 0x386); (0x388, 0x38A); (0x38C, 0x38C); (0x38E, 0x3A1);
   (0x3A3, 0x3F5); (0x3F7, 0x481); (0x48A, 0x52F); (0x531, 0x556);
   (0x560, 0x588); (0x10A0, 0x10C5); (0x10C7, 0x10C7); (0x10CD, 0x10CD);
   (0x10D0, 0x10FA); (0x10FD, 0x10FF); (0x13A0, 0x13F5); (0x13F8, 0x13FD);
   (0x1C80, 0x1C88); (0x1C90, 0x1CBA); (0x1CBD, 0x1CBF); (0x1D00, 0x1DBF);
   (0x1E00, 0x1F15); (0x1F18, 0x1F1D); (0x1F20, 0x1F45); (0x1F48, 0x1F4D);
   (0x1F50, 0x1F57); (0x1F59, 0x1F59); (0x1F5B, 0x1F5B); (0x1F5D, 0x1F5D);
   (0x1F5F, 0x1F7D); (0x1F80, 0x1FB4); (0x1FB6, 0x1FBC); (0x1FBE, 0x1FBE);
   (0x1FC2, 0x1FC4); (0x1FC6, 0x1FCC); (0x1FD0, 0x1FD3); (0x1FD6, 0x1FDB);
   (0x1FE0, 0x1FEC); (0x1FF2, 0x1FF4); (0x1FF6, 0x1FFC); (0x2071, 0x2071);
   (0x207F, 0x207F); (0x2090, 0x209C); (0x2102, 0x2102); (0x2107, 0x2107);
   (0x210A, 0x2113); (0x2115, 0x2115); (0x2119, 0x211D); (0x2124, 0x2124);
   (0x2126, 0x2126); (0x2128, 0x2128); (0x212A, 0x212D); (0x212F, 0x2134);
   (0x2139, 0x2139); (0x213C, 0x213F); (0x2145, 0x2149); (0x214E, 0x214E);
   (0x2160, 0x217F); (0x2183, 0x2184); (0x24B6, 0x24E9); (0x2C00, 0x2CE4);
   (0x2CEB, 0x2CEE); (0x2CF2, 0x2CF3); (0x2D00, 0x2D25); (0x2D27, 0x2D27);
   (0x2D2D, 0x2D2D); (0xA640, 0xA66D); (0xA680, 0xA69D); (0xA722, 0xA787);
   (0xA78B, 0xA78E); (0xA790, 0xA7CA); (0xA7D0, 0xA7D1); (0xA7D3, 0xA7D3);
   (0xA7D5, 0xA7D9); (0xA7F5, 0xA7F6); (0xA7F8, 0xA7FA); (0xAB30, 0xAB5A);
   (0xAB5C, 0xAB68); (0xAB70, 0xABBF); (0xFB00, 0xFB06); (0xFB13, 0xFB17);
   (0xFF21, 0xFF3A); (0xFF41, 0xFF5A); (0x10400, 0x1044F); (0x104B0, 0x104D3);
   (0x104D8, 0x104FB); (0x10570, 0x1057A); (0x1057C, 0x1058A);
   (0x1058C, 0x10592); (0x10594, 0x10595); (0x10597, 0x105A1);
   (0x105A3, 0x105B1); (0x105B3, 0x105B9); (0x105BB, 0x105BC);
   (0x10780, 0x10780); (0x10783, 0x10785); (0x10787, 0x107B0);
   (0x107B2, 0x107BA); (0x10C80, 0x10CB2); (0x10CC0, 0x10CF2);
   (0x118A0, 0x118DF); (0x16E40, 0x16E7F); (0x1D400, 0x1D454);
   (0x1D456, 0x1D49C); (0x1D49E, 0x1D49F); (0x1D4A2, 0x1D4A2);
   (0x1D4A5, 0x1D4A6); (0x1D4A9, 0x1D4AC); (0x1D4AE, 0x1D4B9);
   (0x1D4BB, 0x1D4BB); (0x1D4BD, 0x1D4C3); (0x1D4C5, 0x1D505);
   (0x1D507, 0x1D50A); (0x1D50D, 0x1D514); (0x1D516, 0x1D51C);
   (0x1D51E, 0x1D539); (0x1D53B, 0x1D53E); (0x1D540, 0x1D544);
   (0x1D546, 0x1D546); (0x1D54A, 0x1D550); (0x1D552, 0x1D6A5);
   (0x1D6A8, 0x1D6C0); (0x1D6C2, 0x1D6DA); (0x1D6DC, 0x1D6FA);
   (0x1D6FC, 0x1D714); (0x1D716, 0x1D734); (0x1D736, 0x1D74E);
   (0x1D750, 0x1D76E); (0x1D770, 0x1D788); (0x1D78A, 0x1D7A8);
   (0x1D7AA, 0x1D7C2); (0x1D7C4, 0x1D7CB); (0x1DF00, 0x1DF09);
   (0x1DF0B, 0x1DF1E); (0x1E900, 0x1E943); (0x1F130, 0x1F149);
   (0x1F150, 0x1F169); (0x1F170, 0x1F189)].

Fixpoint find_run (c : Z) (runs : list (Z * Z * Z * Z)) : Z :=
  match runs with
  | [] => c
  | (first, last, step, delta) :: runs' =>
      if (first <=? c) && (c <=? last) && ((c - first) mod step =? 0)
      then c + delta
      else find_run c runs'
  end.

Definition in_ranges (c : Z) (ranges : list (Z * Z)) : bool :=
  existsb (fun r => (fst r <=? c) && (c <=? snd r)) ranges.

Definition simple_lower (c : Z) : Z := find_run c lower_runs.
Definition simple_upper (c : Z) : Z := find_run c upper_runs.
Definition case_ignorable (c : Z) : bool := in_ranges c case_ignorable_ranges.
Definition cased (c : Z) : bool := in_ranges c cased_ranges.

(** **** [String.prototype.toLowerCase]

    Every code point goes to its lowercase mapping, but for the two
    entries of SpecialCasing.txt that apply in every language: the
    capital I with dot above (U+0130) becomes i and a combining dot, and
    the capital sigma (U+03A3) becomes the final sigma where a cased
    letter stands before it and none after it, case-ignorable
    characters skipped on both sides. *)

Fixpoint followed_by_cased (points : list Z) : bool :=
  match points with
  | [] => false
  | c :: points' =>
      if case_ignorable c then followed_by_cased points' else cased c
  end.

(** [preceded]: a cased letter stands before, case-ignorable characters
    skipped. *)
Fixpoint lower_points (preceded : bool) (points : list Z) : list Z :=
  match points with
  | [] => []
  | c :: points' =>
      (if c =? 0x3A3
       then [if preceded && negb (followed_by_cased points') then 0x3C2 else 0x3C3]
       else if c =? 0x130 then [0x69; 0x307]
       else [simple_lower c])
      ++ lower_points (if case_ignorable c then preceded else cased c) points'
  end.

Definition toLowerCase (s : string) : string :=
  utf8_encode (lower_points false (utf8_decode s)).

(** **** [String.prototype.toUpperCase]: no mapping depends on the
    context. *)

Fixpoint find_special (c : Z) (table : list (Z * list Z)) : option (list Z) :=
  match table with
  | [] => None
  | (c', points) :: table' =>
      if c =? c' then Some points else find_special c table'
  end.

Definition upper_point (c : Z) : list Z :=
  match find_special c upper_special with
  | Some points => points
  | None => [simple_upper c]
  end.

Definition toUpperCase (s : string) : string :=
  utf8_encode (flat_map upper_point (utf8_decode s)).

(** **** Search

    [startsWith] and [includes] compare code units; on well-formed
    strings the occurrences of a string in another are the same in the
    UTF-8 form. *)

(** [s.startsWith(p)]: the scan that [includes] repeats at every index. *)
Fixpoint startsWith (s p : string) {struct p} : bool :=
  match p, s with
  | EmptyString, _ => true
  | String _ _, EmptyString => false
  | String a p', String b s' => Ascii.eqb a b && startsWith s' p'
  end.

(** [String.prototype.includes]: is [search] found at some index of [s]. *)
Fixpoint includes (s search : string) : bool :=
  startsWith s search ||
  match s with
  | EmptyString => false
  | String _ s' => includes s' search
  end.

(** The template literal [`${n} word`] for an integral number [n]. *)
Definition string_of_Z (z : Z) : string :=
  NilZero.string_of_int (Z.to_int z).

(** [a || b] on an optional string: [undefined], [null] and the empty
    string are falsy. *)
Definition or_else (a : option string) (b : string) : string :=
  match a with
  | Some s => if String.eqb s EmptyString then b else s
  | None => b
  end.

(** *** Numbers *)

(** [x >= y] on binary64 numbers. *)
Definition geb (x y : float) : bool := PrimFloat.leb y x.

(** The number that an integer count from 0 to [2 ^ 63 - 1] denotes:
    the count itself up to [2 ^ 53], the nearest double beyond. *)
Definition Number (z : Z) : float := of_uint63 (Uint63.of_Z z).

(** [Math.ceil(a / b)] for integers [a] and [b > 0]. *)
Definition Math_ceil_div (a b : Z) : Z := - ((- a) / b).

(** [Math.floor(a / b)] for integers [a] and [b > 0]. *)
Definition Math_floor_div (a b : Z) : Z := a / b.

(** *** Arrays *)

(** [Array.prototype.slice(start, end)]: negative indices count from the
    end, both are clamped to the length, and the result is a new array. *)
Definition slice {A} (l : list A) (start end_ : Z) : list A :=
  let len := Z.of_nat (length l) in
  let k := if start <? 0 then Z.max (len + start) 0 else Z.min start len in
  let final := if end_ <? 0 then Z.max (len + end_) 0 else Z.min end_ len in
  firstn (Z.to_nat (final - k)) (skipn (Z.to_nat k) l).

(** [Array.prototype.sort(compareFn)]. The language fixes the result for
    a consistent comparator: the elements in an order where [compareFn]
    is never positive on an element and a later one, equal elements in
    their original order (the sort is stable). Insertion from the right
    computes it. *)
Fixpoint sort_insert {A} (cmp : A -> A -> Z) (x : A) (l : list A) : list A :=
  match l with
  | [] => [x]
  | y :: l' => if cmp x y <=? 0 then x :: y :: l' else y :: sort_insert cmp x l'
  end.

Fixpoint sort {A} (cmp : A -> A -> Z) (l : list A) : list A :=
  match l with
  | [] => []
  | x :: l' => sort_insert cmp x (sort cmp l')
  end.

(** *** Conditions *)

(** An optional string in a condition: [undefined], [null] and the empty
    string are falsy. *)
Definition truthy (a : option string) : bool :=
  match a with
  | Some s => negb (String.eqb s EmptyString)
  | None => false
  end.

(** *** URLSearchParams *)

(** The serializer of [URLSearchParams] works on the bytes of the UTF-8
    form of a string. It leaves the ASCII letters and digits and the
    four characters [*], [-], [.] and [_] as they are. *)
Definition urlencoded_plain (c : ascii) : bool :=
  let n := nat_of_ascii c in
  ((48 <=? n)%nat && (n <=? 57)%nat)
  || ((65 <=? n)%nat && (n <=? 90)%nat)
  || ((97 <=? n)%nat && (n <=? 122)%nat)
  || (n =? 42)%nat || (n =? 45)%nat || (n =? 46)%nat || (n =? 95)%nat.

Definition hex_digit (n : nat) : ascii :=
  if (n <? 10)%nat then ascii_of_nat (48 + n) else ascii_of_nat (55 + n).

(** A space becomes [+], any other byte its two hexadecimal digits
    after [%]. *)
Definition urlencode_byte (c : ascii) : string :=
  if urlencoded_plain c then String c EmptyString
  else if Ascii.eqb c " "%char then String "+"%char EmptyString
  else String "%"%char
         (String (hex_digit (nat_of_ascii c / 16))
            (String (hex_digit (nat_of_ascii c mod 16)) EmptyString)).

Fixpoint urlencode (s : string) : string :=
  match s with
  | EmptyString => EmptyString
  | String c s' => urlencode_byte c ++ urlencode s'
  end.

(** [params.toString()] for the pairs appended so far, in their order. *)
Fixpoint URLSearchParams_toString (params : list (string * string)) : string :=
  match params with
  | [] => EmptyString
  | (k, v) :: rest =>
      urlencode k ++ "=" ++ urlencode v ++
      match rest with
      | [] => EmptyString
      | _ :: _ => "&" ++ URLSearchParams_toString rest
      end
  end.

End JS.

(** ** api.js: the endpoints *)

Module Api.

(** [import.meta.env.VITE_API_BASE_URL || 'http://localhost:5000/api']. *)
Definition API_BASE_URL (VITE_API_BASE_URL : option string) : string :=
  JS.or_else VITE_API_BASE_URL "http://localhost:5000/api".

Record Endpoints := mkEndpoints {
  HEALTH : string;
  HOSPITALS : string;
  MEDICINES : string;
  ALERTS : string;
  CRITICAL_ALERTS : string;
  SHORTAGE_TRENDS : string
}.

Definition API_ENDPOINTS (VITE_API_BASE_URL : option string) : Endpoints :=
  let base := API_BASE_URL VITE_API_BASE_URL in
  {| HEALTH := base ++ "/health";
     HOSPITALS := base ++ "/hospitals";
     MEDICINES := base ++ "/medicines";
     ALERTS := base ++ "/alerts";
     CRITICAL_ALERTS := base ++ "/alerts/critical";
     SHORTAGE_TRENDS := base ++ "/trends/shortages" |}.

End Api.

(** ** The response of the backend to a fetch *)

Record ApiResult (A : Type) := mkApiResult {
  success : bool;
  data : list A;
  error_message : option string
}.
Arguments mkApiResult {A}.
Arguments success {A}.
Arguments data {A}.
Arguments error_message {A}.

(** [fetch] followed by [response.json()]: the [try] block throws
    (network failure, body that is not JSON, a body without fields) or
    the promise resolves to a result object. *)
Inductive FetchOutcome (A : Type) :=
| Rejected
| Resolved (result : ApiResult A).
Arguments Rejected {A}.
Arguments Resolved {A}.

(** ** Dashboard.jsx: the hospital view *)

Module Dashboard.

Record Hospital := mkHospital {
  id : Z;
  name : string;
  district : string;
  contact : string;
  address : string;
  totalBeds : float;
  availableBeds : float;
  icuBeds : float;
  availableIcu : float
}.

Record State := mkState {
  searchTerm : string;
  hospitals : list Hospital;
  loading : bool;
  error : option string;
  filteredHospitals : list Hospital
}.

Definition initial : State :=
  {| searchTerm := ""; hospitals := []; loading := true; error := None;
     filteredHospitals := [] |}.

Definition setSearchTerm (v : string) (s : State) : State :=
  {| searchTerm := v; hospitals := hospitals s; loading := loading s;
     error := error s; filteredHospitals := filteredHospitals s |}.
Definition setHospitals (v : list Hospital) (s : State) : State :=
  {| searchTerm := searchTerm s; hospitals := v; loading := loading s;
     error := error s; filteredHospitals := filteredHospitals s |}.
Definition setLoading (v : bool) (s : State) : State :=
  {| searchTerm := searchTerm s; hospitals := hospitals s; loading := v;
     error := error s; filteredHospitals := filteredHospitals s |}.
Definition setError (v : option string) (s : State) : State :=
  {| searchTerm := searchTerm s; hospitals := hospitals s; loading := loading s;
     error := v; filteredHospitals := filteredHospitals s |}.
Definition setFilteredHospitals (v : list Hospital) (s : State) : State :=
  {| searchTerm := searchTerm s; hospitals := hospitals s; loading := loading s;
     error := error s; filteredHospitals := v |}.

(** [fetchHospitals], up to its [await]. *)
Definition fetchHospitals_begin (s : State) : State :=
  setError None (setLoading true s).

(** [fetchHospitals], from the settled promise on: the [try] body after
    the [await]s, the [catch] and the [finally]. *)
Definition fetchHospitals_settle (o : FetchOutcome Hospital) (s : State) : State :=
  let s' :=
    match o with
    | Resolved result =>
        if success result
        then setFilteredHospitals (data result) (setHospitals (data result) s)
        else setError
               (Some (JS.or_else (error_message result) "Failed to fetch hospital data")) s
    | Rejected =>
        setError
          (Some "Failed to connect to server. Please ensure the backend is running.") s
    end in
  setLoading false s'.

Definition fetchHospitals (o : FetchOutcome Hospital) (s : State) : State :=
  fetchHospitals_settle o (fetchHospitals_begin s).

(** The predicate of the [filter] call of the search effect. *)
Definition matches (searchTerm : string) (hospital : Hospital) : bool :=
  JS.includes (JS.toLowerCase (name hospital)) (JS.toLowerCase searchTerm)
  || JS.includes (JS.toLowerCase (district hospital)) (JS.toLowerCase searchTerm).

(** The value that the search effect gives to [filteredHospitals]. *)
Definition filterHospitals (searchTerm : string) (hospitals : list Hospital)
  : list Hospital :=
  if String.eqb searchTerm ""
  then hospitals
  else List.filter (matches searchTerm) hospitals.

(** The effect on [[searchTerm, hospitals]]. *)
Definition filter_effect (s : State) : State :=
  setFilteredHospitals (filterHospitals (searchTerm s) (hospitals s)) s.

Record Availability := mkAvailability {
  status : string;
  color : string;
  text : string
}.

Definition getAvailabilityStatus (available total : float) : Availability :=
  let percentage := ((available / total) * 100)%float in
  if JS.geb percentage 30 then
    {| status := "good"; color := "bg-green-500"; text := "Good Availability" |}
  else if JS.geb percentage 15 then
    {| status := "moderate"; color := "bg-yellow-500"; text := "Moderate Availability" |}
  else
    {| status := "critical"; color := "bg-red-500"; text := "Critical Shortage" |}.

(** *** The events of the view and what it renders *)

Inductive Event :=
| ChangeSearch (v : string)
| FetchBegin
| FetchSettle (o : FetchOutcome Hospital).

Definition handle (ev : Event) (s : State) : State :=
  match ev with
  | ChangeSearch v => setSearchTerm v s
  | FetchBegin => fetchHospitals_begin s
  | FetchSettle o => fetchHospitals_settle o s
  end.

(** The effect on [[searchTerm, hospitals]] runs after a render in which
    one of the two is not what it was: the term is compared as a string,
    the array by identity, and only a successful response brings a new
    array. *)
Definition deps_changed (ev : Event) (s : State) : bool :=
  match ev with
  | ChangeSearch v => negb (String.eqb v (searchTerm s))
  | FetchBegin => false
  | FetchSettle Rejected => false
  | FetchSettle (Resolved result) => success result
  end.

Definition step (ev : Event) (s : State) : State :=
  if deps_changed ev s then filter_effect (handle ev s) else handle ev s.

Fixpoint run (evs : list Event) (s : State) : State :=
  match evs with
  | [] => s
  | ev :: evs' => run evs' (step ev s)
  end.

Record ChartData := mkChartData {
  labels : list string;
  totalBedsData : list float;
  availableBedsData : list float
}.

Definition chartData (s : State) : ChartData :=
  {| labels := map name (filteredHospitals s);
     totalBedsData := map totalBeds (filteredHospitals s);
     availableBedsData := map availableBeds (filteredHospitals s) |}.

Record Card := mkCard {
  key : Z;
  title : string;
  bedStatus : Availability;
  icuStatus : Availability;
  icuColor : string;
  shown : Hospital
}.

Definition card (hospital : Hospital) : Card :=
  let bedStatus := getAvailabilityStatus (availableBeds hospital) (totalBeds hospital) in
  let icuStatus := getAvailabilityStatus (availableIcu hospital) (icuBeds hospital) in
  {| key := id hospital;
     title := name hospital;
     bedStatus := bedStatus;
     icuStatus := icuStatus;
     icuColor :=
       if String.eqb (status icuStatus) "critical" then "text-red-500 animate-pulse"
       else if String.eqb (status icuStatus) "moderate" then "text-yellow-500"
       else "text-green-500";
     shown := hospital |}.

(** What the component returns: the loading indicator, the error alone,
    or the page with the chart, when there is a hospital to chart, and
    the cards; no card stands for the line "No hospitals found matching
    your search.". *)
Inductive View :=
| LoadingView
| ErrorView (message : string)
| HospitalsView (chart : option ChartData) (cards : list Card).

Definition view (s : State) : View :=
  if loading s then LoadingView
  else if JS.truthy (error s) then ErrorView (default "" (error s))
  else HospitalsView
         (if (0 <? Z.of_nat (length (filteredHospitals s))) then Some (chartData s) else None)
         (map card (filteredHospitals s)).

End Dashboard.

(** ** The store of arrays *)

(** An array state variable holds a reference. Two variables set from the
    same expression share one array; [response.json()] and [slice] build
    a new one. *)
Module Heap.

Definition loc := positive.

Definition read {A} (h : gmap loc (list A)) (l : loc) : list A :=
  default [] (h !! l).

Definition write {A} (h : gmap loc (list A)) (l : loc) (v : list A)
  : gmap loc (list A) :=
  <[l := v]> h.

(** A new array holding [v]. *)
Definition alloc {A} (h : gmap loc (list A)) (v : list A)
  : loc * gmap loc (list A) :=
  let l := fresh (dom h) in (l, <[l := v]> h).

End Heap.

(** ** Dashboard.jsx, second component: the medicine view *)

Module MedicineStock.

(** The value of a field that the backend is free to fill. *)
Inductive value :=
| Undefined
| Null
| Bool (b : bool)
| Num (x : float)
| Str (s : string).

(** [v === "literal"], the test of a [case] label. *)
Definition strict_eq (v : value) (literal : string) : bool :=
  match v with
  | Str s => String.eqb s literal
  | _ => false
  end.

Record Medicine := mkMedicine {
  id : Z;
  name : string;
  manufacturer : string;
  category : string;
  availability : value;
  warning : option string;
  recall : bool
}.

Record State := mkState {
  searchTerm : string;
  medicines : Heap.loc;
  loading : bool;
  error : option string;
  filteredMedicines : Heap.loc;
  currentPage : Z
}.

(** The component between two events: its state and the arrays. *)
Definition World : Type := gmap Heap.loc (list Medicine) * State.

Definition itemsPerPage : Z := 6.

(** The fallback data that the component declares. *)
Definition mockMedicines : list Medicine :=
  [ mkMedicine 1 "Paracetamol 500mg" "ABC Pharmaceuticals" "Analgesic"
      (Str "high") None false;
    mkMedicine 2 "Insulin Glargine" "XYZ Medical" "Antidiabetic"
      (Str "low") (Some "Shortage expected in next 2 weeks") false;
    mkMedicine 3 "Amoxicillin 250mg" "MedCorp Industries" "Antibiotic"
      (Str "moderate") None false;
    mkMedicine 4 "Aspirin 75mg" "HealthFirst Pharma" "Antiplatelet"
      (Str "high") None false;
    mkMedicine 5 "Metformin 500mg" "Generic Pharma" "Antidiabetic"
      (Str "moderate") (Some "Limited stock available") false;
    mkMedicine 6 "Ibuprofen 400mg" "Relief Pharmaceuticals" "NSAID"
      (Str "high") None false;
    mkMedicine 7 "Atorvastatin 20mg" "CardioMed" "Statin"
      (Str "low") (Some "Critical shortage") false;
    mkMedicine 8 "Omeprazole 20mg" "Digestive Health" "PPI"
      (Str "moderate") None false;
    mkMedicine 9 "Levothyroxine 50mcg" "Hormone Pharma" "Hormone"
      (Str "low") (Some "Recall issued - check batch numbers") true;
    mkMedicine 10 "Amlodipine 5mg" "BP Control Inc" "Antihypertensive"
      (Str "high") None false ].

(** The two [useState([])] calls build an array each. *)
Definition initial : World :=
  ({[ 1%positive := []; 2%positive := [] ]},
   {| searchTerm := ""; medicines := 1%positive; loading := false; error := None;
      filteredMedicines := 2%positive; currentPage := 1 |}).

Definition setSearchTerm (v : string) (s : State) : State :=
  {| searchTerm := v; medicines := medicines s; loading := loading s;
     error := error s; filteredMedicines := filteredMedicines s;
     currentPage := currentPage s |}.
Definition setMedicines (v : Heap.loc) (s : State) : State :=
  {| searchTerm := searchTerm s; medicines := v; loading := loading s;
     error := error s; filteredMedicines := filteredMedicines s;
     currentPage := currentPage s |}.
Definition setLoading (v : bool) (s : State) : State :=
  {| searchTerm := searchTerm s; medicines := medicines s; loading := v;
     error := error s; filteredMedicines := filteredMedicines s;
     currentPage := currentPage s |}.
Definition setError (v : option string) (s : State) : State :=
  {| searchTerm := searchTerm s; medicines := medicines s; loading := loading s;
     error := v; filteredMedicines := filteredMedicines s;
     currentPage := currentPage s |}.
Definition setFilteredMedicines (v : Heap.loc) (s : State) : State :=
  {| searchTerm := searchTerm s; medicines := medicines s; loading := loading s;
     error := error s; filteredMedicines := v;
     currentPage := currentPage s |}.
Definition setCurrentPage (f : Z -> Z) (s : State) : State :=
  {| searchTerm := searchTerm s; medicines := medicines s; loading := loading s;
     error := error s; filteredMedicines := filteredMedicines s;
     currentPage := f (currentPage s) |}.

Definition getAvailabilityColor (availability : value) : string :=
  if strict_eq availability "high" then "bg-green-500"
  else if strict_eq availability "moderate" then "bg-yellow-500"
  else if strict_eq availability "low" then "bg-red-500"
  else "bg-gray-500".

Definition getAvailabilityText (availability : value) : string :=
  if strict_eq availability "high" then "High Availability"
  else if strict_eq availability "moderate" then "Moderate Availability"
  else if strict_eq availability "low" then "Low Availability"
  else "Unknown".

(** The four constants that a render derives from the state. *)
Definition totalPages (items : list Medicine) : Z :=
  JS.Math_ceil_div (Z.of_nat (length items)) itemsPerPage.
Definition startIndex (currentPage : Z) : Z := (currentPage - 1) * itemsPerPage.
Definition endIndex (currentPage : Z) : Z := startIndex currentPage + itemsPerPage.
Definition currentMedicines (items : list Medicine) (currentPage : Z)
  : list Medicine :=
  JS.slice items (startIndex currentPage) (endIndex currentPage).

(** The updaters that the two buttons pass to [setCurrentPage]. *)
Definition previous_onClick (prev : Z) : Z := Z.max (prev - 1) 1.
Definition next_onClick (totalPages prev : Z) : Z := Z.min (prev + 1) totalPages.

(** [fetchMedicines], from the settled promise on. The parsed response
    is a new array, given to both state variables. *)
Definition fetchMedicines_settle (o : FetchOutcome Medicine) (w : World) : World :=
  let '(h, s) := w in
  let '(h', s') :=
    match o with
    | Resolved result =>
        if success result
        then let '(r, h') := Heap.alloc h (data result) in
             (h', setFilteredMedicines r (setMedicines r s))
        else (h, setError
                   (Some (JS.or_else (error_message result)
                                     "Failed to fetch medicine data")) s)
    | Rejected =>
        (h, setError
              (Some "Failed to connect to server. Please ensure the backend is running.")
              s)
    end in
  (h', setLoading false s').

Inductive Event :=
| ChangeSearch (v : string)
| FetchBegin
| FetchSettle (o : FetchOutcome Medicine)
| ClickPrevious
| ClickNext.

(** What the handler of an event does to the state. The pager exists
    when [totalPages > 1], and a disabled button does not fire. *)
Definition handle (ev : Event) (w : World) : World :=
  let '(h, s) := w in
  let total := totalPages (Heap.read h (filteredMedicines s)) in
  match ev with
  | ChangeSearch v => (h, setSearchTerm v s)
  | FetchBegin => (h, setError None (setLoading true s))
  | FetchSettle o => fetchMedicines_settle o w
  | ClickPrevious =>
      if (1 <? total) && negb (currentPage s =? 1)
      then (h, setCurrentPage previous_onClick s) else w
  | ClickNext =>
      if (1 <? total) && negb (currentPage s =? total)
      then (h, setCurrentPage (next_onClick total) s) else w
  end.

(** The effect on [[filteredMedicines]]: it runs after a render in which
    the variable is not the array of the render before. *)
Definition page_effect (before : State) (s : State) : State :=
  if Pos.eqb (filteredMedicines before) (filteredMedicines s)
  then s else setCurrentPage (fun _ => 1) s.

Definition step (ev : Event) (w : World) : World :=
  let '(h', s') := handle ev w in (h', page_effect (snd w) s').

Fixpoint run (evs : list Event) (w : World) : World :=
  match evs with
  | [] => w
  | ev :: evs' => run evs' (step ev w)
  end.

(** *** The request, the cards and what the view renders *)

(** The parameters that [fetchMedicines] appends. *)
Definition fetchMedicines_params (searchTerm : string) : list (string * string) :=
  (if negb (String.eqb searchTerm "") then [("search", searchTerm)] else [])
  ++ [("limit", "50")].

Definition fetchMedicines_url (endpoints : Api.Endpoints) (searchTerm : string)
  : string :=
  Api.MEDICINES endpoints ++ "?"
  ++ JS.URLSearchParams_toString (fetchMedicines_params searchTerm).

(** The delay of the debounce timer, in milliseconds. *)
Definition debounce_delay (searchTerm : string) : Z :=
  if negb (String.eqb searchTerm "") then 500 else 0.

(** [medicine.availability.toUpperCase()]: a [TypeError] unless the
    field is a string. *)
Definition availability_toUpperCase (v : value) : option string :=
  match v with
  | Str s => Some (JS.toUpperCase s)
  | _ => None
  end.

Definition meterWidth (availability : value) : string :=
  if strict_eq availability "high" then "80%"
  else if strict_eq availability "moderate" then "50%"
  else "20%".

(** The box under the meter: it exists when [medicine.warning] is
    truthy, and [recall] chooses its colours and the prefix "RECALL: ". *)
Record Notice := mkNotice {
  isRecall : bool;
  noticeText : string
}.

Record Card := mkCard {
  key : Z;
  title : string;
  badgeColor : string;
  badgeText : string;
  cardManufacturer : string;
  cardCategory : string;
  meterLabel : string;
  meterColor : string;
  meterWidthStyle : string;
  notice : option Notice
}.

(** The card of a medicine, or nothing when building it throws. *)
Definition card (medicine : Medicine) : option Card :=
  match availability_toUpperCase (availability medicine) with
  | None => None
  | Some label =>
      Some {| key := id medicine;
              title := name medicine;
              badgeColor := getAvailabilityColor (availability medicine);
              badgeText := getAvailabilityText (availability medicine);
              cardManufacturer := manufacturer medicine;
              cardCategory := category medicine;
              meterLabel := label;
              meterColor := getAvailabilityColor (availability medicine);
              meterWidthStyle := meterWidth (availability medicine);
              notice :=
                if JS.truthy (warning medicine)
                then Some {| isRecall := recall medicine;
                             noticeText := default "" (warning medicine) |}
                else None |}
  end.

(** [currentMedicines.map(...)]: the cards in order, or the first throw. *)
Fixpoint cards (medicines : list Medicine) : option (list Card) :=
  match medicines with
  | [] => Some []
  | medicine :: rest =>
      match card medicine with
      | None => None
      | Some c =>
          match cards rest with
          | None => None
          | Some cs => Some (c :: cs)
          end
      end
  end.

Inductive Grid :=
| Message (text : string)
| Cards (cs : list Card).

Record Pager := mkPager {
  pagerPage : Z;
  pagerPages : Z;
  previousDisabled : bool;
  nextDisabled : bool
}.

(** The grid of cards and the pager that a render returns, or nothing
    when the render throws. *)
Definition view (w : World) : option (Grid * option Pager) :=
  let '(h, s) := w in
  let items := Heap.read h (filteredMedicines s) in
  let total := totalPages items in
  let current := currentMedicines items (currentPage s) in
  let pager :=
    if 1 <? total
    then Some {| pagerPage := currentPage s; pagerPages := total;
                 previousDisabled := currentPage s =? 1;
                 nextDisabled := currentPage s =? total |}
    else None in
  if Z.of_nat (length current) =? 0
  then Some (Message (if loading s then "Loading medicines..."
                      else "No medicines found matching your search."),
             pager)
  else match cards current with
       | None => None
       | Some cs => Some (Cards cs, pager)
       end.

End MedicineStock.

(** ** The alert view *)

Module Alerts.

Record Alert := mkAlert {
  id : Z;
  type : string;
  district : string;
  hospital : string;
  severity : string;
  message : string;
  (** the time value of [new Date(alert.timestamp)], in milliseconds *)
  timestamp : Z
}.

Record State := mkState {
  filter : string;
  alerts : Heap.loc;
  loading : bool;
  filteredAlerts : Heap.loc
}.

Definition World : Type := gmap Heap.loc (list Alert) * State.

Definition initial : World :=
  ({[ 1%positive := []; 2%positive := [] ]},
   {| filter := "all"; alerts := 1%positive; loading := true;
      filteredAlerts := 2%positive |}).

Definition setFilter (v : string) (s : State) : State :=
  {| filter := v; alerts := alerts s; loading := loading s;
     filteredAlerts := filteredAlerts s |}.
Definition setAlerts (v : Heap.loc) (s : State) : State :=
  {| filter := filter s; alerts := v; loading := loading s;
     filteredAlerts := filteredAlerts s |}.
Definition setLoading (v : bool) (s : State) : State :=
  {| filter := filter s; alerts := alerts s; loading := v;
     filteredAlerts := filteredAlerts s |}.
Definition setFilteredAlerts (v : Heap.loc) (s : State) : State :=
  {| filter := filter s; alerts := alerts s; loading := loading s;
     filteredAlerts := v |}.

(** The fallback data that the component declares, the timestamps read
    as UTC. *)
Definition mockAlerts : list Alert :=
  [ mkAlert 1 "bed" "Mumbai" "City General Hospital" "critical"
      "ICU beds at critical shortage - only 1 bed available" 1705314600000;
    mkAlert 2 "medicine" "Delhi" "Regional Medical Center" "critical"
      "Insulin Glargine shortage - urgent restocking needed" 1705310100000;
    mkAlert 3 "bed" "Chennai" "Central Hospital" "critical"
      "Only 2 ICU beds remaining" 1705308300000;
    mkAlert 4 "medicine" "Bangalore" "Metro Hospital" "moderate"
      "Paracetamol stock running low" 1705303200000;
    mkAlert 5 "bed" "Hyderabad" "Sunshine Medical" "moderate"
      "General ward beds at 20% capacity" 1705299000000;
    mkAlert 6 "medicine" "Mumbai" "City General Hospital" "critical"
      "Atorvastatin recall - check batch numbers immediately" 1705269600000;
    mkAlert 7 "bed" "Pune" "Pune Medical Center" "critical"
      "Emergency department at full capacity" 1705267800000;
    mkAlert 8 "medicine" "Kolkata" "Eastern Medical" "moderate"
      "Metformin supply chain disruption expected" 1705263300000 ].

(** [fetchAlerts], from the settled promise on. A failure is logged. *)
Definition fetchAlerts_settle (o : FetchOutcome Alert) (w : World) : World :=
  let '(h, s) := w in
  let '(h', s') :=
    match o with
    | Resolved result =>
        if success result
        then let '(r, h') := Heap.alloc h (data result) in
             (h', setFilteredAlerts r (setAlerts r s))
        else (h, s)
    | Rejected => (h, s)
    end in
  (h', setLoading false s').

(** The comparator of the sidebar:
    [(a, b) => new Date(b.timestamp) - new Date(a.timestamp)]. *)
Definition byRecency (a b : Alert) : Z := timestamp b - timestamp a.

(** [alerts.sort(...)] sorts the array of the state variable where it is
    and returns the same array; [.slice(0, 5)] copies out of it. The
    result is the store after the expression and the copied elements. *)
Definition recentAlerts (w : World) : gmap Heap.loc (list Alert) * list Alert :=
  let '(h, s) := w in
  let sorted := JS.sort byRecency (Heap.read h (alerts s)) in
  let h' := Heap.write h (alerts s) sorted in
  (h', JS.slice (Heap.read h' (alerts s)) 0 5).

Definition formatTime (now timestamp : Z) : string :=
  let diffMs := now - timestamp in
  let diffMins := JS.Math_floor_div diffMs 60000 in
  let diffHours := JS.Math_floor_div diffMs 3600000 in
  let diffDays := JS.Math_floor_div diffMs 86400000 in
  if diffMins <? 60 then JS.string_of_Z diffMins ++ " minutes ago"
  else if diffHours <? 24 then JS.string_of_Z diffHours ++ " hours ago"
  else JS.string_of_Z diffDays ++ " days ago".

(** What a render shows, in the order the component body computes it:
    the two counts, the sidebar, then the list of the main column, read
    from [filteredAlerts] when the JSX is evaluated. *)
Record View := mkView {
  criticalAlerts : Z;
  nonCriticalAlerts : Z;
  sidebar : list Alert;
  mainList : list Alert
}.

Definition render (w : World) : gmap Heap.loc (list Alert) * View :=
  let '(h, s) := w in
  let shown := Heap.read h (filteredAlerts s) in
  let critical :=
    Z.of_nat (length (List.filter (fun a => String.eqb (severity a) "critical") shown)) in
  let nonCritical :=
    Z.of_nat (length (List.filter (fun a => negb (String.eqb (severity a) "critical")) shown)) in
  let '(h', recent) := recentAlerts w in
  (h', {| criticalAlerts := critical; nonCriticalAlerts := nonCritical;
          sidebar := recent; mainList := Heap.read h' (filteredAlerts s) |}).

(** *** The request, the events and the cards *)

(** The parameters that [fetchAlerts] appends. *)
Definition fetchAlerts_params (filter : string) : list (string * string) :=
  if negb (String.eqb filter "all") then [("type", filter)] else [].

Definition fetchAlerts_url (endpoints : Api.Endpoints) (filter : string) : string :=
  Api.ALERTS endpoints ++ "?" ++ JS.URLSearchParams_toString (fetchAlerts_params filter).

Inductive Event :=
| ChangeFilter (f : string)
| FetchBegin
| FetchSettle (o : FetchOutcome Alert)
| Render.

(** An event on the component; a render keeps the state and leaves the
    store as the body of the component left it. *)
Definition step (ev : Event) (w : World) : World :=
  match ev with
  | ChangeFilter f => (fst w, setFilter f (snd w))
  | FetchBegin => (fst w, setLoading true (snd w))
  | FetchSettle o => fetchAlerts_settle o w
  | Render => (fst (render w), snd w)
  end.

Fixpoint run (evs : list Event) (w : World) : World :=
  match evs with
  | [] => w
  | ev :: evs' => run evs' (step ev w)
  end.

Record Card := mkCard {
  key : Z;
  borderColor : string;
  badgeColor : string;
  badgeLabel : string;
  age : string
}.

(** The card of an alert in the main list, rendered at the time [now]. *)
Definition card (now : Z) (alert : Alert) : Card :=
  let critical := String.eqb (severity alert) "critical" in
  {| key := id alert;
     borderColor := if critical then "border-red-500" else "border-yellow-500";
     badgeColor := if critical then "bg-red-500" else "bg-yellow-500";
     badgeLabel := JS.toUpperCase (severity alert);
     age := formatTime now (timestamp alert) |}.

(** What the component returns: the loading indicator while [loading],
    the page otherwise. The body has run in both cases. *)
Definition display (w : World) : option View :=
  if loading (snd w) then None else Some (snd (render w)).

End Alerts.

(** * The vocabulary of the properties *)

(** The text is made of ASCII characters. *)
Fixpoint ascii_text (s : string) : bool :=
  match s with
  | "" => true
  | String b s' => (JS.code b <? 0x80) && ascii_text s'
  end.

(** One letter, capital or small: the two characters are the same, or
    one is a capital letter A-Z and the other the small letter that
    goes with it, 32 places further in the ASCII table. *)
Definition same_letter (c d : ascii) : Prop :=
  c = d
  \/ (0x41 <= JS.code c <= 0x5A /\ JS.code d = JS.code c + 0x20)
  \/ (0x41 <= JS.code d <= 0x5A /\ JS.code c = JS.code d + 0x20).

(** [u] is [s] up to the case of its letters. *)
Fixpoint equal_ignoring_case (u s : string) : Prop :=
  match u, s with
  | "", "" => True
  | String c u', String d s' => same_letter c d /\ equal_ignoring_case u' s'
  | _, _ => False
  end.

(** [t] has a substring that is [s] up to the case of its letters. *)
Definition contains_ignoring_case (t s : string) : Prop :=
  exists pre u post, t = pre ++ u ++ post /\ equal_ignoring_case u s.

(** A text with its capital letters A-Z made small, byte by byte. *)
Definition lower_letter (b : ascii) : ascii :=
  if (0x41 <=? JS.code b) && (JS.code b <=? 0x5A)
  then JS.byte (JS.code b + 0x20) else b.

Fixpoint lower_letters (s : string) : string :=
  match s with
  | "" => ""
  | String b s' => String (lower_letter b) (lower_letters s')
  end.

(** Three hospitals: two of the sample data, and one with a Greek name
    in capitals. *)
Definition mumbai_hospital : Dashboard.Hospital :=
  Dashboard.mkHospital 1 "City General Hospital" "Mumbai" "022-5550100"
    "1 Marine Drive" 100 10 20 2.
Definition delhi_hospital : Dashboard.Hospital :=
  Dashboard.mkHospital 2 "Regional Medical Center" "Delhi" "011-5550101"
    "12 Ring Road" 150 45 30 8.
Definition athens_hospital : Dashboard.Hospital :=
  Dashboard.mkHospital 3 "ΓΕΝΙΚΟ ΝΟΣΟΚΟΜΕΙΟ ΑΘΗΝΩΝ" "ΑΘΗΝΑ" "210-5550102"
    "Mesogeion 154" 200 60 40 12.

(** A fetch that fails: the promise rejects, or the response says
    [success: false]. *)
Definition failed {A} (o : FetchOutcome A) : bool :=
  match o with
  | Rejected => true
  | Resolved result => negb (success result)
  end.

(** The state of the medicine view names an array of the store, the page
    is at least 1, and it is at most the number of pages when there is a
    page at all. *)
Definition page_in_range (w : MedicineStock.World) : Prop :=
  MedicineStock.filteredMedicines (snd w) ∈ dom (fst w)
  /\ 1 <= MedicineStock.currentPage (snd w)
  /\ MedicineStock.currentPage (snd w)
     <= Z.max 1 (MedicineStock.totalPages
                   (Heap.read (fst w) (MedicineStock.filteredMedicines (snd w)))).

(** Under the comparator [cmp], [a] may stand before [b]. *)
Definition before {A} (cmp : A -> A -> Z) (a b : A) : Prop := cmp a b <= 0.

(** Two alerts that the backend lists the older first, and the alert view
    once the response has arrived. *)
Definition older_alert : Alerts.Alert :=
  Alerts.mkAlert 8 "medicine" "Kolkata" "Eastern Medical" "moderate"
    "Metformin supply chain disruption expected" 1705263300000.
Definition newer_alert : Alerts.Alert :=
  Alerts.mkAlert 1 "bed" "Mumbai" "City General Hospital" "critical"
    "ICU beds at critical shortage - only 1 bed available" 1705314600000.
Definition fetched_world : Alerts.World :=
  Alerts.fetchAlerts_settle
    (Resolved {| success := true; data := [older_alert; newer_alert];
                 error_message := None |})
    Alerts.initial.

(** ** Binary64 numbers and the reals they denote *)

(** The record of a right shift is exact when no digit one was lost. *)
Definition exact (x : shr_record) : Prop := shr_r x = false /\ shr_s x = false.

(** [x'] is [x] shifted right by [n] digits. *)
Definition shifted (n : Z) (x x' : shr_record) : Prop :=
  shr_m x' = shr_m x / 2 ^ n
  /\ (exact x' <-> exact x /\ shr_m x mod 2 ^ n = 0).

Definition pow2 (e : Z) : R := powerRZ 2 e.

(** The real that the mantissa [m] denotes at the exponent [e]. *)
Definition value (m e : Z) : R := (IZR m * pow2 e)%R.

(** A mantissa of 53 digits. *)
Definition normal (m : Z) : Prop := 2 ^ 52 <= m < 2 ^ 53.

(** The double of 100. *)
Definition SF100 : spec_float := S754_finite false 7036874417766400 (-46).

(** ** The vocabulary of the further properties *)

(** The hospitals of the last successful response among the events, or
    [current] when there is none. *)
Fixpoint hospitals_fetched (evs : list Dashboard.Event)
    (current : list Dashboard.Hospital) : list Dashboard.Hospital :=
  match evs with
  | [] => current
  | Dashboard.FetchSettle (Resolved result) :: evs' =>
      hospitals_fetched evs' (if success result then data result else current)
  | _ :: evs' => hospitals_fetched evs' current
  end.

(** The term of the last change of the search box among the events. *)
Fixpoint term_typed (evs : list Dashboard.Event) (current : string) : string :=
  match evs with
  | [] => current
  | Dashboard.ChangeSearch v :: evs' => term_typed evs' v
  | _ :: evs' => term_typed evs' current
  end.

(** The alerts of the last successful response among the events. *)
Fixpoint alerts_fetched (evs : list Alerts.Event)
    (current : list Alerts.Alert) : list Alerts.Alert :=
  match evs with
  | [] => current
  | Alerts.FetchSettle (Resolved result) :: evs' =>
      alerts_fetched evs' (if success result then data result else current)
  | _ :: evs' => alerts_fetched evs' current
  end.

(** The two array variables of the alert view name one array, or two
    empty ones as after the mount. *)
Definition alerts_shared (w : Alerts.World) : Prop :=
  Alerts.alerts (snd w) = Alerts.filteredAlerts (snd w)
  \/ (Heap.read (fst w) (Alerts.alerts (snd w)) = []
      /\ Heap.read (fst w) (Alerts.filteredAlerts (snd w)) = []).

(** The rank of a status: critical below moderate below good. *)
Definition tier (status : string) : Z :=
  if String.eqb status "good" then 2
  else if String.eqb status "moderate" then 1
  else 0.

(** How often the character [c] occurs in [s]. *)
Fixpoint count_char (c : ascii) (s : string) : nat :=
  match s with
  | EmptyString => O
  | String d s' => ((if Ascii.eqb c d then 1 else 0) + count_char c s')%nat
  end.

(** The medicines of the pages [1 .. k], page after page. *)
Fixpoint pages_upto (items : list MedicineStock.Medicine) (k : nat)
  : list MedicineStock.Medicine :=
  match k with
  | O => []
  | S k' => pages_upto items k'
            ++ MedicineStock.currentMedicines items (Z.of_nat (S k'))
  end.

(** The medicines of the last successful response among the events. *)
Fixpoint medicines_fetched (evs : list MedicineStock.Event)
    (current : list MedicineStock.Medicine) : list MedicineStock.Medicine :=
  match evs with
  | [] => current
  | MedicineStock.FetchSettle (Resolved result) :: evs' =>
      medicines_fetched evs' (if success result then data result else current)
  | _ :: evs' => medicines_fetched evs' current
  end.

(** The characters that the serializer can put out. *)
Definition urlencoded_output (d : ascii) : bool :=
  JS.urlencoded_plain d || Ascii.eqb d "+"%char || Ascii.eqb d "%"%char.

(** * Properties *)

(** ** Strings: [includes] finds exactly the substrings *)

Section StringFacts.

Import JS.

Lemma startsWith_iff (s p : string) :
  startsWith s p = true <-> exists post, s = p ++ post.
Proof.
  revert s. induction p as [|a p IH]; intros s; simpl.
  - split; [intros _; now exists s | reflexivity].
  - destruct s as [|b s]; simpl.
    + split; [discriminate | intros [post H]; discriminate].
    + rewrite andb_true_iff, Ascii.eqb_eq, IH. split.
      * intros [-> [post ->]]. now exists post.
      * intros [post H]. injection H as -> ->. split; [reflexivity | now exists post].
Qed.

Lemma includes_iff (s p : string) :
  includes s p = true <-> exists pre post, s = pre ++ p ++ post.
Proof.
  induction s as [|c s IH]; simpl.
  - rewrite orb_false_r, startsWith_iff. split.
    + intros [post H]. now exists "", post.
    + intros [pre [post H]]. destruct pre; simpl in H; [now exists post | discriminate].
  - rewrite orb_true_iff, startsWith_iff, IH. split.
    + intros [[post H] | [pre [post H]]].
      * now exists "", post.
      * exists (String c pre), post. simpl. now rewrite H.
    + intros [pre [post H]]. destruct pre as [|d pre]; simpl in H.
      * left. now exists post.
      * right. injection H as _ ->. now exists pre, post.
Qed.

Lemma includes_empty (s : string) : includes s "" = true.
Proof. destruct s; reflexivity. Qed.

(** **** Bytes *)

Lemma code_range (b : ascii) : 0 <= code b < 256.
Proof. unfold code. pose proof (N_ascii_bounded b). lia. Qed.

Lemma code_byte (n : Z) : 0 <= n < 256 -> code (byte n) = n.
Proof. intros H. unfold code, byte. rewrite N_ascii_embedding; lia. Qed.

Lemma byte_code (b : ascii) : byte (code b) = b.
Proof. unfold code, byte. rewrite N2Z.id. apply ascii_N_embedding. Qed.

Lemma code_inj (c d : ascii) : code c = code d -> c = d.
Proof. intros H. rewrite <- (byte_code c), <- (byte_code d). now rewrite H. Qed.

(** **** [toLowerCase] on ASCII text *)

Lemma find_run_above (c : Z) (runs : list (Z * Z * Z * Z)) :
  forallb (fun r => c <? fst (fst (fst r))) runs = true -> find_run c runs = c.
Proof.
  induction runs as [|[[[first last] step] delta] runs IH]; simpl; [reflexivity|].
  intros H. apply andb_true_iff in H as [H1 H2]. apply Z.ltb_lt in H1.
  destruct (Z.leb_spec first c); [lia|]. simpl. now apply IH.
Qed.

Lemma forallb_weaken {A} (f g : A -> bool) (l : list A) :
  (forall x, f x = true -> g x = true) -> forallb f l = true -> forallb g l = true.
Proof.
  intros Hfg. induction l as [|x l IH]; simpl; [reflexivity|].
  intros H. apply andb_true_iff in H as [H1 H2]. now rewrite (Hfg x H1), IH.
Qed.

(** Below U+0080 the letters A-Z alone have a lowercase mapping. *)
Lemma simple_lower_ascii (c : Z) :
  0 <= c < 0x80 ->
  simple_lower c = if (0x41 <=? c) && (c <=? 0x5A) then c + 0x20 else c.
Proof.
  intros Hc. unfold simple_lower.
  assert (E : lower_runs = (0x41, 0x5A, 1, 0x20) :: tl lower_runs) by reflexivity.
  rewrite E. cbn [find_run]. rewrite Z.mod_1_r, andb_true_r.
  destruct ((0x41 <=? c) && (c <=? 0x5A)); [reflexivity|].
  apply find_run_above.
  assert (K : forallb (fun r => 0x7F <? fst (fst (fst r))) (tl lower_runs) = true)
    by (vm_compute; reflexivity).
  revert K. apply forallb_weaken. intros r Hr.
  apply Z.ltb_lt in Hr. apply Z.ltb_lt. lia.
Qed.

Lemma lower_letter_code (b : ascii) :
  code (lower_letter b)
  = if (0x41 <=? code b) && (code b <=? 0x5A) then code b + 0x20 else code b.
Proof.
  unfold lower_letter.
  destruct ((0x41 <=? code b) && (code b <=? 0x5A)) eqn:E; [|reflexivity].
  apply andb_true_iff in E as [E1 E2]. apply Z.leb_le in E1, E2.
  apply code_byte. lia.
Qed.

(** On ASCII text [toLowerCase] makes the letters A-Z small and leaves
    the other characters. *)
Lemma lower_points_ascii (s : string) (preceded : bool) :
  ascii_text s = true ->
  utf8_encode (lower_points preceded (utf8_decode s)) = lower_letters s.
Proof.
  unfold utf8_decode. revert preceded.
  induction s as [|b s IH]; intros preceded H; [reflexivity|].
  cbn [ascii_text] in H. apply andb_true_iff in H as [Hb Hs].
  apply Z.ltb_lt in Hb. pose proof (code_range b) as Rb.
  cbn [utf8_decode_from]. cbv zeta.
  destruct (Z.ltb_spec (code b) 0x80) as [_|]; [|lia].
  cbn [lower_points].
  destruct (Z.eqb_spec (code b) 0x3A3) as [|_]; [lia|].
  destruct (Z.eqb_spec (code b) 0x130) as [|_]; [lia|].
  rewrite simple_lower_ascii by lia.
  cbn [app utf8_encode]. rewrite IH by exact Hs.
  cbn [lower_letters]. unfold utf8_encode_point, lower_letter.
  destruct ((0x41 <=? code b) && (code b <=? 0x5A)) eqn:E.
  - apply andb_true_iff in E as [E1 E2]. apply Z.leb_le in E1, E2.
    destruct (Z.ltb_spec (code b + 0x20) 0x80); [reflexivity | lia].
  - destruct (Z.ltb_spec (code b) 0x80); [|lia]. now rewrite byte_code.
Qed.

Lemma toLowerCase_ascii (s : string) :
  ascii_text s = true -> toLowerCase s = lower_letters s.
Proof. apply lower_points_ascii. Qed.

Lemma lower_letters_app (s t : string) :
  lower_letters (s ++ t) = lower_letters s ++ lower_letters t.
Proof. induction s as [|c s IH]; simpl; [reflexivity | now rewrite IH]. Qed.

(** A split of the lowered text comes from a split of the text. *)
Lemma lower_letters_split (t a b : string) :
  lower_letters t = a ++ b ->
  exists t1 t2, t = t1 ++ t2 /\ lower_letters t1 = a /\ lower_letters t2 = b.
Proof.
  revert t. induction a as [|c a IH]; intros t H; simpl in H.
  - now exists "", t.
  - destruct t as [|d t]; simpl in H; [discriminate|].
    injection H as Hc Ht. destruct (IH t Ht) as (t1 & t2 & -> & H1 & H2).
    exists (String d t1), t2. simpl. now rewrite Hc, H1, H2.
Qed.

(** Two characters have one lowered form exactly when they are one
    letter. *)
Lemma lower_letter_same (c d : ascii) :
  lower_letter c = lower_letter d <-> same_letter c d.
Proof.
  pose proof (lower_letter_code c) as Hc. pose proof (lower_letter_code d) as Hd.
  pose proof (code_range c). pose proof (code_range d).
  unfold same_letter. split.
  - intros E. rewrite E in Hc. rewrite Hd in Hc.
    destruct (Z.leb_spec 0x41 (code c)), (Z.leb_spec (code c) 0x5A),
             (Z.leb_spec 0x41 (code d)), (Z.leb_spec (code d) 0x5A);
      simpl in Hc;
      first [ left; apply code_inj; lia | right; left; lia | right; right; lia ].
  - intros H1. apply code_inj. rewrite Hc, Hd.
    destruct H1 as [->|[[H1 H2]|[H1 H2]]]; [reflexivity| |];
      destruct (Z.leb_spec 0x41 (code c)), (Z.leb_spec (code c) 0x5A),
               (Z.leb_spec 0x41 (code d)), (Z.leb_spec (code d) 0x5A);
      simpl; lia.
Qed.

Lemma lower_letters_equal (u s : string) :
  lower_letters u = lower_letters s <-> equal_ignoring_case u s.
Proof.
  revert s. induction u as [|c u IH]; intros [|d s]; simpl.
  - tauto.
  - split; [discriminate | contradiction].
  - split; [discriminate | contradiction].
  - rewrite <- IH, <- lower_letter_same. split.
    + intros H. injection H as H1 H2. now split.
    + intros [-> ->]. reflexivity.
Qed.

Lemma ascii_text_app (s t : string) :
  ascii_text (s ++ t) = ascii_text s && ascii_text t.
Proof.
  induction s as [|c s IH]; simpl; [reflexivity|]. now rewrite IH, andb_assoc.
Qed.

End StringFacts.

(** ** The hospital view *)

Section DashboardFacts.

Import JS Dashboard.

(** On ASCII text, the test of the filter finds the substrings up to
    the case of the letters. *)
Lemma includes_lower_iff (t s : string) :
  ascii_text t = true -> ascii_text s = true ->
  (includes (toLowerCase t) (toLowerCase s) = true <-> contains_ignoring_case t s).
Proof.
  intros Ht Hs. rewrite !toLowerCase_ascii by assumption.
  rewrite includes_iff. unfold contains_ignoring_case. split.
  - intros (pre' & post' & H).
    apply lower_letters_split in H as (pre & r & -> & _ & H).
    apply lower_letters_split in H as (u & post & -> & Hu & _).
    exists pre, u, post. split; [reflexivity|]. now apply lower_letters_equal.
  - intros (pre & u & post & -> & Hu). apply lower_letters_equal in Hu.
    exists (lower_letters pre), (lower_letters post).
    now rewrite !lower_letters_app, Hu.
Qed.

Lemma matches_iff (s : string) (h : Hospital) :
  ascii_text s = true ->
  ascii_text (name h) = true -> ascii_text (district h) = true ->
  (matches s h = true <->
   contains_ignoring_case (name h) s \/ contains_ignoring_case (district h) s).
Proof.
  intros Hs Hn Hd. unfold matches.
  now rewrite orb_true_iff, !includes_lower_iff by assumption.
Qed.

Lemma matches_empty (h : Hospital) : matches "" h = true.
Proof. unfold matches. simpl. now rewrite includes_empty. Qed.

Lemma filter_all {A} (f : A -> bool) (l : list A) :
  (forall x, In x l -> f x = true) -> List.filter f l = l.
Proof.
  induction l as [|x l IH]; simpl; intros H; [reflexivity|].
  rewrite (H x) by now left. f_equal. apply IH. intros y Hy. apply H. now right.
Qed.

Lemma filter_idem {A} (f : A -> bool) (l : list A) :
  List.filter f (List.filter f l) = List.filter f l.
Proof.
  apply filter_all. intros x Hx. now apply filter_In in Hx.
Qed.

Lemma filterHospitals_filter (s : string) (C : list Hospital) :
  filterHospitals s C = List.filter (matches s) C.
Proof.
  unfold filterHospitals. destruct (String.eqb_spec s "") as [->|_]; [|reflexivity].
  symmetry. apply filter_all. intros h _. apply matches_empty.
Qed.

(** C5, as the code has it: when the names and districts of the
    hospitals and the search term are ASCII text, the filtered
    collection of the hospital view holds exactly the hospitals whose
    name or district contains the term as a substring, the case of the
    letters ignored: a hospital is in it when it is in the collection
    and matches, and the filtered collection is the collection with the
    hospitals that do not match left out, the others in place. *)
Theorem filterHospitals_exactly_matching (C : list Hospital) (s : string) :
  ascii_text s = true ->
  (forall h, In h C ->
             ascii_text (name h) = true /\ ascii_text (district h) = true) ->
  (forall h, In h (filterHospitals s C) <->
             In h C /\ (contains_ignoring_case (name h) s
                        \/ contains_ignoring_case (district h) s))
  /\ exists keep : Hospital -> bool,
       (forall h, In h C ->
                  (keep h = true <->
                   contains_ignoring_case (name h) s
                   \/ contains_ignoring_case (district h) s))
       /\ filterHospitals s C = List.filter keep C
       /\ filteredHospitals
            (filter_effect (setHospitals C (setSearchTerm s initial)))
          = List.filter keep C.
Proof.
  intros Hs HC.
  assert (M : forall h, In h C ->
                (matches s h = true <->
                 contains_ignoring_case (name h) s
                 \/ contains_ignoring_case (district h) s)).
  { intros h Hh. destruct (HC h Hh) as [Hn Hd]. now apply matches_iff. }
  split.
  - intros h. rewrite filterHospitals_filter, filter_In. split.
    + intros [Hh Hm]. split; [exact Hh|]. now apply M.
    + intros [Hh Hm]. split; [exact Hh|]. now apply M.
  - exists (matches s). split; [exact M|].
    split; apply filterHospitals_filter.
Qed.

Lemma filterHospitals_exactly_matching_witness :
  let C := [mumbai_hospital; delhi_hospital] in
  In mumbai_hospital (filterHospitals "MUMBAI" C)
  /\ In delhi_hospital (filterHospitals "medical" C)
  /\ filterHospitals "MUMBAI" C = [mumbai_hospital]
  /\ filterHospitals "medical" C = [delhi_hospital].
Proof.
  intros C.
  assert (HC : forall h, In h C ->
                 ascii_text (name h) = true /\ ascii_text (district h) = true).
  { intros h [<-|[<-|[]]]; split; reflexivity. }
  split; [|split; [|split; reflexivity]].
  - apply (filterHospitals_exactly_matching C "MUMBAI" eq_refl HC).
    split; [left; reflexivity|]. right.
    exists "", "Mumbai", "". split; [reflexivity|].
    apply lower_letters_equal. reflexivity.
  - apply (filterHospitals_exactly_matching C "medical" eq_refl HC).
    split; [right; left; reflexivity|]. left.
    exists "Regional ", "Medical", " Center". split; [reflexivity|].
    apply lower_letters_equal. reflexivity.
Defined.

(** C5, as the claim has it, for every term: the capital sigma is made
    small in one way at the end of a word and in another way inside of
    one, so the hospital is not found by the first letters of the second
    word of its name, typed in capitals as they stand in the name. *)
Lemma filterHospitals_exactly_matching_counterexample :
  let C := [athens_hospital] in
  let s := "ΝΟΣ" in
  toLowerCase (name athens_hospital) = "γενικο νοσοκομειο αθηνων"
  /\ toLowerCase s = "νος"
  /\ ~ (forall h, In h (filterHospitals s C) <->
                   In h C /\ (contains_ignoring_case (name h) s
                              \/ contains_ignoring_case (district h) s)).
Proof.
  intros C s. split; [vm_compute; reflexivity|]. split; [vm_compute; reflexivity|].
  intros H.
  assert (E : filterHospitals s C = []) by (vm_compute; reflexivity).
  assert (Hin : In athens_hospital (filterHospitals s C)).
  { apply H. split; [left; reflexivity|]. left.
    exists "ΓΕΝΙΚΟ ", "ΝΟΣ", "ΟΚΟΜΕΙΟ ΑΘΗΝΩΝ". split; [reflexivity|].
    apply lower_letters_equal. reflexivity. }
  rewrite E in Hin. destruct Hin.
Qed.

(** The filter is not limited to ASCII: a name with an accented capital
    is found by the term with the small letter. *)
Example filterHospitals_accented :
  let h := mkHospital 4 "ÉCOLE Hospital" "Pune" "020-5550103" "4 MG Road"
             80 30 10 3 in
  filterHospitals "école" [h; mumbai_hospital] = [h].
Proof. vm_compute. reflexivity. Qed.

(** C6: the text filter of the hospital view is idempotent, and with the
    empty term it returns the collection as it is, in its order. *)
Theorem filterHospitals_idempotent_and_empty (C : list Hospital) (s : string) :
  filterHospitals s (filterHospitals s C) = filterHospitals s C
  /\ filterHospitals "" C = C.
Proof.
  split; [|reflexivity].
  rewrite !filterHospitals_filter. apply filter_idem.
Qed.

Lemma or_else_nonempty (a : option string) (b : string) :
  b <> "" -> or_else a b <> "".
Proof.
  intros Hb. unfold or_else. destruct a as [e|]; [|exact Hb].
  destruct (String.eqb_spec e ""); assumption.
Qed.

(** C8: when a fetch of the hospital view fails, by a rejected promise or
    by a response with [success: false], the error state holds a message
    and the hospital collection and the filtered collection are the ones
    from before. This holds for the whole call and for its continuation
    after the [await], whatever the state was then. *)
Theorem fetchHospitals_failure (o : FetchOutcome Hospital) (s : State) :
  failed o = true ->
  (exists msg, error (fetchHospitals o s) = Some msg /\ msg <> "")
  /\ hospitals (fetchHospitals o s) = hospitals s
  /\ filteredHospitals (fetchHospitals o s) = filteredHospitals s
  /\ (exists msg, error (fetchHospitals_settle o s) = Some msg /\ msg <> "")
  /\ hospitals (fetchHospitals_settle o s) = hospitals s
  /\ filteredHospitals (fetchHospitals_settle o s) = filteredHospitals s.
Proof.
  intros Hf. destruct o as [|result]; simpl in Hf.
  - repeat split; try reflexivity; eexists; (split; [reflexivity | discriminate]).
  - apply negb_true_iff in Hf.
    unfold fetchHospitals, fetchHospitals_settle. rewrite Hf. simpl.
    repeat split; try reflexivity;
      eexists; (split; [reflexivity | apply or_else_nonempty; discriminate]).
Qed.

Lemma fetchHospitals_failure_witness :
  let o := Resolved {| success := false; data := []; error_message := None |} in
  let s := setHospitals [mkHospital 1 "City General Hospital" "Mumbai" "022-5550100" "1 Marine Drive"
                              100 10 20 2] initial in
  failed o = true
  /\ error (fetchHospitals o s) = Some "Failed to fetch hospital data"
  /\ hospitals (fetchHospitals o s) = hospitals s.
Proof.
  intros o s. split; [reflexivity|].
  destruct (fetchHospitals_failure o s eq_refl) as (_ & H & _).
  split; [reflexivity | exact H].
Defined.

End DashboardFacts.

(** ** Availability of beds when a hospital reports no bed at all *)

Section ZeroBedsFacts.

Import JS Dashboard.

(** A positive number, finite or not, divided by zero is infinity. *)
Lemma div_positive_by_zero (a : float) :
  (0 <? a)%float = true -> (a / 0)%float = infinity.
Proof.
  intros H. apply Prim2SF_inj. rewrite div_spec. rewrite ltb_spec in H.
  change (Prim2SF 0) with (S754_zero false) in *.
  change (Prim2SF infinity) with (S754_infinity false).
  destruct (Prim2SF a) as [s|s| |s m e]; try discriminate H;
    destruct s; try discriminate H; reflexivity.
Qed.

(** C9: with no bed in total the classification still returns: no
    available bed gives "critical" (the percentage is not a number and
    fails both comparisons), a positive number of available beds gives
    "good" (the percentage is infinity). *)
Theorem getAvailabilityStatus_zero_total :
  status (getAvailabilityStatus 0 0) = "critical"
  /\ (0 / 0 * 100)%float = nan
  /\ forall available : float,
       (0 <? available)%float = true ->
       status (getAvailabilityStatus available 0) = "good"
       /\ (available / 0 * 100)%float = infinity.
Proof.
  split; [reflexivity|]. split; [reflexivity|].
  intros a Ha. unfold getAvailabilityStatus.
  rewrite (div_positive_by_zero a Ha). split; reflexivity.
Qed.

Lemma getAvailabilityStatus_zero_total_witness :
  (0 <? 5)%float = true
  /\ status (getAvailabilityStatus 5 0) = "good".
Proof.
  split; [reflexivity|].
  destruct getAvailabilityStatus_zero_total as (_ & _ & H).
  exact (proj1 (H 5%float eq_refl)).
Defined.

End ZeroBedsFacts.

(** ** The badges of the medicine view *)

Section BadgeFacts.

Import MedicineStock.

(** C10: for an availability outside "high", "moderate" and "low", be it
    another string or not a string, the two lookups return their default:
    the gray colour and the text "Unknown". *)
Theorem badge_lookups_default (availability : value) :
  availability <> Str "high" ->
  availability <> Str "moderate" ->
  availability <> Str "low" ->
  getAvailabilityColor availability = "bg-gray-500"
  /\ getAvailabilityText availability = "Unknown".
Proof.
  intros Hh Hm Hl.
  assert (E : forall lit, availability <> Str lit -> strict_eq availability lit = false).
  { intros lit Hne. destruct availability as [| | b | x | s]; try reflexivity.
    simpl. destruct (String.eqb_spec s lit) as [->|]; [now elim Hne | reflexivity]. }
  unfold getAvailabilityColor, getAvailabilityText.
  rewrite (E _ Hh), (E _ Hm), (E _ Hl). split; reflexivity.
Qed.

Lemma badge_lookups_default_witness :
  getAvailabilityColor (Str "HIGH") = "bg-gray-500"
  /\ getAvailabilityText (Str "HIGH") = "Unknown"
  /\ getAvailabilityColor Undefined = "bg-gray-500".
Proof.
  split; [|split].
  - apply (badge_lookups_default (Str "HIGH")); discriminate.
  - apply (badge_lookups_default (Str "HIGH")); discriminate.
  - apply (badge_lookups_default Undefined); discriminate.
Defined.

End BadgeFacts.

(** ** The age of an alert *)

Section FormatTimeFacts.

Import JS Alerts.

Lemma floor_div_quot (a b : Z) :
  0 <= a -> 0 < b -> Math_floor_div a b = a ÷ b.
Proof. intros Ha Hb. unfold Math_floor_div. symmetry. now apply Z.quot_div_nonneg. Qed.

(** C4: for an alert that is not in the future, [formatTime] counts in
    minutes below an hour, in hours below a day, in days from there on;
    each count is the elapsed time divided by the unit and truncated
    toward zero, printed in decimal, the unit always in the plural.
    45 minutes give "45 minutes ago", 90 minutes "1 hours ago" and 25
    hours "1 days ago". *)
Theorem formatTime_elapsed (now t : Z) :
  0 <= now - t ->
  let elapsed := now - t in
  let minutes := elapsed ÷ 60000 in
  let hours := elapsed ÷ 3600000 in
  let days := elapsed ÷ 86400000 in
  (minutes < 60 -> formatTime now t = string_of_Z minutes ++ " minutes ago")
  /\ (60 <= minutes -> hours < 24 ->
      formatTime now t = string_of_Z hours ++ " hours ago")
  /\ (60 <= minutes -> 24 <= hours ->
      formatTime now t = string_of_Z days ++ " days ago")
  /\ (elapsed = 45 * 60000 -> formatTime now t = "45 minutes ago")
  /\ (elapsed = 90 * 60000 -> formatTime now t = "1 hours ago")
  /\ (elapsed = 25 * 3600000 -> formatTime now t = "1 days ago").
Proof.
  intros Hpos elapsed minutes hours days.
  assert (E : formatTime now t =
            if minutes <? 60 then string_of_Z minutes ++ " minutes ago"
            else if hours <? 24 then string_of_Z hours ++ " hours ago"
            else string_of_Z days ++ " days ago").
  { unfold formatTime. fold elapsed.
    rewrite !floor_div_quot by (assumption || lia). reflexivity. }
  rewrite E. repeat split.
  - intros H. apply Z.ltb_lt in H. now rewrite H.
  - intros H1 H2. apply Z.ltb_ge in H1. apply Z.ltb_lt in H2. now rewrite H1, H2.
  - intros H1 H2. apply Z.ltb_ge in H1, H2. now rewrite H1, H2.
  - intros H. subst minutes hours days. rewrite H. reflexivity.
  - intros H. subst minutes hours days. rewrite H. reflexivity.
  - intros H. subst minutes hours days. rewrite H. reflexivity.
Qed.

Lemma formatTime_elapsed_witness :
  formatTime 1705314600000 (1705314600000 - 5400000) = "1 hours ago".
Proof.
  assert (H : 0 <= 1705314600000 - (1705314600000 - 5400000)) by lia.
  destruct (formatTime_elapsed 1705314600000 (1705314600000 - 5400000) H)
    as (_ & _ & _ & _ & H90 & _).
  apply H90. reflexivity.
Defined.

End FormatTimeFacts.

(** ** Arrays: what [slice] returns *)

Section SliceFacts.

Import JS.

Context {A : Type}.
Implicit Types l : list A.

Lemma slice_nonneg l (a b : Z) :
  0 <= a -> 0 <= b ->
  slice l a b =
  take (Z.to_nat (Z.min b (Z.of_nat (length l)) - Z.min a (Z.of_nat (length l))))
       (drop (Z.to_nat (Z.min a (Z.of_nat (length l)))) l).
Proof.
  intros Ha Hb. unfold slice.
  destruct (Z.ltb_spec a 0); [lia|]. destruct (Z.ltb_spec b 0); [lia|]. reflexivity.
Qed.

Lemma slice_length l (a b : Z) :
  0 <= a <= b ->
  Z.of_nat (length (slice l a b)) =
  Z.max 0 (Z.min b (Z.of_nat (length l)) - a).
Proof.
  intros H. rewrite slice_nonneg by lia. rewrite length_take, length_drop. lia.
Qed.

Lemma slice_lookup l (a b : Z) (i : nat) :
  0 <= a <= b ->
  slice l a b !! i =
  if decide (a + Z.of_nat i < Z.min b (Z.of_nat (length l)))
  then l !! (Z.to_nat a + i)%nat else None.
Proof.
  intros H. rewrite slice_nonneg by lia. rewrite lookup_take, lookup_drop.
  destruct (decide (a + Z.of_nat i < _)) as [Hi|Hi]; case_decide; try lia.
  - f_equal. lia.
  - reflexivity.
Qed.

Lemma slice_prefix l (n : Z) : 0 <= n -> slice l 0 n = take (Z.to_nat n) l.
Proof.
  intros H. rewrite slice_nonneg by lia. simpl.
  replace (Z.min 0 (Z.of_nat (length l))) with 0 by lia. simpl.
  rewrite Z.sub_0_r. destruct (Z.le_ge_cases n (Z.of_nat (length l))).
  - now rewrite Z.min_l.
  - rewrite Z.min_r by assumption. rewrite Nat2Z.id.
    rewrite (take_ge l (Z.to_nat n)) by lia. now apply take_ge.
Qed.

End SliceFacts.

(** ** The pager of the medicine view *)

Section PaginationFacts.

Import JS MedicineStock.

Lemma Math_ceil_div_bounds (a b : Z) :
  0 < b -> b * (Math_ceil_div a b - 1) < a <= b * Math_ceil_div a b.
Proof.
  intros Hb. unfold Math_ceil_div.
  pose proof (Z.div_mod (- a) b ltac:(lia)).
  pose proof (Z.mod_pos_bound (- a) b Hb). nia.
Qed.

Lemma totalPages_nonneg (items : list Medicine) : 0 <= totalPages items.
Proof.
  unfold totalPages.
  pose proof (Math_ceil_div_bounds (Z.of_nat (length items)) itemsPerPage eq_refl).
  unfold itemsPerPage in *. lia.
Qed.

Lemma page_in_range_initial : page_in_range initial.
Proof.
  unfold page_in_range, initial. simpl. split; [|split].
  - apply elem_of_dom. now exists [].
  - lia.
  - apply Z.le_max_l.
Qed.

Lemma alloc_fresh {B} (h : gmap Heap.loc (list B)) (v : list B) (l : Heap.loc) :
  l ∈ dom h -> fst (Heap.alloc h v) <> l.
Proof.
  intros Hl E. simpl in E. subst l. now apply is_fresh in Hl.
Qed.

Lemma read_alloc {B} (h : gmap Heap.loc (list B)) (v : list B) :
  Heap.read (snd (Heap.alloc h v)) (fst (Heap.alloc h v)) = v.
Proof. unfold Heap.read. simpl. now rewrite lookup_insert_eq. Qed.

Lemma step_unchanged_array (h : gmap Heap.loc (list Medicine)) (s s' : State) :
  filteredMedicines s' = filteredMedicines s -> page_effect s s' = s'.
Proof. intros E. unfold page_effect. now rewrite E, Pos.eqb_refl. Qed.

Lemma page_in_range_step (ev : Event) (w : World) :
  page_in_range w -> page_in_range (step ev w).
Proof.
  destruct w as [h s]. unfold page_in_range. simpl. intros (Hd & H1 & H2).
  assert (Same : forall s', filteredMedicines s' = filteredMedicines s ->
                            1 <= currentPage s' ->
                            currentPage s' <=
                              Z.max 1 (totalPages (Heap.read h (filteredMedicines s))) ->
                            page_in_range (h, page_effect s s')).
  { intros s' E P1 P2. rewrite (step_unchanged_array h s s' E).
    unfold page_in_range. simpl. rewrite E. auto. }
  unfold page_in_range in Same. simpl in Same.
  destruct ev as [v| |o| |]; unfold step, handle.
  - apply Same; auto.
  - apply Same; auto.
  - unfold fetchMedicines_settle. destruct o as [|result].
    + apply Same; auto.
    + destruct (success result).
      * unfold Heap.alloc, page_effect. cbn.
        match goal with
        | |- context [Pos.eqb ?a ?b] => destruct (Pos.eqb_spec a b) as [E|E]
        end.
        { exfalso. rewrite E in Hd. now apply is_fresh in Hd. }
        cbn. split; [|split].
        -- apply elem_of_dom. rewrite lookup_insert_eq. now eexists.
        -- lia.
        -- apply Z.le_max_l.
      * apply Same; auto.
  - destruct (_ && _) eqn:G; [|apply Same; auto].
    apply andb_true_iff in G as [G1 G2]. apply Z.ltb_lt in G1.
    apply Same; [reflexivity| |]; cbn; unfold previous_onClick; lia.
  - destruct (_ && _) eqn:G; [|apply Same; auto].
    apply andb_true_iff in G as [G1 G2]. apply Z.ltb_lt in G1.
    apply Same; [reflexivity| |]; cbn; unfold next_onClick; lia.
Qed.

Lemma page_in_range_run (evs : list Event) (w : World) :
  page_in_range w -> page_in_range (run evs w).
Proof.
  revert w. induction evs as [|ev evs IH]; intros w H; simpl; [assumption|].
  apply IH. now apply page_in_range_step.
Qed.

Lemma page_reset_on_change (ev : Event) (w : World) :
  filteredMedicines (snd (step ev w)) <> filteredMedicines (snd w) ->
  currentPage (snd (step ev w)) = 1.
Proof.
  unfold step. destruct (handle ev w) as [h' s'] eqn:E. simpl.
  unfold page_effect.
  destruct (Pos.eqb_spec (filteredMedicines (snd w)) (filteredMedicines s')) as [Heq|Hne];
    simpl; [congruence | reflexivity].
Qed.

(** C2: the medicine view shows pages of 6. With [n] filtered items the
    number of pages is the ceiling of [n/6]; page [p] shows the items at
    the indices [6(p-1)] to [min(6p, n) - 1]; the last page holds
    [n - 6(pages-1)] items; Previous and Next keep a page of the range
    [1 .. pages] in that range, Next at the last page stays there, and
    the page is in that range after any sequence of events, each with
    its effect run; the page is 1 after an event that replaces the
    filtered array by another one. *)
Theorem pagination (items : list Medicine) (p : Z) :
  let n := Z.of_nat (length items) in
  let pages := totalPages items in
  (6 * (pages - 1) < n <= 6 * pages)
  /\ (1 <= p ->
      forall i : nat,
        currentMedicines items p !! i =
        if decide (6 * (p - 1) + Z.of_nat i < Z.min (6 * p) n)
        then items !! (Z.to_nat (6 * (p - 1)) + i)%nat else None)
  /\ (0 < n -> Z.of_nat (length (currentMedicines items pages)) = n - 6 * (pages - 1))
  /\ (1 <= p <= pages ->
      1 <= previous_onClick p <= pages
      /\ 1 <= next_onClick pages p <= pages
      /\ next_onClick pages pages = pages)
  /\ (forall evs : list Event,
        let w := run evs initial in
        let shown := Heap.read (fst w) (filteredMedicines (snd w)) in
        1 <= currentPage (snd w)
        /\ (0 < Z.of_nat (length shown) -> currentPage (snd w) <= totalPages shown))
  /\ (forall (ev : Event) (w : World),
        filteredMedicines (snd (step ev w)) <> filteredMedicines (snd w) ->
        currentPage (snd (step ev w)) = 1).
Proof.
  intros n pages.
  assert (Hb : 6 * (pages - 1) < n <= 6 * pages).
  { apply (Math_ceil_div_bounds n 6). lia. }
  split; [exact Hb|]. split; [|split; [|split; [|split]]].
  - intros Hp i. unfold currentMedicines, endIndex, startIndex, itemsPerPage.
    rewrite slice_lookup by lia. fold n.
    replace ((p - 1) * 6 + 6) with (6 * p) by lia.
    replace ((p - 1) * 6) with (6 * (p - 1)) by lia. reflexivity.
  - intros Hn. unfold currentMedicines, endIndex, startIndex, itemsPerPage.
    rewrite slice_length by lia. fold n. lia.
  - intros Hp. unfold previous_onClick, next_onClick. lia.
  - intros evs w shown.
    destruct (page_in_range_run evs initial page_in_range_initial) as (_ & H1 & H2).
    fold w in H1, H2. fold shown in H2. split; [exact H1|].
    intros Hpos.
    pose proof (Math_ceil_div_bounds (Z.of_nat (length shown)) 6 eq_refl) as Hc.
    fold itemsPerPage in Hc. fold (totalPages shown) in Hc. unfold itemsPerPage in Hc. lia.
  - exact page_reset_on_change.
Qed.

Lemma pagination_witness :
  totalPages mockMedicines = 2
  /\ Z.of_nat (length (currentMedicines mockMedicines 2)) = 4
  /\ currentMedicines mockMedicines 2 !! 3%nat = mockMedicines !! 9%nat
  /\ next_onClick 2 2 = 2.
Proof.
  destruct (pagination mockMedicines 2) as (_ & Hslice & Hlast & Hclamp & _).
  split; [reflexivity|]. split; [|split].
  - apply Hlast. reflexivity.
  - apply (Hslice ltac:(lia) 3%nat).
  - apply Hclamp. split; [lia | reflexivity].
Defined.

End PaginationFacts.

(** ** Arrays: what [sort] returns *)

Section SortFacts.

Import JS.

Context {A : Type}.
Variable cmp : A -> A -> Z.

(** The comparator is consistent. *)
Hypothesis cmp_total : forall a b, before cmp a b \/ before cmp b a.
Hypothesis cmp_trans :
  forall a b c, before cmp a b -> before cmp b c -> before cmp a c.

Lemma sort_insert_Permutation (x : A) (l : list A) :
  Permutation (sort_insert cmp x l) (x :: l).
Proof.
  induction l as [|y l IH]; simpl; [reflexivity|].
  destruct (cmp x y <=? 0); [reflexivity|].
  rewrite IH. apply perm_swap.
Qed.

Lemma sort_Permutation (l : list A) : Permutation (sort cmp l) l.
Proof.
  induction l as [|x l IH]; simpl; [reflexivity|].
  rewrite sort_insert_Permutation. now constructor.
Qed.

Lemma sort_insert_sorted (x : A) (l : list A) :
  StronglySorted (before cmp) l -> StronglySorted (before cmp) (sort_insert cmp x l).
Proof.
  induction 1 as [|y l Hs IH Hy]; simpl.
  - repeat constructor.
  - destruct (Z.leb_spec (cmp x y) 0) as [Hxy|Hxy].
    + constructor; [now constructor|].
      constructor; [exact Hxy|].
      eapply Forall_impl; [exact Hy|]. intros z Hz. now apply (cmp_trans x y z).
    + constructor; [exact IH|].
      rewrite sort_insert_Permutation. constructor; [|exact Hy].
      destruct (cmp_total x y) as [H|H]; [unfold before in H; lia | exact H].
Qed.

Lemma sort_sorted (l : list A) : StronglySorted (before cmp) (sort cmp l).
Proof.
  induction l as [|x l IH]; simpl; [constructor | now apply sort_insert_sorted].
Qed.

(** The sort is stable: the elements of a class of the comparator keep
    their order. *)
Lemma sort_insert_stable (keep : A -> bool) (x : A) (l : list A) :
  (forall y, keep x = true -> keep y = true -> before cmp x y) ->
  List.filter keep (sort_insert cmp x l) = List.filter keep (x :: l).
Proof.
  intros Hclass. induction l as [|y l IH]; simpl; [reflexivity|].
  destruct (Z.leb_spec (cmp x y) 0) as [Hxy|Hxy]; [reflexivity|].
  simpl in *. rewrite IH.
  destruct (keep x) eqn:Kx, (keep y) eqn:Ky; try reflexivity.
  specialize (Hclass y eq_refl Ky). unfold before in Hclass. lia.
Qed.

Lemma sort_stable (keep : A -> bool) (l : list A) :
  (forall x y, keep x = true -> keep y = true -> before cmp x y) ->
  List.filter keep (sort cmp l) = List.filter keep l.
Proof.
  intros Hclass. induction l as [|x l IH]; simpl; [reflexivity|].
  rewrite sort_insert_stable by (intros y; apply Hclass).
  simpl. now rewrite IH.
Qed.

Lemma StronglySorted_app_between (R : A -> A -> Prop) (l1 l2 : list A) :
  StronglySorted R (l1 ++ l2) ->
  forall a b, In a l1 -> In b l2 -> R a b.
Proof.
  induction l1 as [|x l1 IH]; simpl; intros Hs a b Ha Hb; [contradiction|].
  inversion Hs as [|? ? Hs' Hx]; subst.
  destruct Ha as [->|Ha]; [|now apply IH].
  rewrite List.Forall_forall in Hx. apply Hx, in_or_app. now right.
Qed.

Lemma StronglySorted_take (R : A -> A -> Prop) (n : nat) (l : list A) :
  StronglySorted R l -> StronglySorted R (take n l).
Proof.
  intros Hs. revert n. induction Hs as [|x l Hs IH Hx]; intros [|n]; simpl;
    try constructor; [apply IH|].
  rewrite List.Forall_forall in *. intros y Hy. apply Hx.
  rewrite <- (take_drop n l). apply in_or_app. now left.
Qed.

End SortFacts.

(** ** The sidebar of the alert view *)

Section RecentAlertsFacts.

Import JS Alerts.

Lemma byRecency_total (a b : Alert) :
  before byRecency a b \/ before byRecency b a.
Proof. unfold before, byRecency. lia. Qed.

Lemma byRecency_trans (a b c : Alert) :
  before byRecency a b -> before byRecency b c -> before byRecency a c.
Proof. unfold before, byRecency. lia. Qed.

Lemma read_write {B} (h : gmap Heap.loc (list B)) (l : Heap.loc) (v : list B) :
  Heap.read (Heap.write h l v) l = v.
Proof. unfold Heap.read, Heap.write. now rewrite lookup_insert_eq. Qed.

Lemma read_write_other {B} (h : gmap Heap.loc (list B)) (l l' : Heap.loc) (v : list B) :
  l <> l' -> Heap.read (Heap.write h l v) l' = Heap.read h l'.
Proof. intros Hne. unfold Heap.read, Heap.write. now rewrite lookup_insert_ne. Qed.

(** Alerts of one timestamp keep the order in which they arrived. *)
Lemma sort_byRecency_stable (k : Z) (l : list Alert) :
  List.filter (fun a => timestamp a =? k) (sort byRecency l)
  = List.filter (fun a => timestamp a =? k) l.
Proof.
  apply sort_stable. intros x y Hx Hy.
  apply Z.eqb_eq in Hx, Hy. unfold before, byRecency. lia.
Qed.

(** The sidebar holds the first five elements of the sorted array. *)
Lemma recentAlerts_value (w : World) :
  snd (recentAlerts w) =
  take 5 (sort byRecency (Heap.read (fst w) (alerts (snd w)))).
Proof.
  destruct w as [h s]. unfold recentAlerts. simpl snd. simpl fst.
  rewrite read_write. now rewrite slice_prefix by lia.
Qed.

(** The array of the state variable is sorted after the expression. *)
Lemma recentAlerts_store (w : World) :
  Heap.read (fst (recentAlerts w)) (alerts (snd w)) =
  sort byRecency (Heap.read (fst w) (alerts (snd w))).
Proof.
  destruct w as [h s]. unfold recentAlerts. simpl. apply read_write.
Qed.

(** C3: the recent alerts of the sidebar are in descending order of
    timestamp, they are [min 5 |C|] in number, and they are the most
    recent ones of the alert collection [C]: the collection is the list
    and the alerts left out, and no alert left out is more recent than
    one of the list. The list is computed from the collection alone, so
    it is the same under every value of the type filter. *)
Theorem recentAlerts_top5 (w : World) :
  let C := Heap.read (fst w) (alerts (snd w)) in
  let recent := snd (recentAlerts w) in
  StronglySorted (fun a b => timestamp a >= timestamp b) recent
  /\ length recent = Nat.min 5 (length C)
  /\ (exists older,
        Permutation C (recent ++ older)
        /\ forall a b, In a recent -> In b older -> timestamp b <= timestamp a)
  /\ (forall f, snd (recentAlerts (fst w, setFilter f (snd w))) = recent)
  /\ sidebar (snd (render w)) = recent.
Proof.
  intros C recent.
  assert (E : recent = take 5 (sort byRecency C)) by apply recentAlerts_value.
  pose proof (sort_sorted byRecency byRecency_total byRecency_trans C) as Hs.
  split; [|split; [|split; [|split]]].
  - rewrite E. apply StronglySorted_take.
    clear E. induction Hs as [|x l Hs IH Hx]; constructor; [exact IH|].
    eapply Forall_impl; [exact Hx|]. unfold before, byRecency. intros; lia.
  - rewrite E, length_take.
    now rewrite (Permutation_length (sort_Permutation byRecency C)).
  - exists (drop 5 (sort byRecency C)). rewrite E, take_drop. split.
    + symmetry. apply sort_Permutation.
    + intros a b Ha Hb.
      rewrite <- (take_drop 5 (sort byRecency C)) in Hs.
      pose proof (StronglySorted_app_between _ _ _ Hs a b Ha Hb) as H.
      unfold before, byRecency in H. lia.
  - intros f. rewrite recentAlerts_value. exact (eq_sym E).
  - unfold recent. destruct w as [h s]. reflexivity.
Qed.

(** C7, on the code: the sidebar expression leaves the array of the
    state variable [alerts] sorted, whatever its order was. When the
    backend sent an older alert before a newer one, the array holds the
    newer first after the expression, and so does the main list, which
    is read from the same array. *)
Theorem recentAlerts_sorts_in_place :
  (forall w : World,
     Heap.read (fst (recentAlerts w)) (alerts (snd w))
     = sort byRecency (Heap.read (fst w) (alerts (snd w))))
  /\ let w := fetched_world in
     Heap.read (fst w) (alerts (snd w)) = [older_alert; newer_alert]
     /\ alerts (snd w) = filteredAlerts (snd w)
     /\ Heap.read (fst (recentAlerts w)) (alerts (snd w))
        = [newer_alert; older_alert]
     /\ Heap.read (fst (recentAlerts w)) (alerts (snd w))
        <> Heap.read (fst w) (alerts (snd w))
     /\ mainList (snd (render w)) = [newer_alert; older_alert].
Proof.
  split; [exact recentAlerts_store|].
  repeat split. discriminate.
Qed.

End RecentAlertsFacts.

(** ** Binary64 arithmetic: rounding is faithful *)

Section Binary64.

(** *** Digits and shifts *)

(** A positive number of [d] binary digits lies between [2 ^ (d - 1)]
    and [2 ^ d], and this fixes [d]. *)
Lemma digits2_pos_bounds (p : positive) :
  2 ^ (Zpos (digits2_pos p) - 1) <= Zpos p < 2 ^ Zpos (digits2_pos p).
Proof.
  induction p as [p IH|p IH|]; simpl digits2_pos.
  - rewrite Pos2Z.inj_succ.
    replace (Z.succ (Zpos (digits2_pos p)) - 1)
      with (Z.succ (Zpos (digits2_pos p) - 1)) by lia.
    rewrite !Z.pow_succ_r by lia. lia.
  - rewrite Pos2Z.inj_succ.
    replace (Z.succ (Zpos (digits2_pos p)) - 1)
      with (Z.succ (Zpos (digits2_pos p) - 1)) by lia.
    rewrite !Z.pow_succ_r by lia. lia.
  - simpl. lia.
Qed.

Lemma digits2_pos_unique (p : positive) (d : Z) :
  2 ^ (d - 1) <= Zpos p < 2 ^ d -> Zpos (digits2_pos p) = d.
Proof.
  intros [Hl Hu]. pose proof (digits2_pos_bounds p) as [Bl Bu].
  assert (0 < d).
  { destruct (Z.ltb_spec 0 d); [assumption|]. exfalso.
    destruct (Z.eq_dec d 0) as [->|]; [simpl in Hu; lia|].
    rewrite Z.pow_neg_r in Hu by lia. lia. }
  destruct (Z.lt_trichotomy (Zpos (digits2_pos p)) d) as [Hlt|[Heq|Hgt]];
    [|assumption|]; exfalso.
  - assert (2 ^ Zpos (digits2_pos p) <= 2 ^ (d - 1))
      by (apply Z.pow_le_mono_r; lia). lia.
  - assert (2 ^ d <= 2 ^ (Zpos (digits2_pos p) - 1))
      by (apply Z.pow_le_mono_r; lia). lia.
Qed.

(** One shift halves the mantissa and stays exact on an even one. *)
Lemma shr_1_spec (x : shr_record) :
  0 <= shr_m x ->
  shr_m (shr_1 x) = shr_m x / 2
  /\ (exact (shr_1 x) <-> exact x /\ shr_m x mod 2 = 0).
Proof.
  destruct x as [m r s]. unfold exact. simpl. intros Hm.
  destruct m as [|[p|p|]|p]; cbn [shr_1 shr_m shr_r shr_s]; try lia.
  - split; [reflexivity|]. destruct r, s; simpl; intuition congruence.
  - split; [Z.div_mod_to_equations; lia|].
    assert (Zpos p~1 mod 2 = 1) as -> by (Z.div_mod_to_equations; lia).
    destruct r, s; simpl; intuition (congruence || lia).
  - split; [Z.div_mod_to_equations; lia|].
    assert (Zpos p~0 mod 2 = 0) as -> by (Z.div_mod_to_equations; lia).
    destruct r, s; simpl; intuition congruence.
  - split; [reflexivity|]. change (1 mod 2) with 1.
    destruct r, s; simpl; intuition (congruence || lia).
Qed.

Lemma shifted_compose (a b : Z) (x y z : shr_record) :
  0 <= a -> 0 <= b -> 0 <= shr_m x ->
  shifted a x y -> shifted b y z -> shifted (a + b) x z.
Proof.
  intros Ha Hb Hx [Hy Ey] [Hz Ez]. unfold shifted.
  assert (Pa : 0 < 2 ^ a) by (apply Z.pow_pos_nonneg; lia).
  assert (Pb : 0 < 2 ^ b) by (apply Z.pow_pos_nonneg; lia).
  rewrite Z.pow_add_r by assumption. split.
  - rewrite Hz, Hy. rewrite Z.div_div by lia. reflexivity.
  - rewrite Ez, Ey, Hy.
    assert (K : shr_m x mod (2 ^ a * 2 ^ b) = 0 <->
                shr_m x mod 2 ^ a = 0 /\ (shr_m x / 2 ^ a) mod 2 ^ b = 0).
    { rewrite Z.rem_mul_r by lia.
      pose proof (Z.mod_pos_bound (shr_m x) (2 ^ a) Pa).
      pose proof (Z.mod_pos_bound (shr_m x / 2 ^ a) (2 ^ b) Pb). nia. }
    tauto.
Qed.

Lemma iter_shr_1_shifted (p : positive) (x : shr_record) :
  0 <= shr_m x -> shifted (Zpos p) x (SpecFloat.iter_pos shr_1 p x).
Proof.
  revert x.
  assert (One : forall x, 0 <= shr_m x -> shifted 1 x (shr_1 x)).
  { intros x Hx. unfold shifted. rewrite Z.pow_1_r. now apply shr_1_spec. }
  assert (Nonneg : forall n x y, 0 <= n -> 0 <= shr_m x -> shifted n x y -> 0 <= shr_m y).
  { intros n x y Hn Hx [Hy _]. rewrite Hy. apply Z.div_pos; [assumption|].
    apply Z.pow_pos_nonneg; lia. }
  induction p as [p IH|p IH|]; intros x Hx; simpl SpecFloat.iter_pos.
  - replace (Zpos p~1) with (1 + (Zpos p + Zpos p)) by lia.
    pose proof (One x Hx) as S1.
    assert (N1 : 0 <= shr_m (shr_1 x)) by (apply (Nonneg 1 x); [lia|assumption..]).
    pose proof (IH _ N1) as S2.
    assert (N2 : 0 <= shr_m (SpecFloat.iter_pos shr_1 p (shr_1 x)))
      by (apply (Nonneg (Zpos p) (shr_1 x)); [lia|assumption..]).
    eapply shifted_compose; [lia|lia|assumption|exact S1|].
    eapply shifted_compose; [lia|lia|assumption|exact S2|exact (IH _ N2)].
  - replace (Zpos p~0) with (Zpos p + Zpos p) by lia.
    pose proof (IH _ Hx) as S2.
    assert (N2 : 0 <= shr_m (SpecFloat.iter_pos shr_1 p x))
      by (apply (Nonneg (Zpos p) x); [lia|assumption..]).
    eapply shifted_compose; [lia|lia|assumption|exact S2|exact (IH _ N2)].
  - now apply One.
Qed.

Lemma exact_of_loc (m : Z) (l : location) :
  shr_m (shr_record_of_loc m l) = m
  /\ (exact (shr_record_of_loc m l) <-> l = loc_Exact).
Proof.
  unfold exact. destruct l as [|[]]; simpl; (split; [reflexivity|]);
    intuition congruence.
Qed.

Lemma loc_of_exact (x : shr_record) :
  loc_of_shr_record x = loc_Exact <-> exact x.
Proof.
  unfold exact. destruct x as [m [] []]; simpl; intuition congruence.
Qed.

(** In the range of the normal numbers, [shr_fexp] drops the digits
    beyond the 53 that a mantissa has. *)
Lemma shr_fexp_normal (p : positive) (e k : Z) (l : location) :
  Zpos (digits2_pos p) = 53 + k -> 0 <= k -> -1074 <= e + k ->
  exists x,
    shr_fexp prec emax (Zpos p) e l = (x, e + k)
    /\ shr_m x = Zpos p / 2 ^ k
    /\ (exact x <-> l = loc_Exact /\ Zpos p mod 2 ^ k = 0).
Proof.
  intros Hd Hk He. unfold shr_fexp, fexp, Zdigits2. rewrite Hd.
  change (SpecFloat.emin prec emax) with (-1074). change prec with 53.
  replace (Z.max (53 + k + e - 53) (-1074) - e) with k by lia.
  destruct (exact_of_loc (Zpos p) l) as [Hm Hx].
  destruct k as [|k|k]; [| |lia]; simpl shr.
  - exists (shr_record_of_loc (Zpos p) l). rewrite Z.add_0_r.
    split; [reflexivity|]. rewrite Hm, Hx. simpl.
    rewrite Z.div_1_r, Z.mod_1_r. tauto.
  - eexists. split; [reflexivity|].
    destruct (iter_shr_1_shifted k (shr_record_of_loc (Zpos p) l)) as [H1 H2];
      [rewrite Hm; lia|].
    rewrite Hm in H1, H2. rewrite Hx in H2. split; assumption.
Qed.

Lemma round_nearest_even_cases (m : Z) (l : location) :
  round_nearest_even m l = m
  \/ (l <> loc_Exact /\ round_nearest_even m l = m + 1).
Proof.
  destruct l as [|[]]; simpl;
    [ left; reflexivity | | left; reflexivity
    | right; split; [discriminate | reflexivity] ].
  destruct (Z.even m); [left | right; split; [discriminate|]]; reflexivity.
Qed.

(** The rounding of a positive number located by [(m, e, l)], in the
    range of the normal numbers: the mantissa truncated to 53 digits, or,
    only when digits were lost, its successor. *)
Lemma binary_round_aux_normal (p : positive) (e k : Z) (l : location) :
  Zpos (digits2_pos p) = 53 + k -> 0 <= k -> -1074 <= e + k -> e + k + 1 <= 971 ->
  exists mr er,
    binary_round_aux prec emax false (Zpos p) e l = S754_finite false mr er
    /\ 2 ^ 52 <= Zpos mr < 2 ^ 53
    /\ ((Zpos mr = Zpos p / 2 ^ k /\ er = e + k)
        \/ (~ (l = loc_Exact /\ Zpos p mod 2 ^ k = 0)
            /\ ((Zpos mr = Zpos p / 2 ^ k + 1 /\ er = e + k)
                \/ (Zpos mr = 2 ^ 52 /\ Zpos p / 2 ^ k = 2 ^ 53 - 1
                    /\ er = e + k + 1)))).
Proof.
  intros Hd Hk He Ho.
  destruct (shr_fexp_normal p e k l Hd Hk He) as (x & Hx & Hm & Hex).
  unfold binary_round_aux. rewrite Hx.
  set (mt := Zpos p / 2 ^ k) in *.
  assert (Bt : 2 ^ 52 <= mt < 2 ^ 53).
  { pose proof (digits2_pos_bounds p) as B. rewrite Hd in B.
    replace (53 + k - 1) with (52 + k) in B by lia.
    rewrite !Z.pow_add_r in B by lia.
    assert (0 < 2 ^ k) by (apply Z.pow_pos_nonneg; lia).
    unfold mt. split.
    - apply Z.div_le_lower_bound; lia.
    - apply Z.div_lt_upper_bound; lia. }
  rewrite Hm.
  destruct (round_nearest_even_cases mt (loc_of_shr_record x)) as [Hr|[Hl Hr]];
    rewrite Hr.
  - (* rounded down *)
    destruct mt as [|q|q] eqn:Eq; try lia.
    destruct (shr_fexp_normal q (e + k) 0 loc_Exact) as (y & Hy & Hmy & _);
      [apply digits2_pos_unique; simpl; lia | lia | lia |].
    rewrite Hy, Hmy. rewrite Z.div_1_r. rewrite Z.add_0_r.
    replace (e + k <=? emax - prec) with true
      by (symmetry; apply Z.leb_le; change (emax - prec) with 971; lia).
    exists q, (e + k). split; [reflexivity|]. split; [assumption|]. now left.
  - (* rounded up *)
    assert (Hinex : ~ (l = loc_Exact /\ Zpos p mod 2 ^ k = 0)).
    { intros H. apply Hl. apply loc_of_exact. now apply Hex. }
    destruct (Z.eq_dec (mt + 1) (2 ^ 53)) as [Hc|Hc].
    + (* the mantissa overflows into the next binade *)
      destruct (mt + 1) as [|q|q] eqn:Eq; try lia.
      destruct (shr_fexp_normal q (e + k) 1 loc_Exact) as (y & Hy & Hmy & _);
        [apply digits2_pos_unique; rewrite Hc; simpl; lia | lia | lia |].
      rewrite Hy, Hmy, Hc. change (2 ^ 53 / 2 ^ 1) with (Zpos (2 ^ 52)).
      replace (e + k + 1 <=? emax - prec) with true
        by (symmetry; apply Z.leb_le; change (emax - prec) with 971; lia).
      exists (2 ^ 52)%positive, (e + k + 1). split; [reflexivity|].
      split; [simpl; lia|]. right. split; [assumption|]. right.
      split; [reflexivity|]. split; lia.
    + destruct (mt + 1) as [|q|q] eqn:Eq; try lia.
      destruct (shr_fexp_normal q (e + k) 0 loc_Exact) as (y & Hy & Hmy & _);
        [apply digits2_pos_unique; simpl; lia | lia | lia |].
      rewrite Hy, Hmy. rewrite Z.div_1_r. rewrite Z.add_0_r.
      replace (e + k <=? emax - prec) with true
        by (symmetry; apply Z.leb_le; change (emax - prec) with 971; lia).
      exists q, (e + k). split; [reflexivity|]. split; [lia|].
      right. split; [assumption|]. left. split; [lia | reflexivity].
Qed.

(** *** The reals that floats denote *)

Lemma pow2_pos (e : Z) : (0 < pow2 e)%R.
Proof. apply powerRZ_lt. lra. Qed.

Lemma pow2_add (a b : Z) : pow2 (a + b) = (pow2 a * pow2 b)%R.
Proof. apply powerRZ_add. lra. Qed.

Lemma pow2_IZR (n : Z) : 0 <= n -> pow2 n = IZR (2 ^ n).
Proof.
  intros Hn. unfold pow2. rewrite <- (Z2Nat.id n Hn).
  now rewrite <- pow_powerRZ, pow_IZR.
Qed.

Lemma pow2_le (a b : Z) : a <= b -> (pow2 a <= pow2 b)%R.
Proof.
  intros H. replace b with (a + (b - a)) by lia. rewrite pow2_add.
  rewrite (pow2_IZR (b - a)) by lia.
  assert (1 <= 2 ^ (b - a)) by (apply Z.lt_pred_le, Z.pow_pos_nonneg; lia).
  pose proof (IZR_le _ _ H0). pose proof (pow2_pos a). nra.
Qed.

Lemma pow2_succ (e : Z) : pow2 (e + 1) = (2 * pow2 e)%R.
Proof. rewrite pow2_add. rewrite (pow2_IZR 1) by lia. simpl. lra. Qed.

Lemma value_bounds (m e : Z) :
  normal m ->
  (IZR (2 ^ 52) * pow2 e <= value m e < IZR (2 ^ 53) * pow2 e)%R.
Proof.
  intros [Hl Hu]. unfold value. pose proof (pow2_pos e).
  apply IZR_le in Hl. apply IZR_lt in Hu. split; nra.
Qed.

(** A normal float at a smaller exponent is below the binade of a
    larger one. *)
Lemma value_below_binade (m e e' : Z) :
  normal m -> e < e' -> (value m e < IZR (2 ^ 52) * pow2 e')%R.
Proof.
  intros Hm He. pose proof (value_bounds m e Hm) as [_ Hu].
  pose proof (pow2_le (e + 1) e' ltac:(lia)) as Hp. rewrite pow2_succ in Hp.
  change (2 ^ 53) with (2 * 2 ^ 52) in Hu. rewrite mult_IZR in Hu.
  assert (0 < IZR (2 ^ 52))%R by (apply IZR_lt; reflexivity).
  nra.
Qed.

Lemma value_le_iff (m1 e1 m2 e2 : Z) :
  normal m1 -> normal m2 ->
  (value m1 e1 <= value m2 e2)%R <-> e1 < e2 \/ (e1 = e2 /\ m1 <= m2).
Proof.
  intros H1 H2. split.
  - intros Hv. destruct (Z.lt_trichotomy e1 e2) as [Hlt|[Heq|Hgt]]; [now left| |].
    + right. split; [assumption|]. subst e2. unfold value in Hv.
      pose proof (pow2_pos e1). apply le_IZR. nra.
    + exfalso. pose proof (value_below_binade m2 e2 e1 H2 Hgt).
      pose proof (value_bounds m1 e1 H1). lra.
  - intros [Hlt|[-> Hm]].
    + pose proof (value_below_binade m1 e1 e2 H1 Hlt).
      pose proof (value_bounds m2 e2 H2). lra.
    + unfold value. pose proof (pow2_pos e2). apply IZR_le in Hm. nra.
Qed.

(** No normal float lies strictly between a normal float and the next
    multiple of its unit. *)
Lemma value_gap_below (m e mf ef : Z) :
  normal m -> normal mf ->
  (value mf ef < (IZR m + 1) * pow2 e)%R -> (value mf ef <= value m e)%R.
Proof.
  intros Hm Hf Hlt. apply value_le_iff; try assumption.
  destruct (Z.lt_trichotomy ef e) as [H|[H|H]]; [now left| |].
  - right. split; [assumption|]. subst ef. unfold value in Hlt.
    pose proof (pow2_pos e). rewrite <- plus_IZR in Hlt.
    assert (IZR mf < IZR (m + 1))%R by nra. apply lt_IZR in H0. lia.
  - exfalso. pose proof (value_bounds mf ef Hf) as [Hl _].
    pose proof (pow2_le (e + 1) ef ltac:(lia)) as Hp. rewrite pow2_succ in Hp.
    destruct Hm as [_ Hu]. assert (m + 1 <= 2 * 2 ^ 52) by (change (2 * 2 ^ 52) with (2 ^ 53); lia).
    apply IZR_le in H0. rewrite plus_IZR, mult_IZR in H0.
    assert (0 < IZR (2 ^ 52))%R by (apply IZR_lt; reflexivity).
    pose proof (pow2_pos e). nra.
Qed.

Lemma value_gap_above (m e mf ef : Z) :
  normal m -> normal mf ->
  (value m e < value mf ef)%R -> ((IZR m + 1) * pow2 e <= value mf ef)%R.
Proof.
  intros Hm Hf Hlt.
  destruct (Z.lt_trichotomy ef e) as [H|[H|H]].
  - exfalso. pose proof (value_below_binade mf ef e Hf H).
    pose proof (value_bounds m e Hm). lra.
  - subst ef. unfold value in *. pose proof (pow2_pos e).
    assert (IZR m < IZR mf)%R by nra. apply lt_IZR in H0.
    assert (m + 1 <= mf) by lia. apply IZR_le in H1. rewrite plus_IZR in H1. nra.
  - pose proof (value_bounds mf ef Hf) as [Hl _].
    pose proof (pow2_le (e + 1) ef ltac:(lia)) as Hp. rewrite pow2_succ in Hp.
    destruct Hm as [_ Hu]. assert (m + 1 <= 2 * 2 ^ 52) by (change (2 * 2 ^ 52) with (2 ^ 53); lia).
    apply IZR_le in H0. rewrite plus_IZR, mult_IZR in H0.
    assert (0 < IZR (2 ^ 52))%R by (apply IZR_lt; reflexivity).
    pose proof (pow2_pos e). nra.
Qed.

(** The rounding of a real [y] located by [(m, e, l)] is faithful: it
    stays on the side of [y] of every normal float. *)
Lemma binary_round_aux_faithful (p : positive) (e k : Z) (l : location) (y : R) :
  Zpos (digits2_pos p) = 53 + k -> 0 <= k -> -1074 <= e + k -> e + k + 1 <= 971 ->
  (value (Zpos p) e <= y < (IZR (Zpos p) + 1) * pow2 e)%R ->
  (l <> loc_Exact -> (value (Zpos p) e < y)%R) ->
  exists mr er,
    binary_round_aux prec emax false (Zpos p) e l = S754_finite false mr er
    /\ normal (Zpos mr)
    /\ e + k <= er <= e + k + 1
    /\ (forall mf ef, normal mf ->
          (value mf ef <= y)%R -> (value mf ef <= value (Zpos mr) er)%R)
    /\ (forall mf ef, normal mf ->
          (y <= value mf ef)%R -> (value (Zpos mr) er <= value mf ef)%R).
Proof.
  intros Hd Hk He Ho [Hy1 Hy2] Hinex.
  destruct (binary_round_aux_normal p e k l Hd Hk He Ho) as (mr & er & Hr & Hn & Hc).
  exists mr, er. split; [exact Hr|]. split; [exact Hn|].
  set (md := Zpos p / 2 ^ k) in *.
  assert (Pk : 0 < 2 ^ k) by (apply Z.pow_pos_nonneg; lia).
  assert (Hdiv : md * 2 ^ k <= Zpos p < (md + 1) * 2 ^ k).
  { unfold md. pose proof (Z.div_mod (Zpos p) (2 ^ k) ltac:(lia)).
    pose proof (Z.mod_pos_bound (Zpos p) (2 ^ k) Pk). nia. }
  assert (Nd : normal md).
  { pose proof (digits2_pos_bounds p) as B. rewrite Hd in B.
    replace (53 + k - 1) with (52 + k) in B by lia.
    rewrite !Z.pow_add_r in B by lia. unfold normal. nia. }
  pose proof (pow2_pos e) as Pe.
  assert (Epk : pow2 (e + k) = (pow2 e * IZR (2 ^ k))%R)
    by (rewrite pow2_add, (pow2_IZR k) by lia; reflexivity).
  assert (Down : (value md (e + k) <= value (Zpos p) e)%R).
  { unfold value. rewrite Epk. destruct Hdiv as [Hdiv _].
    apply IZR_le in Hdiv. rewrite mult_IZR in Hdiv. nra. }
  assert (Up : (y < (IZR md + 1) * pow2 (e + k))%R).
  { rewrite Epk. destruct Hdiv as [_ Hdiv].
    assert (Zpos p + 1 <= (md + 1) * 2 ^ k) by lia.
    apply IZR_le in H. rewrite mult_IZR, !plus_IZR in H. nra. }
  assert (Strict : ~ (l = loc_Exact /\ Zpos p mod 2 ^ k = 0) ->
                   (value md (e + k) < y)%R).
  { intros Hne. destruct l as [|c].
    - assert (Zpos p mod 2 ^ k <> 0) by tauto.
      assert (md * 2 ^ k < Zpos p).
      { unfold md. pose proof (Z.div_mod (Zpos p) (2 ^ k) ltac:(lia)).
        pose proof (Z.mod_pos_bound (Zpos p) (2 ^ k) Pk). nia. }
      apply IZR_lt in H0. rewrite mult_IZR in H0.
      unfold value in *. rewrite Epk. nra.
    - assert (value (Zpos p) e < y)%R by (apply Hinex; discriminate). lra. }
  assert (Res : (er = e + k /\ Zpos mr = md)
                \/ ((value md (e + k) < y)%R
                    /\ value (Zpos mr) er = ((IZR md + 1) * pow2 (e + k))%R
                    /\ e + k <= er <= e + k + 1)).
  { destruct Hc as [[Hm ->]|[Hne [[Hm ->]|[Hm [Hmd ->]]]]].
    - left. now split.
    - right. split; [now apply Strict|]. split; [|lia].
      unfold value. rewrite Hm, plus_IZR. reflexivity.
    - right. split; [now apply Strict|]. split; [|lia].
      unfold value. rewrite Hm, Hmd. rewrite pow2_succ.
      change (IZR (2 ^ 53 - 1) + 1)%R with (IZR (2 ^ 53 - 1) + IZR 1)%R.
      rewrite <- plus_IZR. change (2 ^ 53 - 1 + 1) with (2 * 2 ^ 52).
      rewrite mult_IZR. lra. }
  destruct Res as [[-> Hm]|(Hlt & Hv & Hrange)].
  - rewrite Hm. split; [lia|]. split.
    + intros mf ef Hf Hle. apply value_gap_below; try assumption. lra.
    + intros mf ef Hf Hle. lra.
  - split; [exact Hrange|]. rewrite Hv. split.
    + intros mf ef Hf Hle. lra.
    + intros mf ef Hf Hle. apply value_gap_above; try assumption. lra.
Qed.

(** *** Counts, quotients, products and comparisons *)

Lemma normal_digits (p : positive) :
  normal (Zpos p) -> Zpos (digits2_pos p) = 53.
Proof. intros H. apply digits2_pos_unique. exact H. Qed.

(** A mantissa of 53 digits located exactly is its own rounding. *)
Lemma binary_round_aux_exact (p : positive) (e : Z) :
  normal (Zpos p) -> -1074 <= e -> e + 1 <= 971 ->
  binary_round_aux prec emax false (Zpos p) e loc_Exact = S754_finite false p e.
Proof.
  intros Hn He Ho.
  destruct (binary_round_aux_normal p e 0 loc_Exact) as (mr & er & Hr & _ & Hc);
    [rewrite (normal_digits p Hn); reflexivity | lia | lia | lia |].
  rewrite Hr. simpl in Hc. rewrite Z.div_1_r, Z.mod_1_r in Hc.
  destruct Hc as [[Hm ->]|[Hne _]]; [|tauto].
  injection Hm as ->. now rewrite Z.add_0_r.
Qed.

(** The number of a count below [2 ^ 53] is the count. *)
Lemma Number_spec (z : Z) :
  0 < z < 2 ^ 53 ->
  exists m e,
    Prim2SF (of_uint63 (Uint63.of_Z z)) = S754_finite false m e
    /\ normal (Zpos m) /\ -52 <= e <= 0 /\ value (Zpos m) e = IZR z.
Proof.
  intros [Hz0 Hz]. rewrite of_uint63_spec, Uint63.of_Z_spec.
  rewrite Z.mod_small by (change Uint63Axioms.wB with (2 ^ 63); lia).
  destruct z as [|p|p]; try lia. simpl binary_normalize. unfold binary_round.
  pose proof (digits2_pos_bounds p) as B.
  set (d := Zpos (digits2_pos p)) in *.
  assert (Hd : 1 <= d <= 53).
  { split; [unfold d; lia|].
    destruct (Z.le_gt_cases d 53) as [H|H]; [assumption|]. exfalso.
    assert (2 ^ 53 <= 2 ^ (d - 1)) by (apply Z.pow_le_mono_r; lia). lia. }
  unfold fexp. change (SpecFloat.emin prec emax) with (-1074). change prec with 53.
  replace (Z.max (d + 0 - 53) (-1074)) with (d - 53) by lia.
  unfold shl_align. rewrite Z.sub_0_r.
  destruct (d - 53) as [|s|s] eqn:Es; try lia.
  - assert (Hn : normal (Zpos p)).
    { unfold normal. replace (d - 1) with 52 in B by lia.
      replace d with 53 in B by lia. exact B. }
    rewrite binary_round_aux_exact by (assumption || lia).
    exists p, 0. split; [reflexivity|]. split; [exact Hn|]. split; [lia|].
    unfold value, pow2. rewrite powerRZ_O. ring.
  - fold (shift_pos s p).
    assert (Hv : Zpos (shift_pos s p) = 2 ^ Zpos s * Zpos p)
      by apply shift_pos_correct.
    assert (Hs : Zpos s = 53 - d) by lia.
    assert (Hn : normal (Zpos (shift_pos s p))).
    { rewrite Hv. unfold normal.
      assert (E52 : 2 ^ 52 = 2 ^ Zpos s * 2 ^ (d - 1))
        by (rewrite <- Z.pow_add_r by lia; f_equal; lia).
      assert (E53 : 2 ^ 53 = 2 ^ Zpos s * 2 ^ d)
        by (rewrite <- Z.pow_add_r by lia; f_equal; lia).
      rewrite E52, E53.
      assert (0 < 2 ^ Zpos s) by (apply Z.pow_pos_nonneg; lia). nia. }
    rewrite binary_round_aux_exact by (assumption || lia).
    exists (shift_pos s p), (Zneg s). split; [reflexivity|]. split; [exact Hn|].
    split; [lia|].
    unfold value. rewrite Hv, mult_IZR.
    rewrite <- (pow2_IZR (Zpos s)) by lia. rewrite Rmult_comm, <- Rmult_assoc.
    rewrite <- pow2_add. replace (Zneg s + Zpos s) with 0 by lia.
    unfold pow2. rewrite powerRZ_O. ring.
Qed.

Lemma new_location_exact (n r : Z) :
  new_location n r = loc_Exact <-> r = 0.
Proof.
  unfold new_location, new_location_even, new_location_odd.
  destruct (Z.even n); destruct (Z.eqb_spec r 0); split; intros H;
    try reflexivity; try assumption; try discriminate; try contradiction.
Qed.

(** The quotient of two normal floats is the faithful rounding of the
    quotient of their values. *)
Lemma SFdiv_faithful (m1 m2 : positive) (e1 e2 : Z) :
  normal (Zpos m1) -> normal (Zpos m2) ->
  -60 <= e1 <= 60 -> -60 <= e2 <= 60 ->
  let y := (value (Zpos m1) e1 / value (Zpos m2) e2)%R in
  exists mr er,
    SFdiv prec emax (S754_finite false m1 e1) (S754_finite false m2 e2)
    = S754_finite false mr er
    /\ normal (Zpos mr)
    /\ e1 - e2 - 53 <= er <= e1 - e2 - 51
    /\ (forall mf ef, normal mf ->
          (value mf ef <= y)%R -> (value mf ef <= value (Zpos mr) er)%R)
    /\ (forall mf ef, normal mf ->
          (y <= value mf ef)%R -> (value (Zpos mr) er <= value mf ef)%R).
Proof.
  intros H1 H2 He1 He2 y.
  unfold SFdiv, SFdiv_core_binary, Zdigits2.
  rewrite (normal_digits m1 H1), (normal_digits m2 H2).
  unfold fexp. change (SpecFloat.emin prec emax) with (-1074). change prec with 53.
  replace (Z.min (Z.max (53 + e1 - (53 + e2) - 53) (-1074)) (e1 - e2))
    with (e1 - e2 - 53) by lia.
  replace (e1 - e2 - (e1 - e2 - 53)) with 53 by lia.
  cbv iota beta. rewrite Z.shiftl_mul_pow2 by lia.
  set (N := Zpos m1 * 2 ^ 53).
  destruct (Z.div_eucl N (Zpos m2)) as [q r] eqn:Eqr.
  assert (Hq : q = N / Zpos m2) by (unfold Z.div; now rewrite Eqr).
  assert (Hr : r = N mod Zpos m2) by (unfold Z.modulo; now rewrite Eqr).
  pose proof (Z.div_mod N (Zpos m2) ltac:(lia)) as Hdm.
  pose proof (Z.mod_pos_bound N (Zpos m2) ltac:(lia)) as Hmb.
  rewrite <- Hq, <- Hr in Hdm. rewrite <- Hr in Hmb.
  unfold normal in H1, H2.
  assert (Bq : 2 ^ 52 <= q < 2 ^ 54).
  { change (2 ^ 54) with (2 * 2 ^ 53). unfold N in Hdm.
    change (2 ^ 53) with 9007199254740992 in *.
    change (2 ^ 52) with 4503599627370496 in *. nia. }
  destruct q as [|pq|pq]; try lia.
  set (k := if Z.ltb (Zpos pq) (2 ^ 53) then 0 else 1).
  assert (Hk : 0 <= k <= 1) by (unfold k; destruct (Z.ltb _ _); lia).
  assert (Hdq : Zpos (digits2_pos pq) = 53 + k).
  { apply digits2_pos_unique. unfold k.
    destruct (Z.ltb_spec (Zpos pq) (2 ^ 53)); simpl; lia. }
  assert (P1 : (0 < pow2 e1)%R) by apply pow2_pos.
  assert (P2 : (0 < pow2 e2)%R) by apply pow2_pos.
  assert (Pe : pow2 (e1 - e2 - 53) = (pow2 e1 * / pow2 e2 * / IZR (2 ^ 53))%R).
  { replace (e1 - e2 - 53) with (e1 + (- e2 + - (53))) by lia.
    rewrite !pow2_add. unfold pow2 at 2 3. rewrite !powerRZ_neg'.
    fold (pow2 e2). fold (pow2 53). rewrite (pow2_IZR 53) by lia. ring. }
  assert (M2 : (0 < IZR (Zpos m2))%R) by (apply IZR_lt; lia).
  assert (C : (0 < IZR (2 ^ 53))%R) by (apply IZR_lt; reflexivity).
  assert (Ey : y = (IZR N / IZR (Zpos m2) * pow2 (e1 - e2 - 53))%R).
  { unfold y, value, N. rewrite Pe, mult_IZR. field. lra. }
  set (y' := (IZR N / IZR (Zpos m2))%R) in *.
  assert (Ey' : (y' * IZR (Zpos m2) = IZR N)%R) by (unfold y'; field; lra).
  assert (Pe' : (0 < pow2 (e1 - e2 - 53))%R) by apply pow2_pos.
  assert (Lo : (IZR (Zpos pq) <= y')%R).
  { assert (Zpos pq * Zpos m2 <= N) by lia.
    apply IZR_le in H. rewrite mult_IZR in H. nra. }
  assert (Hi : (y' < IZR (Zpos pq) + 1)%R).
  { assert (N + 1 <= (Zpos pq + 1) * Zpos m2) by lia.
    apply IZR_le in H. rewrite mult_IZR, !plus_IZR in H. nra. }
  destruct (binary_round_aux_faithful pq (e1 - e2 - 53) k
              (new_location (Zpos m2) r) y Hdq) as (mr & er & Hres & Hn & Hrange & Hge & Hle);
    try lia.
  - rewrite Ey. unfold value. split; nra.
  - intros Hne. rewrite new_location_exact in Hne.
    assert (Zpos pq * Zpos m2 < N) by lia.
    apply IZR_lt in H. rewrite mult_IZR in H.
    rewrite Ey. unfold value. nra.
  - exists mr, er. split; [exact Hres|]. split; [exact Hn|].
    split; [lia|]. split; assumption.
Qed.

(** The product of two normal floats is the faithful rounding of the
    product of their values. *)
Lemma SFmul_faithful (m1 m2 : positive) (e1 e2 : Z) :
  normal (Zpos m1) -> normal (Zpos m2) ->
  -500 <= e1 <= 400 -> -500 <= e2 <= 400 ->
  let y := (value (Zpos m1) e1 * value (Zpos m2) e2)%R in
  exists mr er,
    SFmul prec emax (S754_finite false m1 e1) (S754_finite false m2 e2)
    = S754_finite false mr er
    /\ normal (Zpos mr)
    /\ (forall mf ef, normal mf ->
          (value mf ef <= y)%R -> (value mf ef <= value (Zpos mr) er)%R)
    /\ (forall mf ef, normal mf ->
          (y <= value mf ef)%R -> (value (Zpos mr) er <= value mf ef)%R).
Proof.
  intros H1 H2 He1 He2 y. unfold SFmul. simpl xorb.
  unfold normal in H1, H2.
  assert (B : 2 ^ 104 <= Zpos (m1 * m2) < 2 ^ 106).
  { rewrite Pos2Z.inj_mul. change (2 ^ 104) with (2 ^ 52 * 2 ^ 52).
    change (2 ^ 106) with (2 ^ 53 * 2 ^ 53). nia. }
  set (k := if Z.ltb (Zpos (m1 * m2)) (2 ^ 105) then 52 else 53).
  assert (Hk : 52 <= k <= 53) by (unfold k; destruct (Z.ltb _ _); lia).
  assert (Hd : Zpos (digits2_pos (m1 * m2)) = 53 + k).
  { apply digits2_pos_unique. unfold k.
    destruct (Z.ltb_spec (Zpos (m1 * m2)) (2 ^ 105)); simpl; lia. }
  assert (Ey : y = value (Zpos (m1 * m2)) (e1 + e2)).
  { unfold y, value. rewrite Pos2Z.inj_mul, mult_IZR, pow2_add. ring. }
  pose proof (pow2_pos (e1 + e2)) as Pp.
  destruct (binary_round_aux_faithful (m1 * m2) (e1 + e2) k loc_Exact y Hd)
    as (mr & er & Hres & Hn & _ & Hge & Hle); try lia.
  - rewrite Ey. unfold value. split; nra.
  - intros Hne. now elim Hne.
  - exists mr, er. repeat split; try assumption; apply Hn.
Qed.

(** On normal floats [<=] is the order of the reals they denote. *)
Lemma SFleb_value (m1 m2 : positive) (e1 e2 : Z) :
  normal (Zpos m1) -> normal (Zpos m2) ->
  SFleb (S754_finite false m1 e1) (S754_finite false m2 e2) = true
  <-> (value (Zpos m1) e1 <= value (Zpos m2) e2)%R.
Proof.
  intros H1 H2. rewrite value_le_iff by assumption.
  unfold SFleb, SFcompare. fold (Pos.compare m1 m2).
  destruct (Z.compare_spec e1 e2) as [->|Hlt|Hgt].
  - destruct (Pos.compare_spec m1 m2) as [->|Hl|Hg]; split; intros H;
      try reflexivity; try discriminate; try lia.
  - split; intros; [now left | reflexivity].
  - split; intros H; [discriminate | lia].
Qed.

Lemma pow2_neg (n : Z) : 0 <= n -> pow2 (- n) = (/ IZR (2 ^ n))%R.
Proof.
  intros Hn. unfold pow2. rewrite powerRZ_neg'. fold (pow2 n).
  now rewrite pow2_IZR.
Qed.

Lemma value_inj (m1 e1 m2 e2 : Z) :
  normal m1 -> normal m2 -> value m1 e1 = value m2 e2 -> m1 = m2 /\ e1 = e2.
Proof.
  intros H1 H2 E.
  assert (L : (value m1 e1 <= value m2 e2)%R) by lra.
  assert (G : (value m2 e2 <= value m1 e1)%R) by lra.
  apply value_le_iff in L; try assumption. apply value_le_iff in G; try assumption.
  lia.
Qed.

Lemma value_100 : value 7036874417766400 (-46) = 100%R.
Proof.
  unfold value. change (pow2 (-46)) with (pow2 (- (46))).
  rewrite (pow2_neg 46) by lia.
  change (2 ^ 46) with 70368744177664. lra.
Qed.

(** The comparison of a percentage with a threshold [T], when the
    quotient that is multiplied by 100 is a normal float [X]: the test
    holds when [X] is at least the float [Q] whose product with 100
    rounds to [T], and fails below. *)
Lemma percentage_test (mx : positive) (ex : Z) (Mq Mt : positive) (eq : Z) :
  normal (Zpos mx) -> -400 <= ex <= 400 -> -400 <= eq <= 300 ->
  normal (Zpos Mq) -> normal (Zpos Mq - 1) ->
  normal (Zpos Mt) -> normal (Zpos Mt - 1) ->
  SFmul prec emax (S754_finite false Mq eq) SF100 = S754_finite false Mt (eq + 6) ->
  Zpos Mt * 64 <= (Zpos Mq + 1) * 100 ->
  (Zpos Mq - 1) * 100 <= (Zpos Mt - 1) * 64 ->
  SFleb (S754_finite false Mt (eq + 6))
        (SFmul prec emax (S754_finite false mx ex) SF100)
  = true
  <-> (value (Zpos Mq) eq <= value (Zpos mx) ex)%R.
Proof.
  intros Hx Hex Heq Hq Hq' Ht Ht' Hmul Hup Hdown.
  assert (N100 : normal 7036874417766400) by (unfold normal; lia).
  destruct (SFmul_faithful mx 7036874417766400 ex (-46) Hx N100)
    as (mr & er & Hres & Hn & Hge & Hle); try lia.
  rewrite value_100 in Hge, Hle.
  pose proof (pow2_pos eq) as Pq.
  assert (E6 : pow2 (eq + 6) = (64 * pow2 eq)%R).
  { rewrite pow2_add, (pow2_IZR 6) by lia. change (2 ^ 6) with 64. ring. }
  destruct (Rle_lt_dec (value (Zpos Mq) eq) (value (Zpos mx) ex)) as [Hle0|Hlt0].
  - split; [intros _; exact Hle0 | intros _].
    destruct (Req_dec (value (Zpos Mq) eq) (value (Zpos mx) ex)) as [E|NE].
    + apply value_inj in E as [Em Ee]; try assumption.
      injection Em as <-. subst ex. unfold SF100 in Hmul. fold SF100.
      unfold SF100. rewrite Hmul. apply SFleb_value; try assumption. lra.
    + unfold SF100. rewrite Hres. apply SFleb_value; try assumption.
      apply Hge; [assumption|].
      assert (S : ((IZR (Zpos Mq) + 1) * pow2 eq <= value (Zpos mx) ex)%R)
        by (apply value_gap_above; try assumption; lra).
      apply IZR_le in Hup. rewrite !mult_IZR, plus_IZR in Hup.
      assert (IZR (Zpos Mt) * 64 * pow2 eq <= (IZR (Zpos Mq) + 1) * 100 * pow2 eq)%R
        by (apply Rmult_le_compat_r; lra).
      unfold value at 1. rewrite E6. lra.
  - split; [|intros H; lra]. intros H. exfalso.
    unfold SF100 in H. rewrite Hres in H. apply SFleb_value in H; try assumption.
    assert (S : (value (Zpos mx) ex <= value (Zpos Mq - 1) eq)%R).
    { apply value_gap_below; try assumption.
      rewrite minus_IZR. unfold value in *. lra. }
    assert (U : (value (Zpos mr) er <= value (Zpos Mt - 1) (eq + 6))%R).
    { apply Hle; [assumption|].
      apply IZR_le in Hdown. rewrite !mult_IZR, !minus_IZR in Hdown.
      assert ((IZR (Zpos Mq) - 1) * 100 * pow2 eq
              <= (IZR (Zpos Mt) - 1) * 64 * pow2 eq)%R
        by (apply Rmult_le_compat_r; lra).
      unfold value in *. rewrite E6. rewrite !minus_IZR in *. lra. }
    unfold value in H, U. rewrite minus_IZR in U. rewrite E6 in *. lra.
Qed.

End Binary64.

(** ** The availability of beds by the ratio of the counts *)

Section AvailabilityFacts.

Import JS Dashboard.

(** The test [percentage >= thr] for two positive counts, where [Q] is
    the float whose product with 100 rounds to the threshold. *)
Lemma geb_percentage (a t : Z) (thr : float) (Mq Mt : positive) (eq : Z) :
  0 < a < 2 ^ 53 -> 0 < t < 2 ^ 53 -> -300 <= eq <= 300 ->
  Prim2SF thr = S754_finite false Mt (eq + 6) ->
  normal (Zpos Mq) -> normal (Zpos Mq - 1) ->
  normal (Zpos Mt) -> normal (Zpos Mt - 1) ->
  SFmul prec emax (S754_finite false Mq eq) SF100 = S754_finite false Mt (eq + 6) ->
  Zpos Mt * 64 <= (Zpos Mq + 1) * 100 ->
  (Zpos Mq - 1) * 100 <= (Zpos Mt - 1) * 64 ->
  ((value (Zpos Mq) eq <= IZR a / IZR t)%R ->
   geb (Number a / Number t * 100) thr = true)
  /\ ((IZR a / IZR t <= value (Zpos Mq - 1) eq)%R ->
      geb (Number a / Number t * 100) thr = false).
Proof.
  intros Ha Ht Heq Hthr Hq Hq' HMt HMt' Hmul Hup Hdown.
  destruct (Number_spec a Ha) as (m1 & e1 & Ea & N1 & R1 & V1).
  destruct (Number_spec t Ht) as (m2 & e2 & Et & N2 & R2 & V2).
  destruct (SFdiv_faithful m1 m2 e1 e2 N1 N2 ltac:(lia) ltac:(lia))
    as (mx & ex & Hdiv & Nx & Rx & Hge & Hle).
  rewrite V1, V2 in Hge, Hle.
  pose proof (percentage_test mx ex Mq Mt eq Nx ltac:(lia) ltac:(lia)
                Hq Hq' HMt HMt' Hmul Hup Hdown) as Test.
  assert (E : geb (Number a / Number t * 100) thr
              = SFleb (S754_finite false Mt (eq + 6))
                      (SFmul prec emax (S754_finite false mx ex) SF100)).
  { unfold geb, Number. rewrite leb_spec, mul_spec, div_spec, Hthr, Ea, Et.
    unfold SF64mul, SF64div. rewrite Hdiv. reflexivity. }
  rewrite E. split.
  - intros H. apply Test. now apply Hge.
  - intros H. destruct (SFleb _ _) eqn:B; [|reflexivity]. exfalso.
    assert (Hx : (value (Zpos Mq) eq <= value (Zpos mx) ex)%R) by now apply Test.
    pose proof (Hle _ eq Hq' H) as Hx'.
    unfold value in Hx, Hx'. rewrite minus_IZR in Hx'.
    pose proof (pow2_pos eq). nra.
Qed.

(** With no available bed the percentage is zero, below any positive
    threshold. *)
Lemma geb_percentage_zero (t : Z) (thr : float) (Mt : positive) (et : Z) :
  0 < t < 2 ^ 53 ->
  Prim2SF thr = S754_finite false Mt et ->
  geb (Number 0 / Number t * 100) thr = false.
Proof.
  intros Ht Hthr.
  destruct (Number_spec t Ht) as (m2 & e2 & Et & _).
  unfold geb, Number. rewrite leb_spec, mul_spec, div_spec, Hthr, Et.
  reflexivity.
Qed.

(** A ratio of counts below 3/10 is below it by a step that the double
    next below 0.3 absorbs, as long as the total is below [2 ^ 50]; the
    same holds at 3/20. *)
Lemma ratio_below (a t k : Z) (V : R) :
  0 < t < 2 ^ 50 -> 0 < k ->
  (IZR a / IZR t < 3 / IZR k)%R ->
  (3 / IZR k - 12 / (IZR k * IZR (2 ^ 54)) <= V)%R ->
  (IZR a / IZR t <= V)%R.
Proof.
  intros [Ht0 Ht] Hk Hr HV.
  assert (T0 : (0 < IZR t)%R) by (apply IZR_lt; lia).
  assert (K0 : (0 < IZR k)%R) by (apply IZR_lt; lia).
  assert (Tb : (IZR t < IZR (2 ^ 50))%R) by (apply IZR_lt; lia).
  set (r := (IZR a / IZR t)%R) in *.
  assert (Ea : IZR a = (r * IZR t)%R) by (unfold r; field; lra).
  assert (Hz : k * a < 3 * t).
  { apply lt_IZR. rewrite !mult_IZR, Ea.
    assert (r * IZR k < 3)%R.
    { apply (Rmult_lt_compat_r (IZR k)) in Hr; [|assumption].
      replace (3 / IZR k * IZR k)%R with 3%R in Hr by (field; lra). exact Hr. }
    nra. }
  assert (Hz' : k * a + 1 <= 3 * t) by lia.
  apply IZR_le in Hz'. rewrite plus_IZR, !mult_IZR in Hz'.
  assert (Step : (r <= 3 / IZR k - 1 / (IZR k * IZR t))%R).
  { apply (Rmult_le_reg_r (IZR k * IZR t)); [nra|].
    replace ((3 / IZR k - 1 / (IZR k * IZR t)) * (IZR k * IZR t))%R
      with (3 * IZR t - 1)%R by (field; lra).
    rewrite Ea in Hz'. lra. }
  assert (Gap : (12 / (IZR k * IZR (2 ^ 54)) <= 1 / (IZR k * IZR t))%R).
  { change (2 ^ 54) with (16 * 2 ^ 50). rewrite mult_IZR.
    assert (P50 : (0 < IZR (2 ^ 50))%R) by (apply IZR_lt; reflexivity).
    apply (Rmult_le_reg_r (IZR k * IZR t * IZR (2 ^ 50))).
    { apply Rmult_lt_0_compat; [nra | assumption]. }
    replace (12 / (IZR k * (16 * IZR (2 ^ 50))) * (IZR k * IZR t * IZR (2 ^ 50)))%R
      with (3 / 4 * IZR t)%R by (field; lra).
    replace (1 / (IZR k * IZR t) * (IZR k * IZR t * IZR (2 ^ 50)))%R
      with (IZR (2 ^ 50)) by (field; lra).
    lra. }
  lra.
Qed.

Lemma value_Q30 :
  (value 5404319552844595 (-54) <= 3 / 10)%R
  /\ (3 / 10 - 12 / (10 * IZR (2 ^ 54)) <= value (5404319552844595 - 1) (-54))%R.
Proof.
  unfold value. change (pow2 (-54)) with (pow2 (- (54))).
  rewrite (pow2_neg 54) by lia. change (5404319552844595 - 1) with 5404319552844594.
  change (2 ^ 54) with 18014398509481984. split; lra.
Qed.

Lemma value_Q15 :
  (value 5404319552844595 (-55) <= 3 / 20)%R
  /\ (3 / 20 - 12 / (20 * IZR (2 ^ 54)) <= value (5404319552844595 - 1) (-55))%R.
Proof.
  unfold value. change (pow2 (-55)) with (pow2 (- (55))).
  rewrite (pow2_neg 55) by lia. change (5404319552844595 - 1) with 5404319552844594.
  change (2 ^ 55) with 36028797018963968.
  change (2 ^ 54) with 18014398509481984. split; lra.
Qed.

(** The two tests of [getAvailabilityStatus] on counts. *)
Lemma percentage_tests (a t : Z) :
  0 <= a < 2 ^ 53 -> 0 < t < 2 ^ 50 ->
  let r := (IZR a / IZR t)%R in
  let percentage := (Number a / Number t * 100)%float in
  ((3 / 10 <= r)%R -> geb percentage 30 = true)
  /\ ((r < 3 / 10)%R -> geb percentage 30 = false)
  /\ ((3 / 20 <= r)%R -> geb percentage 15 = true)
  /\ ((r < 3 / 20)%R -> geb percentage 15 = false).
Proof.
  intros Ha Ht r percentage.
  assert (Ht' : 0 < t < 2 ^ 53)
    by (split; [lia | apply Z.lt_trans with (2 ^ 50); [lia | reflexivity]]).
  destruct (Z.eq_dec a 0) as [->|Hne].
  - assert (Er : r = 0%R) by (unfold r; unfold Rdiv; ring).
    rewrite Er. unfold percentage.
    rewrite (geb_percentage_zero t 30 8444249301319680 (-48) Ht' eq_refl).
    rewrite (geb_percentage_zero t 15 8444249301319680 (-49) Ht' eq_refl).
    repeat split; intros; (reflexivity || lra).
  - assert (Ha' : 0 < a < 2 ^ 53) by lia.
    destruct (geb_percentage a t 30 5404319552844595 8444249301319680 (-54)
                Ha' Ht' ltac:(lia) eq_refl)
      as [G30 L30]; try (unfold normal; lia); try reflexivity; try lia.
    destruct (geb_percentage a t 15 5404319552844595 8444249301319680 (-55)
                Ha' Ht' ltac:(lia) eq_refl)
      as [G15 L15]; try (unfold normal; lia); try reflexivity; try lia.
    destruct value_Q30 as [Q30 P30]. destruct value_Q15 as [Q15 P15].
    fold r in G30, L30, G15, L15. fold percentage in G30, L30, G15, L15.
    split; [|split; [|split]].
    + intros H. apply G30. lra.
    + intros H. apply L30. apply (ratio_below a t 10); try lia; assumption.
    + intros H. apply G15. lra.
    + intros H. apply L15. apply (ratio_below a t 20); try lia; assumption.
Qed.

(** C1, as the code has it: for a total of beds above 0 and below
    [2 ^ 50], and a count of available beds below [2 ^ 53], the
    status follows the ratio [r] of the two counts: "good" from 0.30 on,
    "moderate" from 0.15 up to 0.30, "critical" below 0.15; the ratios
    0.30 and 0.15 themselves fall in the higher tier. *)
Theorem getAvailabilityStatus_by_ratio (availableBeds totalBeds : Z) :
  0 <= availableBeds < 2 ^ 53 -> 0 < totalBeds < 2 ^ 50 ->
  let r := (IZR availableBeds / IZR totalBeds)%R in
  let result := getAvailabilityStatus (Number availableBeds) (Number totalBeds) in
  ((0.30 <= r)%R -> status result = "good")
  /\ ((0.15 <= r < 0.30)%R -> status result = "moderate")
  /\ ((r < 0.15)%R -> status result = "critical").
Proof.
  intros Ha Ht r result.
  destruct (percentage_tests availableBeds totalBeds Ha Ht) as (G30 & L30 & G15 & L15).
  fold r in G30, L30, G15, L15. unfold result, getAvailabilityStatus.
  split; [|split].
  - intros H. rewrite G30 by lra. reflexivity.
  - intros [H1 H2]. rewrite L30 by lra. rewrite G15 by lra. reflexivity.
  - intros H. rewrite L30 by lra. rewrite L15 by lra. reflexivity.
Qed.

Lemma getAvailabilityStatus_by_ratio_witness :
  status (getAvailabilityStatus (Number 30) (Number 100)) = "good"
  /\ status (getAvailabilityStatus (Number 15) (Number 100)) = "moderate"
  /\ status (getAvailabilityStatus (Number 10) (Number 100)) = "critical".
Proof.
  split; [|split].
  - apply (getAvailabilityStatus_by_ratio 30 100); [lia | lia | lra].
  - apply (getAvailabilityStatus_by_ratio 15 100); [lia | lia | lra].
  - apply (getAvailabilityStatus_by_ratio 10 100); [lia | lia | lra].
Defined.

(** The scenario of a hospital of 100 beds: 10 available beds are a
    critical shortage, 20 a moderate availability, 40 a good one. *)
Example getAvailabilityStatus_100_beds :
  status (getAvailabilityStatus 10 100) = "critical"
  /\ status (getAvailabilityStatus 20 100) = "moderate"
  /\ status (getAvailabilityStatus 40 100) = "good".
Proof. repeat split. Qed.

(** C1, as it is stated, fails for counts that only a double of 16
    digits tells apart: the ratio below is under 0.30 and the status is
    "good". *)
Lemma getAvailabilityStatus_by_ratio_counterexample :
  ~ (forall availableBeds totalBeds : Z,
       0 <= availableBeds -> 0 < totalBeds ->
       (0.15 <= IZR availableBeds / IZR totalBeds < 0.30)%R ->
       status (getAvailabilityStatus (Number availableBeds) (Number totalBeds))
       = "moderate").
Proof.
  intros H.
  specialize (H 900000000000002 3000000000000007 ltac:(lia) ltac:(lia)).
  assert (R : (0.15 <= IZR 900000000000002 / IZR 3000000000000007 < 0.30)%R)
    by (split; lra).
  specialize (H R). vm_compute in H. discriminate H.
Qed.

End AvailabilityFacts.

(** * Further properties of the views *)

(** ** The endpoints *)

Section ApiFacts.

Import JS Api.

Lemma append_cancel_l (base a b : string) : base ++ a = base ++ b -> a = b.
Proof.
  induction base as [|c base IH]; simpl; intros H; [exact H|].
  injection H as H. now apply IH.
Qed.

(** X1: whatever the configured base, the six endpoints are the base
    followed by their paths, no two of them are the same address, and
    the base is the local default when the variable is unset or empty. *)
Theorem endpoints_under_base (VITE_API_BASE_URL : option string) :
  let base := API_BASE_URL VITE_API_BASE_URL in
  let e := API_ENDPOINTS VITE_API_BASE_URL in
  base <> ""
  /\ (truthy VITE_API_BASE_URL = false -> base = "http://localhost:5000/api")
  /\ (forall url, truthy (Some url) = true -> API_BASE_URL (Some url) = url)
  /\ [HEALTH e; HOSPITALS e; MEDICINES e; ALERTS e; CRITICAL_ALERTS e; SHORTAGE_TRENDS e]
     = map (String.append base)
           ["/health"; "/hospitals"; "/medicines"; "/alerts"; "/alerts/critical";
            "/trends/shortages"]
  /\ NoDup [HEALTH e; HOSPITALS e; MEDICINES e; ALERTS e; CRITICAL_ALERTS e;
            SHORTAGE_TRENDS e].
Proof.
  intros base e. split; [|split; [|split; [|split]]].
  - unfold base, API_BASE_URL, or_else. destruct VITE_API_BASE_URL as [u|]; [|discriminate].
    destruct (String.eqb_spec u ""); [discriminate | assumption].
  - unfold base, API_BASE_URL, or_else, truthy.
    destruct VITE_API_BASE_URL as [u|]; [|reflexivity].
    destruct (String.eqb u ""); [reflexivity | discriminate].
  - intros url. unfold API_BASE_URL, or_else, truthy.
    destruct (String.eqb url ""); [discriminate | reflexivity].
  - reflexivity.
  - change (NoDup (map (String.append base)
              ["/health"; "/hospitals"; "/medicines"; "/alerts"; "/alerts/critical";
               "/trends/shortages"])).
    apply NoDup_fmap_2; [intros a b; apply append_cancel_l|].
    repeat (constructor; [rewrite ?elem_of_cons, elem_of_nil; intuition discriminate|]).
    constructor.
Qed.

Lemma endpoints_under_base_witness :
  API_BASE_URL (Some "") = "http://localhost:5000/api"
  /\ API_BASE_URL (Some "https://beds.example/api") = "https://beds.example/api".
Proof.
  destruct (endpoints_under_base (Some "")) as (_ & Hdefault & Hset & _).
  split; [apply Hdefault | apply Hset]; reflexivity.
Defined.

End ApiFacts.

(** ** The hospital view over its events *)

Section DashboardEventFacts.

Import JS Dashboard.

Lemma step_fields (ev : Event) (s : State) :
  searchTerm (step ev s) = term_typed [ev] (searchTerm s)
  /\ hospitals (step ev s) = hospitals_fetched [ev] (hospitals s).
Proof.
  unfold step, handle, deps_changed, fetchHospitals_settle.
  destruct ev as [v| |[|result]]; cbn [hospitals_fetched term_typed];
    try (destruct (negb _)); try (destruct (success result)); split; reflexivity.
Qed.

Lemma step_filtered (ev : Event) (s : State) :
  filteredHospitals s = filterHospitals (searchTerm s) (hospitals s) ->
  filteredHospitals (step ev s)
  = filterHospitals (searchTerm (step ev s)) (hospitals (step ev s)).
Proof.
  intros Inv. unfold step, handle, deps_changed, fetchHospitals_settle.
  destruct ev as [v| |[|result]]; simpl.
  - destruct (String.eqb_spec v (searchTerm s)) as [->|Hne]; simpl;
      [exact Inv | reflexivity].
  - exact Inv.
  - exact Inv.
  - destruct (success result); simpl; [reflexivity | exact Inv].
Qed.

Lemma run_app (evs1 evs2 : list Event) (s : State) :
  run (evs1 ++ evs2) s = run evs2 (run evs1 s).
Proof. revert s. induction evs1 as [|ev evs1 IH]; intros s; simpl; [reflexivity | apply IH]. Qed.

Lemma run_fields (evs : list Event) (s : State) :
  filteredHospitals s = filterHospitals (searchTerm s) (hospitals s) ->
  searchTerm (run evs s) = term_typed evs (searchTerm s)
  /\ hospitals (run evs s) = hospitals_fetched evs (hospitals s)
  /\ filteredHospitals (run evs s)
     = filterHospitals (searchTerm (run evs s)) (hospitals (run evs s)).
Proof.
  revert s. induction evs as [|ev evs IH]; intros s Inv; simpl run.
  - split; [reflexivity|]. split; [reflexivity | exact Inv].
  - destruct (step_fields ev s) as [Et Eh].
    destruct (IH (step ev s) (step_filtered ev s Inv)) as (Ht & Hh & Hf).
    split; [|split; [|exact Hf]].
    + rewrite Ht, Et. destruct ev as [v| |[|result]]; reflexivity.
    + rewrite Hh, Eh. destruct ev as [v| |[|result]]; reflexivity.
Qed.

(** X2: after any sequence of searches and fetches, each with its effect
    run, the hospital view holds the term typed last and the hospitals
    of the last successful response, and its filtered collection is the
    filter of these hospitals by that term: a refresh keeps the search
    applied, and a search keeps the data of the last refresh. *)
Theorem hospital_view_tracks_search_and_data (evs : list Event) :
  let s := run evs initial in
  searchTerm s = term_typed evs ""
  /\ hospitals s = hospitals_fetched evs []
  /\ filteredHospitals s
     = filterHospitals (term_typed evs "") (hospitals_fetched evs []).
Proof.
  intros s. destruct (run_fields evs initial eq_refl) as (Ht & Hh & Hf).
  fold s in Ht, Hh, Hf. change (searchTerm initial) with "" in Ht.
  change (hospitals initial) with (@nil Hospital) in Hh.
  rewrite Ht, Hh in Hf.
  split; [exact Ht|]. split; [exact Hh | exact Hf].
Qed.

(** The chart has a label and a pair of bars for every card, in the
    order of the cards. *)
Lemma chart_aligned (s : State) (i : nat) (h : Hospital) :
  filteredHospitals s !! i = Some h ->
  labels (chartData s) !! i = Some (name h)
  /\ totalBedsData (chartData s) !! i = Some (totalBeds h)
  /\ availableBedsData (chartData s) !! i = Some (availableBeds h)
  /\ map card (filteredHospitals s) !! i = Some (card h).
Proof.
  intros H. unfold chartData. simpl.
  repeat split; change map with (@fmap list _) ; rewrite list_lookup_fmap, H; reflexivity.
Qed.

Lemma change_search_keeps (v : string) (s : State) :
  loading (step (ChangeSearch v) s) = loading s
  /\ error (step (ChangeSearch v) s) = error s.
Proof.
  unfold step, handle, deps_changed. destruct (negb _); split; reflexivity.
Qed.

(** X3: what the hospital view shows through a refresh. From any state,
    the start of a fetch shows the loading indicator alone; a fetch that
    fails shows its message alone, also when hospitals are held, and
    typing in the search box does not bring the page back; a fetch that
    starts and succeeds shows the page: the cards of the hospitals of
    the response that match the term, and the chart exactly when there
    is a card.
    The chart has one label and one pair of bars per card, in the order
    of the cards. *)
Theorem hospital_view_through_refresh (s : State) :
  view (step FetchBegin s) = LoadingView
  /\ (forall o, failed o = true ->
        exists msg, msg <> ""
          /\ view (step (FetchSettle o) s) = ErrorView msg
          /\ forall v, view (step (ChangeSearch v) (step (FetchSettle o) s))
                       = ErrorView msg)
  /\ (forall result, success result = true ->
        let shown := filterHospitals (searchTerm s) (data result) in
        exists chart,
          view (step (FetchSettle (Resolved result)) (step FetchBegin s))
          = HospitalsView chart (map card shown)
          /\ (chart = None <-> shown = [])
          /\ forall c, chart = Some c ->
               length (labels c) = length shown
               /\ length (totalBedsData c) = length shown
               /\ length (availableBedsData c) = length shown)
  /\ (forall (i : nat) (h : Hospital),
        filteredHospitals s !! i = Some h ->
        labels (chartData s) !! i = Some (name h)
        /\ totalBedsData (chartData s) !! i = Some (totalBeds h)
        /\ availableBedsData (chartData s) !! i = Some (availableBeds h)
        /\ map card (filteredHospitals s) !! i = Some (card h)).
Proof.
  split; [reflexivity|]. split; [|split; [|exact (chart_aligned s)]].
  - intros o Hf.
    assert (E : exists msg, msg <> "" /\
              error (step (FetchSettle o) s) = Some msg /\
              loading (step (FetchSettle o) s) = false).
    { destruct o as [|result]; simpl in Hf.
      - eexists. split; [|split; reflexivity]. discriminate.
      - apply negb_true_iff in Hf. unfold step, handle, deps_changed, fetchHospitals_settle.
        rewrite Hf. simpl. eexists. split; [|split; reflexivity].
        apply or_else_nonempty. discriminate. }
    destruct E as (msg & Hne & He & Hl). exists msg. split; [exact Hne|].
    assert (T : truthy (Some msg) = true).
    { simpl. destruct (String.eqb_spec msg ""); [contradiction | reflexivity]. }
    split.
    + unfold view. rewrite Hl, He, T. reflexivity.
    + intros v. unfold view.
      destruct (change_search_keeps v (step (FetchSettle o) s)) as [-> ->].
      rewrite Hl, He, T. reflexivity.
  - intros result Hs shown.
    set (st := step (FetchSettle (Resolved result)) (step FetchBegin s)).
    assert (F : loading st = false /\ error st = None /\ filteredHospitals st = shown).
    { unfold st, step, handle, deps_changed, fetchHospitals_settle, fetchHospitals_begin.
      rewrite Hs. repeat split. }
    destruct F as (Hl & He & Hf). clearbody shown st.
    unfold view, chartData. rewrite Hl, He, Hf. simpl truthy. cbv iota.
    eexists. split; [reflexivity|]. split.
    + destruct shown; simpl; split; intros H; try reflexivity; discriminate.
    + intros c Hc. destruct shown as [|h l]; simpl in Hc; [discriminate|].
      injection Hc as <-. simpl. rewrite !length_map. repeat split; reflexivity.
Qed.

Lemma hospital_view_through_refresh_witness :
  (exists msg, msg <> ""
     /\ view (step (FetchSettle Rejected) (step FetchBegin initial)) = ErrorView msg)
  /\ view (step (FetchSettle (Resolved {| success := true; data := [];
                                          error_message := None |}))
                 (step FetchBegin initial))
     = HospitalsView None [].
Proof.
  destruct (hospital_view_through_refresh (step FetchBegin initial))
    as (_ & Hfail & _).
  destruct (hospital_view_through_refresh initial) as (_ & _ & Hok & _).
  split.
  - destruct (Hfail Rejected eq_refl) as (msg & Hne & Hv & _).
    exists msg. split; assumption.
  - destruct (Hok {| success := true; data := []; error_message := None |} eq_refl)
      as (chart & Hv & Hnone & _).
    rewrite Hv. f_equal. apply Hnone. reflexivity.
Defined.

End DashboardEventFacts.

(** ** The status of a hospital: order and bad counts *)

Section AvailabilityOrderFacts.

Import JS Dashboard.

Lemma status_tier_of_ratio (a t : Z) :
  0 <= a < 2 ^ 53 -> 0 < t < 2 ^ 50 ->
  let r := (IZR a / IZR t)%R in
  let result := getAvailabilityStatus (Number a) (Number t) in
  ((3 / 10 <= r)%R -> status result = "good")
  /\ ((3 / 20 <= r < 3 / 10)%R -> status result = "moderate")
  /\ ((r < 3 / 20)%R -> status result = "critical").
Proof.
  intros Ha Ht r result.
  destruct (percentage_tests a t Ha Ht) as (G30 & L30 & G15 & L15).
  fold r in G30, L30, G15, L15. unfold result, getAvailabilityStatus.
  split; [|split].
  - intros H. now rewrite G30.
  - intros [H1 H2]. now rewrite L30, G15.
  - intros H. rewrite L30 by lra. now rewrite L15.
Qed.

Lemma ratio_le (a a' t : Z) :
  a <= a' -> 0 < t -> (IZR a / IZR t <= IZR a' / IZR t)%R.
Proof.
  intros Ha Ht. apply IZR_le in Ha. apply IZR_lt in Ht.
  unfold Rdiv. apply Rmult_le_compat_r; [|assumption].
  left. now apply Rinv_0_lt_compat.
Qed.

(** X4: for counts in the range where the classification follows the
    ratio, more available beds never give a lower status; no available
    bed is a critical shortage, and a hospital whose beds are all
    available is in good availability. *)
Theorem getAvailabilityStatus_monotone (a a' t : Z) :
  0 <= a <= a' -> a' < 2 ^ 53 -> 0 < t < 2 ^ 50 ->
  tier (status (getAvailabilityStatus (Number a) (Number t)))
  <= tier (status (getAvailabilityStatus (Number a') (Number t)))
  /\ status (getAvailabilityStatus (Number 0) (Number t)) = "critical"
  /\ status (getAvailabilityStatus (Number t) (Number t)) = "good".
Proof.
  intros Ha Ha' Ht.
  assert (T53 : t < 2 ^ 53) by (apply Z.lt_trans with (2 ^ 50); [lia | reflexivity]).
  assert (T0 : (0 < IZR t)%R) by (apply IZR_lt; lia).
  split; [|split].
  - destruct (status_tier_of_ratio a t ltac:(lia) Ht) as (G & M & C).
    destruct (status_tier_of_ratio a' t ltac:(lia) Ht) as (G' & M' & C').
    pose proof (ratio_le a a' t ltac:(lia) ltac:(lia)) as Hr.
    destruct (Rle_lt_dec (3 / 10) (IZR a / IZR t)) as [H1|H1].
    + rewrite G by assumption. rewrite G' by lra. reflexivity.
    + destruct (Rle_lt_dec (3 / 20) (IZR a / IZR t)) as [H2|H2].
      * rewrite M by lra.
        destruct (Rle_lt_dec (3 / 10) (IZR a' / IZR t)) as [H3|H3].
        -- rewrite G' by assumption. discriminate.
        -- rewrite M' by lra. reflexivity.
      * rewrite C by assumption.
        destruct (Rle_lt_dec (3 / 10) (IZR a' / IZR t)) as [H3|H3];
          [rewrite G' by assumption; discriminate|].
        destruct (Rle_lt_dec (3 / 20) (IZR a' / IZR t)) as [H4|H4];
          [rewrite M' by lra; discriminate | rewrite C' by assumption; reflexivity].
  - destruct (status_tier_of_ratio 0 t ltac:(lia) Ht) as (_ & _ & C).
    apply C. unfold Rdiv. rewrite Rmult_0_l. lra.
  - destruct (status_tier_of_ratio t t ltac:(lia) Ht) as (G & _ & _).
    apply G. replace (IZR t / IZR t)%R with 1%R by (field; lra). lra.
Qed.

Lemma getAvailabilityStatus_monotone_witness :
  tier (status (getAvailabilityStatus (Number 10) (Number 100)))
  <= tier (status (getAvailabilityStatus (Number 20) (Number 100)))
  /\ status (getAvailabilityStatus (Number 100) (Number 100)) = "good".
Proof.
  destruct (getAvailabilityStatus_monotone 10 20 100 ltac:(lia) ltac:(lia) ltac:(lia))
    as (H & _ & G).
  split; assumption.
Defined.

(** The rounding of a negative number is negative, or not a number. *)
Lemma binary_round_aux_negative (m e : Z) (l : location) :
  let r := binary_round_aux prec emax true m e l in
  r = S754_zero true \/ r = S754_infinity true \/ r = S754_nan
  \/ exists m' e', r = S754_finite true m' e'.
Proof.
  unfold binary_round_aux.
  destruct (shr_fexp prec emax m e l) as [mrs e1].
  destruct (shr_fexp prec emax _ e1 loc_Exact) as [mrs' e2].
  destruct (shr_m mrs') as [|p|p]; [now left | | now right; right; left].
  destruct (e2 <=? emax - prec); [|now right; left].
  right; right; right. now exists p, e2.
Qed.

(** A threshold above zero is not reached by a percentage that is
    negative, minus zero or not a number. *)
Lemma SFleb_positive_negative (mt : positive) (et : Z) (x : spec_float) :
  x = S754_zero true \/ x = S754_infinity true \/ x = S754_nan
  \/ (exists m' e', x = S754_finite true m' e') ->
  SFleb (S754_finite false mt et) x = false.
Proof. intros [->|[->|[->|(m' & e' & ->)]]]; reflexivity. Qed.

Lemma SFmul_100_negative (x : spec_float) :
  x = S754_zero true \/ x = S754_infinity true \/ x = S754_nan
  \/ (exists m' e', x = S754_finite true m' e') ->
  let y := SFmul prec emax x SF100 in
  y = S754_zero true \/ y = S754_infinity true \/ y = S754_nan
  \/ exists m' e', y = S754_finite true m' e'.
Proof.
  intros [->|[->|[->|(m' & e' & ->)]]]; simpl;
    [now left | now right; left | now right; right; left |].
  apply binary_round_aux_negative.
Qed.

Lemma status_of_negative_percentage (available total : float) :
  (let q := SF64div (Prim2SF available) (Prim2SF total) in
   q = S754_zero true \/ q = S754_infinity true \/ q = S754_nan
   \/ exists m' e', q = S754_finite true m' e') ->
  status (getAvailabilityStatus available total) = "critical".
Proof.
  intros Hq. apply SFmul_100_negative in Hq.
  unfold getAvailabilityStatus, geb. rewrite !leb_spec, mul_spec, div_spec.
  change (Prim2SF 100) with SF100.
  change (Prim2SF 30) with (S754_finite false 8444249301319680 (-48)).
  change (Prim2SF 15) with (S754_finite false 8444249301319680 (-49)).
  unfold SF64mul. rewrite !SFleb_positive_negative by exact Hq. reflexivity.
Qed.

(** X5: a count that is not a number, as a missing field gives, and a
    negative count of available beds against a positive total both give
    the status "critical". *)
Theorem getAvailabilityStatus_bad_counts (available total : float) :
  (PrimFloat.is_nan available = true \/ PrimFloat.is_nan total = true
   \/ ((available <? 0)%float = true /\ (0 <? total)%float = true)) ->
  status (getAvailabilityStatus available total) = "critical".
Proof.
  intros H. apply status_of_negative_percentage. cbv zeta. unfold SF64div.
  assert (Nan : forall x, PrimFloat.is_nan x = true -> Prim2SF x = S754_nan).
  { intros x Hx. unfold Prim2SF. now rewrite Hx. }
  destruct H as [H|[H|[Ha Ht]]].
  - rewrite (Nan _ H). right; right; left. reflexivity.
  - rewrite (Nan _ H). right; right; left. destruct (Prim2SF available); reflexivity.
  - rewrite ltb_spec in Ha, Ht.
    change (Prim2SF 0) with (S754_zero false) in *.
    destruct (Prim2SF available) as [sa|sa| |sa ma ea]; try discriminate Ha;
      destruct sa; try discriminate Ha;
      destruct (Prim2SF total) as [st|st| |st mt et]; try discriminate Ht;
      destruct st; try discriminate Ht; simpl.
    + right; right; left. reflexivity.
    + right; left. reflexivity.
    + left. reflexivity.
    + destruct (SFdiv_core_binary prec emax (Zpos ma) ea (Zpos mt) et) as [[mz ez] lz].
      apply binary_round_aux_negative.
Qed.

Lemma getAvailabilityStatus_bad_counts_witness :
  status (getAvailabilityStatus nan 100) = "critical"
  /\ status (getAvailabilityStatus (-5) 100) = "critical".
Proof.
  split.
  - apply getAvailabilityStatus_bad_counts. left. reflexivity.
  - apply getAvailabilityStatus_bad_counts. right; right. split; reflexivity.
Defined.

End AvailabilityOrderFacts.

(** ** The pages of the medicine view *)

Section PagesFacts.

Import JS MedicineStock.

(** A page is six items from its first index on. *)
Lemma currentMedicines_take_drop (items : list Medicine) (p : Z) :
  1 <= p ->
  currentMedicines items p = take 6 (drop (Z.to_nat (6 * (p - 1))) items).
Proof.
  intros Hp. unfold currentMedicines, endIndex, startIndex, itemsPerPage.
  rewrite slice_nonneg by lia.
  set (n := Z.of_nat (length items)).
  destruct (Z.le_gt_cases ((p - 1) * 6) n) as [Hle|Hgt].
  - rewrite (Z.min_l ((p - 1) * 6) n) by assumption.
    replace (Z.to_nat (6 * (p - 1))) with (Z.to_nat ((p - 1) * 6)) by lia.
    destruct (Z.le_gt_cases ((p - 1) * 6 + 6) n) as [Hle'|Hgt'].
    + rewrite Z.min_l by assumption. f_equal. lia.
    + rewrite Z.min_r by lia.
      rewrite (take_ge (drop _ _) 6) by (rewrite length_drop; lia).
      apply take_ge. rewrite length_drop. lia.
  - rewrite !Z.min_r by lia. unfold n. rewrite Z.sub_diag. simpl take.
    rewrite (drop_ge items (Z.to_nat (6 * (p - 1)))) by lia. reflexivity.
Qed.

Lemma take_add_drop {A} (n m : nat) (l : list A) :
  take (n + m) l = (take n l ++ take m (drop n l))%list.
Proof.
  revert l. induction n as [|n IH]; intros [|x l]; simpl;
    try reflexivity; [now rewrite take_nil | now rewrite IH].
Qed.

Lemma pages_upto_take (items : list Medicine) (k : nat) :
  pages_upto items k = take (6 * k) items.
Proof.
  induction k as [|k IH]; [reflexivity|].
  simpl pages_upto. rewrite IH, currentMedicines_take_drop by lia.
  replace (Z.to_nat (6 * (Z.of_nat (S k) - 1))) with (6 * k)%nat by lia.
  replace (6 * S k)%nat with (6 * k + 6)%nat by lia.
  symmetry. apply take_add_drop.
Qed.

(** X6: the pages of the medicine view divide the filtered list: shown
    one after the other, the pages 1 to [totalPages] give the list back,
    nothing lost and nothing twice; every page before the last holds six
    medicines and a page after the last holds none. *)
Theorem pages_partition (items : list Medicine) :
  pages_upto items (Z.to_nat (totalPages items)) = items
  /\ (forall p, 1 <= p < totalPages items ->
        length (currentMedicines items p) = 6%nat)
  /\ (forall p, totalPages items < p -> currentMedicines items p = []).
Proof.
  pose proof (Math_ceil_div_bounds (Z.of_nat (length items)) 6 eq_refl) as B.
  fold itemsPerPage in B. fold (totalPages items) in B. unfold itemsPerPage in B.
  split; [|split].
  - rewrite pages_upto_take. apply take_ge. lia.
  - intros p Hp. rewrite currentMedicines_take_drop by lia.
    rewrite length_take, length_drop. lia.
  - intros p Hp. rewrite currentMedicines_take_drop by lia.
    rewrite drop_ge by lia. reflexivity.
Qed.

Lemma pages_partition_witness :
  length (currentMedicines mockMedicines 1) = 6%nat
  /\ currentMedicines mockMedicines 3 = [].
Proof.
  destruct (pages_partition mockMedicines) as (_ & Hfull & Hpast).
  split; [apply Hfull | apply Hpast]; vm_compute; intuition discriminate.
Defined.

Lemma step_click_next (h : gmap Heap.loc (list Medicine)) (s : State) :
  let total := totalPages (Heap.read h (filteredMedicines s)) in
  1 <= currentPage s < total ->
  step ClickNext (h, s) = (h, setCurrentPage (fun _ => currentPage s + 1) s).
Proof.
  intros total Hp. unfold step, handle. fold total.
  replace (1 <? total) with true by (symmetry; apply Z.ltb_lt; lia).
  replace (currentPage s =? total) with false by (symmetry; apply Z.eqb_neq; lia).
  simpl. unfold page_effect. simpl. rewrite Pos.eqb_refl.
  unfold setCurrentPage, next_onClick. f_equal. f_equal. lia.
Qed.

Lemma step_click_previous (h : gmap Heap.loc (list Medicine)) (s : State) :
  let total := totalPages (Heap.read h (filteredMedicines s)) in
  1 < currentPage s <= total ->
  step ClickPrevious (h, s) = (h, setCurrentPage (fun _ => currentPage s - 1) s).
Proof.
  intros total Hp. unfold step, handle. fold total.
  replace (1 <? total) with true by (symmetry; apply Z.ltb_lt; lia).
  replace (currentPage s =? 1) with false by (symmetry; apply Z.eqb_neq; lia).
  simpl. unfold page_effect. simpl. rewrite Pos.eqb_refl.
  unfold setCurrentPage, previous_onClick. f_equal. f_equal. lia.
Qed.

Lemma step_click_next_last (h : gmap Heap.loc (list Medicine)) (s : State) :
  currentPage s = totalPages (Heap.read h (filteredMedicines s)) ->
  step ClickNext (h, s) = (h, s).
Proof.
  intros Hp. unfold step, handle. rewrite <- Hp, Z.eqb_refl, andb_false_r.
  simpl. unfold page_effect. now rewrite Pos.eqb_refl.
Qed.

Lemma run_next (k : nat) (h : gmap Heap.loc (list Medicine)) (s : State) :
  let total := totalPages (Heap.read h (filteredMedicines s)) in
  1 <= currentPage s <= total ->
  run (repeat ClickNext k) (h, s)
  = (h, setCurrentPage (fun _ => Z.min (currentPage s + Z.of_nat k) total) s).
Proof.
  intros total. revert s total. induction k as [|k IH]; intros s total Hp.
  - simpl. f_equal. destruct s; unfold setCurrentPage; simpl in *. f_equal. lia.
  - simpl repeat. simpl run.
    destruct (Z.eq_dec (currentPage s) total) as [E|NE].
    + rewrite step_click_next_last by exact E.
      rewrite IH by (fold total; lia). fold total.
      f_equal. unfold setCurrentPage. f_equal. lia.
    + rewrite step_click_next by (fold total; lia).
      rewrite IH by (simpl; fold total; lia). simpl. fold total.
      f_equal. unfold setCurrentPage. simpl. f_equal. lia.
Qed.

(** X7: walking the pages. From a page in range, [k] clicks on Next
    lead to the page [k] further, stopped at the last page, and leave
    the list alone; Previous undoes Next below the last page, and Next
    undoes Previous above the first. *)
Theorem pager_walk (h : gmap Heap.loc (list Medicine)) (s : State) (k : nat) :
  let total := totalPages (Heap.read h (filteredMedicines s)) in
  1 <= currentPage s <= total ->
  currentPage (snd (run (repeat ClickNext k) (h, s)))
  = Z.min (currentPage s + Z.of_nat k) total
  /\ fst (run (repeat ClickNext k) (h, s)) = h
  /\ filteredMedicines (snd (run (repeat ClickNext k) (h, s))) = filteredMedicines s
  /\ (currentPage s < total ->
      step ClickPrevious (step ClickNext (h, s)) = (h, s))
  /\ (1 < currentPage s ->
      step ClickNext (step ClickPrevious (h, s)) = (h, s)).
Proof.
  intros total Hp. rewrite run_next by exact Hp. fold total.
  split; [reflexivity|]. split; [reflexivity|]. split; [reflexivity|]. split.
  - intros Hlt. rewrite step_click_next by (fold total; lia).
    rewrite step_click_previous by (simpl; fold total; lia).
    f_equal. destruct s; unfold setCurrentPage; simpl in *. f_equal. lia.
  - intros Hgt. rewrite step_click_previous by (fold total; lia).
    rewrite step_click_next by (simpl; fold total; lia).
    f_equal. destruct s; unfold setCurrentPage; simpl in *. f_equal. lia.
Qed.

Lemma pager_walk_witness :
  let w := fetchMedicines_settle
             (Resolved {| success := true; data := mockMedicines;
                          error_message := None |}) initial in
  currentPage (snd (run (repeat ClickNext 5) w)) = 2
  /\ step ClickPrevious (step ClickNext w) = w.
Proof.
  intros w.
  destruct (pager_walk (fst w) (snd w) 5) as (H & _ & _ & Hback & _).
  { vm_compute. intuition discriminate. }
  split.
  - exact H.
  - apply Hback. reflexivity.
Defined.

End PagesFacts.

(** ** The cards of the medicine view *)

Section MedicineCardFacts.

Import JS MedicineStock.

Lemma card_None (m : Medicine) :
  card m = None <-> forall s, availability m <> Str s.
Proof.
  unfold card, availability_toUpperCase.
  destruct (availability m) as [| |b|x|s]; split; intros H; try reflexivity;
    try discriminate; try (intros s' Hs; discriminate Hs).
  now elim (H s).
Qed.

Lemma cards_None (l : list Medicine) :
  cards l = None <-> exists m, In m l /\ forall s, availability m <> Str s.
Proof.
  induction l as [|m l IH]; simpl.
  - split; [discriminate | intros (m & [] & _)].
  - destruct (card m) as [c|] eqn:Ec.
    + destruct (cards l) as [cs|].
      * split; [discriminate|]. intros (m' & [<-|Hin] & Hm').
        -- apply card_None in Hm'. congruence.
        -- destruct IH as [_ IH]. discriminate IH. now exists m'.
      * split; [|reflexivity]. intros _.
        destruct IH as [IH _]. destruct (IH eq_refl) as (m' & Hin & Hm').
        exists m'. split; [now right | assumption].
    + split; [|reflexivity]. intros _. exists m. split; [now left|].
      now apply card_None.
Qed.

(** X8: a render of the medicine view throws exactly when a medicine of
    the current page has an availability that is not a string; medicines
    of other pages do not matter. A card that is built shows the
    availability in capitals; for a string other than "high", "moderate"
    and "low" it shows the gray badge "Unknown" over a meter of 20%. The
    warning box, and with it the word RECALL, is on the card only when
    the medicine has a warning text, whatever its recall flag. *)
Theorem medicine_cards (w : World) :
  let current :=
    currentMedicines (Heap.read (fst w) (filteredMedicines (snd w)))
                     (currentPage (snd w)) in
  (view w = None <->
   exists m, In m current /\ forall s, availability m <> Str s)
  /\ (forall m c, card m = Some c ->
        exists s, availability m = Str s
          /\ meterLabel c = toUpperCase s
          /\ (s <> "high" -> s <> "moderate" -> s <> "low" ->
              badgeColor c = "bg-gray-500" /\ badgeText c = "Unknown"
              /\ meterColor c = "bg-gray-500" /\ meterWidthStyle c = "20%"))
  /\ (forall m c, card m = Some c ->
        (notice c = None <-> truthy (warning m) = false)
        /\ (forall n, notice c = Some n ->
              isRecall n = recall m /\ Some (noticeText n) = warning m)).
Proof.
  destruct w as [h s]. simpl fst. simpl snd. intros current. split; [|split].
  - unfold view. fold current.
    destruct (Z.of_nat (length current) =? 0) eqn:E.
    + split; [intros H; discriminate H|]. intros (m & Hin & _).
      apply Z.eqb_eq in E. destruct current; [contradiction | discriminate].
    + rewrite <- cards_None. destruct (cards current); split;
        intros H; try reflexivity; discriminate.
  - intros m c Hc. unfold card, availability_toUpperCase in Hc.
    destruct (availability m) as [| |b|x|a] eqn:Ea; try discriminate.
    exists a. split; [reflexivity|]. injection Hc as <-. simpl.
    split; [reflexivity|]. intros H1 H2 H3.
    unfold getAvailabilityColor, getAvailabilityText, meterWidth, strict_eq.
    destruct (String.eqb_spec a "high"); [contradiction|].
    destruct (String.eqb_spec a "moderate"); [contradiction|].
    destruct (String.eqb_spec a "low"); [contradiction|].
    repeat split.
  - intros m c Hc. unfold card in Hc.
    destruct (availability_toUpperCase (availability m)); [|discriminate].
    injection Hc as <-. simpl. unfold truthy.
    destruct (warning m) as [t|]; [destruct (String.eqb t "")|]; simpl;
      (split; [split; intros H; try reflexivity; discriminate|]);
      intros n Hn; try discriminate.
    injection Hn as <-. split; reflexivity.
Qed.

Lemma medicine_cards_witness :
  let recalled := mkMedicine 9 "Levothyroxine 50mcg" "Hormone Pharma" "Hormone"
                    (Str "none") None true in
  exists c, card recalled = Some c
    /\ notice c = None /\ badgeText c = "Unknown" /\ meterLabel c = "NONE".
Proof.
  intros recalled. eexists. split; [reflexivity|].
  destruct (medicine_cards initial) as (_ & Hcard & Hnotice).
  destruct (Hcard recalled _ eq_refl) as (s & Hs & Hl & Hd).
  injection Hs as <-. split; [|split].
  - apply (Hnotice recalled _ eq_refl). reflexivity.
  - apply Hd; discriminate.
  - exact Hl.
Defined.

Lemma view_ignores_error (h : gmap Heap.loc (list Medicine)) (s : State)
    (e : option string) :
  view (h, setError e s) = view (h, s).
Proof. reflexivity. Qed.

(** X9: a fetch of the medicine view never takes the medicines off the
    screen. While it is in flight the view is the one from before, as
    long as the current page holds a medicine (the line "Loading
    medicines..." needs an empty page); and when it fails the view is
    again exactly the one from before the fetch: the error is stored and
    not shown. *)
Theorem medicine_view_through_failed_fetch (w : World) (o : FetchOutcome Medicine) :
  loading (snd w) = false ->
  failed o = true ->
  view (run [FetchBegin; FetchSettle o] w) = view w
  /\ error (snd (run [FetchBegin; FetchSettle o] w)) <> None
  /\ (currentMedicines (Heap.read (fst w) (filteredMedicines (snd w)))
                       (currentPage (snd w)) <> [] ->
      view (step FetchBegin w) = view w).
Proof.
  destruct w as [h s]. intros Hl Hf. simpl in Hl.
  assert (B : step FetchBegin (h, s) = (h, setError None (setLoading true s))).
  { unfold step, handle, page_effect. simpl. now rewrite Pos.eqb_refl. }
  assert (V : view (h, setLoading false s) = view (h, s)).
  { unfold view. simpl. now rewrite Hl. }
  split; [|split].
  - simpl run. rewrite B. unfold step, handle, fetchMedicines_settle.
    destruct o as [|result]; simpl in Hf.
    + unfold page_effect. simpl. rewrite Pos.eqb_refl. exact V.
    + apply negb_true_iff in Hf. rewrite Hf. unfold page_effect. simpl.
      rewrite Pos.eqb_refl. exact V.
  - simpl run. rewrite B. unfold step, handle, fetchMedicines_settle.
    destruct o as [|result]; simpl in Hf.
    + unfold page_effect. simpl. rewrite Pos.eqb_refl. discriminate.
    + apply negb_true_iff in Hf. rewrite Hf. unfold page_effect. simpl.
      rewrite Pos.eqb_refl. discriminate.
  - intros Hne. rewrite B. unfold view. simpl.
    destruct (currentMedicines _ _) as [|m l]; [contradiction | reflexivity].
Qed.

Lemma medicine_view_through_failed_fetch_witness :
  view (run [FetchBegin; FetchSettle Rejected] initial) = view initial.
Proof.
  apply (medicine_view_through_failed_fetch initial Rejected); reflexivity.
Defined.

End MedicineCardFacts.

(** ** The medicine view and the responses *)

Section MedicineResponseFacts.

Import JS MedicineStock.

Lemma step_medicines (ev : Event) (w : World) (current : list Medicine) :
  filteredMedicines (snd w) ∈ dom (fst w) ->
  Heap.read (fst w) (filteredMedicines (snd w)) = current ->
  Heap.read (fst w) (medicines (snd w)) = current ->
  let w' := step ev w in
  filteredMedicines (snd w') ∈ dom (fst w')
  /\ Heap.read (fst w') (filteredMedicines (snd w')) = medicines_fetched [ev] current
  /\ Heap.read (fst w') (medicines (snd w')) = medicines_fetched [ev] current.
Proof.
  destruct w as [h s]. cbn [fst snd]. intros Hd Hf Hm.
  assert (Same : forall s', filteredMedicines s' = filteredMedicines s ->
                            medicines s' = medicines s ->
                            let w' := (h, page_effect s s') in
                            filteredMedicines (snd w') ∈ dom (fst w')
                            /\ Heap.read (fst w') (filteredMedicines (snd w')) = current
                            /\ Heap.read (fst w') (medicines (snd w')) = current).
  { intros s' E1 E2. rewrite (step_unchanged_array h s s' E1).
    cbn [fst snd]. rewrite E1, E2. auto. }
  destruct ev as [v| |o| |]; unfold step, handle; cbn [medicines_fetched].
  - now apply Same.
  - now apply Same.
  - unfold fetchMedicines_settle. destruct o as [|result].
    + now apply Same.
    + destruct (success result).
      * unfold Heap.alloc, page_effect. cbn.
        match goal with
        | |- context [Pos.eqb ?a ?b] => destruct (Pos.eqb_spec a b) as [E|E]
        end.
        { exfalso. rewrite E in Hd. now apply is_fresh in Hd. }
        cbn. unfold Heap.read. rewrite lookup_insert_eq. split; [|now split].
        apply elem_of_dom. rewrite lookup_insert_eq. now eexists.
      * now apply Same.
  - destruct (_ && _); now apply Same.
  - destruct (_ && _); now apply Same.
Qed.

Lemma run_medicines (evs : list Event) (w : World) (current : list Medicine) :
  filteredMedicines (snd w) ∈ dom (fst w) ->
  Heap.read (fst w) (filteredMedicines (snd w)) = current ->
  Heap.read (fst w) (medicines (snd w)) = current ->
  let w' := run evs w in
  filteredMedicines (snd w') ∈ dom (fst w')
  /\ Heap.read (fst w') (filteredMedicines (snd w')) = medicines_fetched evs current
  /\ Heap.read (fst w') (medicines (snd w')) = medicines_fetched evs current.
Proof.
  revert w current. induction evs as [|ev evs IH]; intros w current Hd Hf Hm.
  - simpl. auto.
  - destruct (step_medicines ev w current Hd Hf Hm) as (Hd' & Hf' & Hm').
    simpl run.
    replace (medicines_fetched (ev :: evs) current)
      with (medicines_fetched evs (medicines_fetched [ev] current)).
    + now apply IH.
    + simpl. destruct ev as [| |[|result]| |]; reflexivity.
Qed.

(** X10: what the medicine view lists after any sequence of typing,
    fetches and clicks on the pager, from the mount on: the medicines of
    the last successful response, in the order of the response, under
    [medicines] and [filteredMedicines] alike; the term in the search box
    selects nothing on the client. A response that succeeds next brings
    the view to page 1 of its medicines and ends the loading state. *)
Theorem medicine_view_tracks_responses (evs : list Event) :
  let w := run evs initial in
  let fetched := medicines_fetched evs [] in
  Heap.read (fst w) (filteredMedicines (snd w)) = fetched
  /\ Heap.read (fst w) (medicines (snd w)) = fetched
  /\ (forall v, Heap.read (fst (step (ChangeSearch v) w))
                  (filteredMedicines (snd (step (ChangeSearch v) w))) = fetched)
  /\ (forall result, success result = true ->
        let w' := step (FetchSettle (Resolved result)) w in
        currentPage (snd w') = 1
        /\ loading (snd w') = false
        /\ Heap.read (fst w') (filteredMedicines (snd w')) = data result
        /\ currentMedicines (Heap.read (fst w') (filteredMedicines (snd w')))
             (currentPage (snd w'))
           = take 6 (data result)).
Proof.
  intros w fetched.
  assert (Hd0 : filteredMedicines (snd initial) ∈ dom (fst initial)).
  { apply elem_of_dom. now exists []. }
  destruct (run_medicines evs initial [] Hd0 eq_refl eq_refl) as (Hd & Hf & Hm).
  fold w in Hd, Hf, Hm. fold fetched in Hf, Hm.
  split; [exact Hf|]. split; [exact Hm|]. split.
  - intros v.
    destruct (step_medicines (ChangeSearch v) w fetched Hd Hf Hm) as (_ & H & _).
    exact H.
  - intros result Hs w'.
    destruct (step_medicines (FetchSettle (Resolved result)) w fetched Hd Hf Hm)
      as (_ & H & _).
    fold w' in H. cbn [medicines_fetched] in H. rewrite Hs in H.
    assert (Hp : currentPage (snd w') = 1).
    { apply page_reset_on_change. unfold step, handle, fetchMedicines_settle.
      destruct w as [h s]. rewrite Hs. cbn.
      unfold page_effect. cbn.
      match goal with
      | |- context [Pos.eqb ?a ?b] => destruct (Pos.eqb_spec a b) as [E|E]
      end.
      - exfalso. cbn in Hd. rewrite E in Hd. now apply is_fresh in Hd.
      - cbn. congruence. }
    split; [exact Hp|]. split; [|split; [exact H|]].
    + unfold w', step, handle, fetchMedicines_settle.
      destruct w as [h s]. rewrite Hs. cbn. unfold page_effect.
      now destruct (Pos.eqb _ _).
    + rewrite H, Hp. unfold currentMedicines, endIndex, itemsPerPage.
      change (startIndex 1 + 6) with 6. change (startIndex 1) with 0.
      now rewrite slice_prefix by lia.
Qed.

Lemma medicine_view_tracks_responses_witness :
  let result := {| success := true; data := mockMedicines; error_message := None |} in
  let w' := step (FetchSettle (Resolved result)) (run [ClickNext] initial) in
  currentPage (snd w') = 1
  /\ currentMedicines (Heap.read (fst w') (filteredMedicines (snd w')))
       (currentPage (snd w'))
     = take 6 mockMedicines.
Proof.
  intros result w'.
  destruct (medicine_view_tracks_responses [ClickNext]) as (_ & _ & _ & H).
  destruct (H result eq_refl) as (Hp & _ & _ & Hc).
  split; [exact Hp | exact Hc].
Defined.

End MedicineResponseFacts.

(** ** The requests *)

Section RequestFacts.

Import JS.

Lemma count_char_app (c : ascii) (a b : string) :
  count_char c (a ++ b) = (count_char c a + count_char c b)%nat.
Proof. induction a as [|d a IH]; simpl; [reflexivity | rewrite IH; lia]. Qed.

Lemma urlencode_byte_output (c : ascii) (sep : ascii) :
  urlencoded_output sep = false -> count_char sep (urlencode_byte c) = O.
Proof.
  intros Hsep.
  assert (K : forall d, urlencoded_output d = true ->
                        (if Ascii.eqb sep d then 1 else 0)%nat = O).
  { intros d Hd. destruct (Ascii.eqb_spec sep d) as [->|]; [congruence | reflexivity]. }
  unfold urlencode_byte.
  destruct (urlencoded_plain c) eqn:Ep.
  - simpl. rewrite K; [reflexivity|]. unfold urlencoded_output. now rewrite Ep.
  - destruct (Ascii.eqb c " ").
    + simpl. now rewrite K.
    + simpl. rewrite !K; try reflexivity; clear;
        destruct c as [[] [] [] [] [] [] [] []]; reflexivity.
Qed.

Lemma urlencode_output (s : string) (sep : ascii) :
  urlencoded_output sep = false -> count_char sep (urlencode s) = O.
Proof.
  intros Hsep. induction s as [|c s IH]; simpl; [reflexivity|].
  now rewrite count_char_app, urlencode_byte_output, IH.
Qed.

Lemma urlencode_plain (s : string) :
  forallb urlencoded_plain (list_ascii_of_string s) = true -> urlencode s = s.
Proof.
  induction s as [|c s IH]; simpl; [reflexivity|].
  intros H. apply andb_true_iff in H as [Hc Hs].
  unfold urlencode_byte. rewrite Hc. simpl. now rewrite IH.
Qed.

(** X11: the requests of the medicine and alert views. A search term
    is sent as the first of two parameters, before [limit=50], and
    encoded so that no character of it can end the parameter or start
    another: the query has one [&] and two [=], whatever was typed; a
    term of letters and digits is sent as it is. Without a term the
    query is [limit=50] alone. The alert view sends no parameter for the
    filter "all" and [type=bed] or [type=medicine] for the two others. *)
Theorem request_queries (endpoints : Api.Endpoints) (term : string) :
  (forall sep, In sep ["&"; "="; "?"; "#"; "/"; " "]%char ->
               count_char sep (urlencode term) = O)
  /\ (forallb urlencoded_plain (list_ascii_of_string term) = true ->
      urlencode term = term)
  /\ MedicineStock.fetchMedicines_url endpoints ""
     = Api.MEDICINES endpoints ++ "?limit=50"
  /\ (term <> "" ->
      MedicineStock.fetchMedicines_url endpoints term
      = Api.MEDICINES endpoints ++ "?search=" ++ urlencode term ++ "&limit=50"
      /\ count_char "&" (URLSearchParams_toString
                           (MedicineStock.fetchMedicines_params term)) = 1%nat
      /\ count_char "=" (URLSearchParams_toString
                           (MedicineStock.fetchMedicines_params term)) = 2%nat)
  /\ Alerts.fetchAlerts_url endpoints "all" = Api.ALERTS endpoints ++ "?"
  /\ Alerts.fetchAlerts_url endpoints "bed" = Api.ALERTS endpoints ++ "?type=bed"
  /\ Alerts.fetchAlerts_url endpoints "medicine"
     = Api.ALERTS endpoints ++ "?type=medicine".
Proof.
  split; [|split; [|split; [|split; [|repeat split]]]].
  - intros sep Hsep. apply urlencode_output.
    simpl in Hsep. intuition (subst; reflexivity).
  - apply urlencode_plain.
  - reflexivity.
  - intros Hne. unfold MedicineStock.fetchMedicines_url, MedicineStock.fetchMedicines_params.
    destruct (String.eqb_spec term "") as [|_]; [contradiction|]. simpl.
    split; [reflexivity|].
    rewrite !count_char_app. simpl.
    rewrite !urlencode_output by reflexivity. split; reflexivity.
Qed.

Lemma request_queries_witness :
  MedicineStock.fetchMedicines_url (Api.API_ENDPOINTS None) "a b&c=d"
  = "http://localhost:5000/api/medicines?search=a+b%26c%3Dd&limit=50".
Proof.
  destruct (request_queries (Api.API_ENDPOINTS None) "a b&c=d")
    as (_ & _ & _ & H & _).
  destruct H as (H & _); [discriminate|]. rewrite H. reflexivity.
Defined.

End RequestFacts.

(** ** The alert view: counts, cards and the order of the lists *)

Section AlertViewFacts.

Import JS Alerts.

Lemma filter_length_Permutation {A} (f : A -> bool) (l l' : list A) :
  Permutation l l' -> length (List.filter f l) = length (List.filter f l').
Proof.
  induction 1 as [|x l l' _ IH|x y l|l l' l'' _ IH1 _ IH2]; simpl.
  - reflexivity.
  - destruct (f x); simpl; now rewrite IH.
  - destruct (f x), (f y); reflexivity.
  - now rewrite IH1.
Qed.

Lemma filter_negb_length {A} (f : A -> bool) (l : list A) :
  (length (List.filter f l) + length (List.filter (fun a => negb (f a)) l))%nat
  = length l.
Proof.
  induction l as [|x l IH]; simpl; [reflexivity|].
  destruct (f x); simpl; lia.
Qed.

Lemma filter_map_length {A B} (f : B -> bool) (g : A -> B) (l : list A) :
  length (List.filter f (map g l)) = length (List.filter (fun a => f (g a)) l).
Proof.
  induction l as [|x l IH]; simpl; [reflexivity|].
  destruct (f (g x)); simpl; now rewrite IH.
Qed.

Lemma filter_ext_length {A} (f g : A -> bool) (l : list A) :
  (forall a, f a = g a) -> length (List.filter f l) = length (List.filter g l).
Proof.
  intros E. induction l as [|x l IH]; simpl; [reflexivity|].
  rewrite E. destruct (g x); simpl; now rewrite IH.
Qed.

(** A sorted array is left as it is. *)
Lemma sort_of_sorted {A} (cmp : A -> A -> Z) (l : list A) :
  StronglySorted (before cmp) l -> sort cmp l = l.
Proof.
  induction 1 as [|x l Hs IH Hx]; simpl; [reflexivity|].
  rewrite IH. destruct l as [|y l]; simpl; [reflexivity|].
  inversion Hx as [|? ? Hxy _]; subst. unfold before in Hxy.
  destruct (Z.leb_spec (cmp x y) 0); [reflexivity | lia].
Qed.

Lemma sorted_descending (l : list Alert) :
  StronglySorted (before byRecency) l ->
  StronglySorted (fun a b => timestamp a >= timestamp b) l.
Proof.
  induction 1 as [|x l _ IH Hx]; constructor; [exact IH|].
  eapply Forall_impl; [exact Hx|]. unfold before, byRecency. intros; lia.
Qed.

Lemma sort_byRecency_twice (l : list Alert) :
  sort byRecency (sort byRecency l) = sort byRecency l.
Proof.
  apply sort_of_sorted, sort_sorted; [apply byRecency_total | apply byRecency_trans].
Qed.

(** The main list is the array of [filteredAlerts] after the sort of the
    sidebar: sorted when the two variables share the array, untouched
    otherwise. *)
Lemma render_mainList (w : World) :
  mainList (snd (render w)) =
  if Pos.eqb (alerts (snd w)) (filteredAlerts (snd w))
  then sort byRecency (Heap.read (fst w) (alerts (snd w)))
  else Heap.read (fst w) (filteredAlerts (snd w)).
Proof.
  destruct w as [h s]. unfold render, recentAlerts. simpl.
  destruct (Pos.eqb_spec (alerts s) (filteredAlerts s)) as [E|E].
  - rewrite <- E. apply read_write.
  - now apply read_write_other.
Qed.

Lemma render_mainList_Permutation (w : World) :
  Permutation (mainList (snd (render w)))
              (Heap.read (fst w) (filteredAlerts (snd w))).
Proof.
  rewrite render_mainList.
  destruct (Pos.eqb_spec (alerts (snd w)) (filteredAlerts (snd w))) as [E|E].
  - rewrite <- E. apply sort_Permutation.
  - reflexivity.
Qed.

Lemma render_sidebar (w : World) :
  sidebar (snd (render w))
  = take 5 (sort byRecency (Heap.read (fst w) (alerts (snd w)))).
Proof.
  rewrite <- recentAlerts_value. destruct w as [h s]. reflexivity.
Qed.

Lemma render_criticalAlerts (w : World) :
  criticalAlerts (snd (render w))
  = Z.of_nat (length (List.filter (fun a => String.eqb (severity a) "critical")
                        (Heap.read (fst w) (filteredAlerts (snd w))))).
Proof. destruct w as [h s]. reflexivity. Qed.

Lemma render_nonCriticalAlerts (w : World) :
  nonCriticalAlerts (snd (render w))
  = Z.of_nat (length (List.filter (fun a => negb (String.eqb (severity a) "critical"))
                        (Heap.read (fst w) (filteredAlerts (snd w))))).
Proof. destruct w as [h s]. reflexivity. Qed.

Lemma render_store (w : World) :
  fst (render w)
  = Heap.write (fst w) (alerts (snd w))
      (sort byRecency (Heap.read (fst w) (alerts (snd w)))).
Proof. destruct w as [h s]. reflexivity. Qed.

(** The counts are taken before the sidebar sorts the array and the list
    is read after it; they count the list all the same. *)
Lemma render_counts (w : World) :
  let v := snd (render w) in
  criticalAlerts v
  = Z.of_nat (length (List.filter
                        (fun a => String.eqb (severity a) "critical") (mainList v)))
  /\ nonCriticalAlerts v
     = Z.of_nat (length (List.filter
                           (fun a => negb (String.eqb (severity a) "critical"))
                           (mainList v))).
Proof.
  intros v. pose proof (render_mainList_Permutation w) as HP. fold v in HP.
  unfold v. rewrite render_criticalAlerts, render_nonCriticalAlerts.
  now rewrite !(filter_length_Permutation _ _ _ HP).
Qed.

(** X12: the two numbers of the pie chart count the cards of the main
    list, in every state of the view: the critical alerts are as many as
    the cards with a red badge, the others as many as the cards with a
    yellow badge, every card has one of the two colours on its border and
    its badge alike, and the two numbers add up to the length of the
    list. The counts are taken before the sidebar sorts the array and the
    list is read after it; they agree all the same. *)
Theorem alert_counts_match_cards (w : World) (now : Z) :
  let v := snd (render w) in
  let cards := map (card now) (mainList v) in
  criticalAlerts v + nonCriticalAlerts v = Z.of_nat (length cards)
  /\ criticalAlerts v
     = Z.of_nat (length (List.filter
                           (fun c => String.eqb (badgeColor c) "bg-red-500") cards))
  /\ nonCriticalAlerts v
     = Z.of_nat (length (List.filter
                           (fun c => String.eqb (badgeColor c) "bg-yellow-500") cards))
  /\ (forall c, In c cards ->
        (badgeColor c = "bg-red-500" /\ borderColor c = "border-red-500")
        \/ (badgeColor c = "bg-yellow-500" /\ borderColor c = "border-yellow-500")).
Proof.
  intros v cards.
  destruct (render_counts w) as [Hc Hn]. fold v in Hc, Hn.
  split; [|split; [|split]].
  - rewrite Hc, Hn. unfold cards. rewrite length_map, <- Nat2Z.inj_add.
    now rewrite filter_negb_length.
  - rewrite Hc. unfold cards. rewrite filter_map_length. f_equal.
    apply filter_ext_length. intros a. unfold card. simpl.
    now destruct (String.eqb (severity a) "critical").
  - rewrite Hn. unfold cards. rewrite filter_map_length. f_equal.
    apply filter_ext_length. intros a. unfold card. simpl.
    now destruct (String.eqb (severity a) "critical").
  - intros c Hc'. unfold cards in Hc'. apply in_map_iff in Hc' as (a & <- & _).
    unfold card. simpl. destruct (String.eqb (severity a) "critical"); auto.
Qed.

Lemma alert_counts_match_cards_witness :
  let c := card 1705314600000 newer_alert in
  badgeColor c = "bg-red-500" /\ borderColor c = "border-red-500"
  \/ badgeColor c = "bg-yellow-500" /\ borderColor c = "border-yellow-500".
Proof.
  intros c.
  destruct (alert_counts_match_cards fetched_world 1705314600000) as (_ & _ & _ & H).
  apply H. left. reflexivity.
Defined.

(** *** The worlds that the events reach *)

Lemma step_tracks (ev : Event) (w : World) (current : list Alert) :
  alerts_shared w ->
  sort byRecency (Heap.read (fst w) (alerts (snd w))) = sort byRecency current ->
  alerts_shared (step ev w)
  /\ sort byRecency (Heap.read (fst (step ev w)) (alerts (snd (step ev w))))
     = sort byRecency (alerts_fetched [ev] current).
Proof.
  destruct w as [h s]. unfold alerts_shared. cbn [fst snd]. intros Hsh Hs.
  destruct ev as [f| |o|]; simpl.
  - split; assumption.
  - split; assumption.
  - destruct o as [|result]; simpl; [split; assumption|].
    destruct (success result); simpl; [|split; assumption].
    split; [now left|]. unfold Heap.read. now rewrite lookup_insert_eq.
  - split.
    + destruct Hsh as [E|[E1 E2]]; [now left|]. right.
      rewrite read_write, E1. split; [reflexivity|].
      destruct (Pos.eqb_spec (alerts s) (filteredAlerts s)) as [E|E].
      * rewrite <- E. now rewrite read_write.
      * now rewrite read_write_other.
    + rewrite read_write. now rewrite sort_byRecency_twice.
Qed.

Lemma run_tracks (evs : list Event) (w : World) (current : list Alert) :
  alerts_shared w ->
  sort byRecency (Heap.read (fst w) (alerts (snd w))) = sort byRecency current ->
  alerts_shared (run evs w)
  /\ sort byRecency (Heap.read (fst (run evs w)) (alerts (snd (run evs w))))
     = sort byRecency (alerts_fetched evs current).
Proof.
  revert w current. induction evs as [|ev evs IH]; intros w current Hsh Hs.
  - split; assumption.
  - destruct (step_tracks ev w current Hsh Hs) as [Hsh' Hs'].
    simpl run.
    replace (alerts_fetched (ev :: evs) current)
      with (alerts_fetched evs (alerts_fetched [ev] current)).
    + now apply IH.
    + simpl. destruct ev as [| |[|result]|]; reflexivity.
Qed.

Lemma shared_mainList (w : World) :
  alerts_shared w ->
  mainList (snd (render w))
  = sort byRecency (Heap.read (fst w) (alerts (snd w))).
Proof.
  intros Hsh. rewrite render_mainList.
  destruct (Pos.eqb_spec (alerts (snd w)) (filteredAlerts (snd w))) as [E|E];
    [reflexivity|].
  destruct Hsh as [E'|[E1 E2]]; [contradiction|]. now rewrite E1, E2.
Qed.

(** X13: what the alert view shows after any sequence of filter changes,
    fetches and renders, from the mount on. The main list holds the
    alerts of the last successful response, all of them whatever the
    filter of the state is, in descending order of timestamp and not in
    the order of the response; the sidebar is the first five alerts of
    the main list; the count of critical alerts is the one of the
    response. *)
Theorem alert_view_tracks_responses (evs : list Event) :
  let w := run evs initial in
  let fetched := alerts_fetched evs [] in
  let v := snd (render w) in
  mainList v = sort byRecency fetched
  /\ Permutation (mainList v) fetched
  /\ StronglySorted (fun a b => timestamp a >= timestamp b) (mainList v)
  /\ sidebar v = take 5 (mainList v)
  /\ criticalAlerts v
     = Z.of_nat (length (List.filter
                           (fun a => String.eqb (severity a) "critical") fetched)).
Proof.
  intros w fetched v.
  assert (Hinit : alerts_shared initial) by (right; split; reflexivity).
  destruct (run_tracks evs initial [] Hinit eq_refl) as [Hsh Hs].
  fold w in Hsh, Hs. fold fetched in Hs.
  assert (Hm : mainList v = sort byRecency fetched).
  { unfold v. now rewrite shared_mainList. }
  split; [exact Hm|]. split; [rewrite Hm; apply sort_Permutation|].
  split; [|split].
  - rewrite Hm.
    apply sorted_descending, sort_sorted;
      [apply byRecency_total | apply byRecency_trans].
  - rewrite Hm. unfold v. rewrite render_sidebar. now rewrite Hs.
  - destruct (render_counts w) as [Hc _].
    fold v in Hc. rewrite Hc. f_equal. apply filter_length_Permutation.
    rewrite Hm. apply sort_Permutation.
Qed.

End AlertViewFacts.

(** *** Renders and refreshes *)

Section AlertRefreshFacts.

Import JS Alerts.

(** X14: a render of the alert view changes the store at the array of
    [alerts] alone, and only the order of that array; a second render
    changes nothing more and computes the same counts, sidebar and main
    list as the first. *)
Theorem alert_render_settles (w : World) :
  step Render (step Render w) = step Render w
  /\ render (step Render w) = render w
  /\ (forall l, l <> alerts (snd w) ->
        Heap.read (fst (step Render w)) l = Heap.read (fst w) l)
  /\ Permutation (Heap.read (fst (step Render w)) (alerts (snd w)))
                 (Heap.read (fst w) (alerts (snd w))).
Proof.
  destruct w as [h s].
  assert (Hst : fst (render (step Render (h, s))) = fst (render (h, s))).
  { rewrite !render_store. cbn [step fst snd]. rewrite render_store. cbn [fst snd].
    rewrite read_write, sort_byRecency_twice.
    unfold Heap.write. apply insert_insert_eq. }
  assert (Hv : snd (render (step Render (h, s))) = snd (render (h, s))).
  { pose proof (render_counts (step Render (h, s))) as [Hc Hn].
    pose proof (render_counts (h, s)) as [Hc' Hn'].
    pose proof (render_sidebar (step Render (h, s))) as Hsb.
    pose proof (render_sidebar (h, s)) as Hsb'.
    assert (Hm : mainList (snd (render (step Render (h, s))))
                 = mainList (snd (render (h, s)))).
    { rewrite !render_mainList. cbn [step fst snd]. rewrite render_store.
      cbn [fst snd].
      destruct (Pos.eqb_spec (alerts s) (filteredAlerts s)) as [E|E].
      - now rewrite read_write, sort_byRecency_twice.
      - now apply read_write_other. }
    cbv zeta in Hc, Hn, Hc', Hn'. rewrite Hm in Hc, Hn.
    set (v1 := snd (render (step Render (h, s)))) in *.
    set (v2 := snd (render (h, s))) in *.
    cbn [step fst snd] in Hsb. rewrite render_store in Hsb. cbn [fst snd] in Hsb.
    rewrite read_write, sort_byRecency_twice in Hsb. cbn [fst snd] in Hsb'.
    clearbody v1 v2.
    destruct v1 as [c n sb m]. destruct v2 as [c' n' sb' m'].
    simpl in *. congruence. }
  split; [|split; [|split]].
  - change (step Render (step Render (h, s)))
      with (fst (render (step Render (h, s))), snd (step Render (h, s))).
    rewrite Hst. reflexivity.
  - rewrite (surjective_pairing (render (step Render (h, s)))).
    rewrite (surjective_pairing (render (h, s))). now rewrite Hst, Hv.
  - intros l Hl. cbn [step fst snd] in *. rewrite render_store. cbn [fst snd].
    apply read_write_other. congruence.
  - cbn [step fst snd]. rewrite render_store. cbn [fst snd].
    rewrite read_write. apply sort_Permutation.
Qed.

Lemma alert_render_settles_witness :
  Heap.read (fst (step Render fetched_world)) 1%positive
  = Heap.read (fst fetched_world) 1%positive.
Proof.
  destruct (alert_render_settles fetched_world) as (_ & _ & H & _).
  apply H. discriminate.
Defined.

(** X15: a refresh of the alert view, begun when no fetch is under way.
    While the response is awaited the view shows the loading indicator.
    A refresh that fails leaves the view as it was before, store and
    state. One that succeeds shows the alerts of the response, sorted,
    with their first five in the sidebar; the response is a new array,
    the arrays that the store held are as they were, and the filter is
    kept. *)
Theorem alert_view_through_refresh (w : World) (o : FetchOutcome Alert) :
  loading (snd w) = false ->
  let w' := run [FetchBegin; FetchSettle o] w in
  display (step FetchBegin w) = None
  /\ (failed o = true -> w' = w)
  /\ (forall result, o = Resolved result -> success result = true ->
        exists v,
          display w' = Some v
          /\ mainList v = sort byRecency (data result)
          /\ sidebar v = take 5 (mainList v)
          /\ filter (snd w') = filter (snd w)
          /\ forall l, l ∈ dom (fst w) -> Heap.read (fst w') l = Heap.read (fst w) l).
Proof.
  destruct w as [h s]. intros Hl w'. cbn [snd] in Hl.
  split; [reflexivity|]. split.
  - intros Hf. unfold w'. cbn [run step fst snd].
    assert (E : setLoading false (setLoading true s) = s).
    { destruct s as [f a l fa]. simpl in Hl. subst l. reflexivity. }
    unfold fetchAlerts_settle.
    destruct o as [|result]; simpl in Hf.
    + now rewrite E.
    + apply negb_true_iff in Hf. rewrite Hf. now rewrite E.
  - intros result -> Hs.
    assert (Ew : w' = (<[fresh (dom h) := data result]> h,
                       setLoading false
                         (setFilteredAlerts (fresh (dom h))
                            (setAlerts (fresh (dom h)) (setLoading true s))))).
    { unfold w'. cbn [run step fst snd]. unfold fetchAlerts_settle.
      rewrite Hs. reflexivity. }
    exists (snd (render w')). rewrite Ew.
    assert (Hr : Heap.read (<[fresh (dom h) := data result]> h) (fresh (dom h))
                 = data result).
    { unfold Heap.read. now rewrite lookup_insert_eq. }
    split; [reflexivity|]. split; [|split; [|split]].
    + rewrite shared_mainList by now left. cbn [fst snd]. simpl alerts.
      now rewrite Hr.
    + rewrite shared_mainList by now left. now rewrite render_sidebar.
    + reflexivity.
    + intros l Hin. cbn [fst]. unfold Heap.read.
      rewrite lookup_insert_ne; [reflexivity|].
      intros <-. now apply (is_fresh (dom h)).
Qed.

Lemma alert_view_through_refresh_witness :
  run [FetchBegin; FetchSettle Rejected] fetched_world = fetched_world.
Proof.
  assert (Hl : loading (snd fetched_world) = false) by reflexivity.
  destruct (alert_view_through_refresh fetched_world Rejected Hl) as (_ & H & _).
  apply H. reflexivity.
Defined.

End AlertRefreshFacts.

(** ** The age of an alert, in full *)

Section FormatTimeRangeFacts.

Import JS Alerts.

Lemma string_of_Z_negative (n : Z) :
  n < 0 -> string_of_Z n = String "-" (string_of_Z (- n)).
Proof. destruct n as [|p|p]; intros H; try lia. reflexivity. Qed.

(** X16: the numbers that [formatTime] prints. For an alert that is not
    in the future the count of minutes is between 0 and 59, the count of
    hours between 1 and 23 and the count of days at least 1, and in each
    case the elapsed time lies between the count and the count plus one
    of the unit. For an alert in the future the age is always given in
    minutes, with a minus sign: the count is the time ahead in minutes,
    rounded up. *)
Theorem formatTime_counts (now t : Z) :
  (t <= now ->
   exists n,
     (formatTime now t = string_of_Z n ++ " minutes ago"
      /\ 0 <= n < 60 /\ n * 60000 <= now - t < (n + 1) * 60000)
     \/ (formatTime now t = string_of_Z n ++ " hours ago"
         /\ 1 <= n < 24 /\ n * 3600000 <= now - t < (n + 1) * 3600000)
     \/ (formatTime now t = string_of_Z n ++ " days ago"
         /\ 1 <= n /\ n * 86400000 <= now - t < (n + 1) * 86400000))
  /\ (now < t ->
      exists n,
        formatTime now t = String "-" (string_of_Z n ++ " minutes ago")
        /\ 1 <= n /\ (n - 1) * 60000 < t - now <= n * 60000).
Proof.
  unfold formatTime, Math_floor_div. split.
  - intros Hle.
    pose proof (Z.div_mod (now - t) 60000 ltac:(lia)) as Em.
    pose proof (Z.mod_pos_bound (now - t) 60000 ltac:(lia)) as Bm.
    pose proof (Z.div_mod (now - t) 3600000 ltac:(lia)) as Eh.
    pose proof (Z.mod_pos_bound (now - t) 3600000 ltac:(lia)) as Bh.
    pose proof (Z.div_mod (now - t) 86400000 ltac:(lia)) as Ed.
    pose proof (Z.mod_pos_bound (now - t) 86400000 ltac:(lia)) as Bd.
    destruct (Z.ltb_spec ((now - t) / 60000) 60) as [Hm|Hm].
    + exists ((now - t) / 60000). left. split; [reflexivity|]. lia.
    + destruct (Z.ltb_spec ((now - t) / 3600000) 24) as [Hh|Hh].
      * exists ((now - t) / 3600000). right; left. split; [reflexivity|]. lia.
      * exists ((now - t) / 86400000). right; right. split; [reflexivity|]. lia.
  - intros Hlt.
    pose proof (Z.div_mod (now - t) 60000 ltac:(lia)) as Em.
    pose proof (Z.mod_pos_bound (now - t) 60000 ltac:(lia)) as Bm.
    assert (Hn : (now - t) / 60000 < 0) by lia.
    destruct (Z.ltb_spec ((now - t) / 60000) 60) as [Hm|Hm]; [|lia].
    exists (- ((now - t) / 60000)).
    rewrite string_of_Z_negative by exact Hn. split; [reflexivity|]. lia.
Qed.

Lemma formatTime_counts_witness :
  exists n,
    formatTime 1705314600000 (1705314600000 + 172800000)
    = String "-" (string_of_Z n ++ " minutes ago")
    /\ 1 <= n /\ (n - 1) * 60000 < 172800000 <= n * 60000.
Proof.
  destruct (formatTime_counts 1705314600000 (1705314600000 + 172800000))
    as [_ H].
  destruct H as (n & E & H1 & H2); [lia|].
  exists n. split; [exact E|]. split; [exact H1|]. lia.
Defined.

End FormatTimeRangeFacts.
